(** * Glances: the CPU plugin and the Rich live display

    A shallow embedding of [glances/plugins/cpu/model.py] (the sampled-metric
    pipeline of the CPU plugin) and of [glances/outputs/glances_rich.py] (the
    live layout and refresh loop), followed by the properties the
    specification states about them.

    Python values are embedded as follows: [int] is [Z]; [float] is an exact
    rational [Q]; [str] is [string]; [None]-able values are [option]; a [dict]
    with string keys is a [gmap string _]; exceptions are an explicit error
    result; attribute and global mutation is explicit state passing. *)

From Stdlib Require Import ZArith QArith Qround String Ascii List Lia.
From stdpp Require Import base option list strings gmap pretty.

Local Open Scope string_scope.
Local Open Scope list_scope.
Local Open Scope Z_scope.
Local Set Warnings "-register-all".

(** ** Python layer: exceptions, numbers, strings, dynamic values *)

Module Py.

(** The exceptions the embedded code can raise. [Exception] stands for an
    arbitrary failure of an external collaborator. *)
Inductive exn :=
| KeyError (key : string)
| TypeError (what : string)
| AttributeError (attr : string)
| ZeroDivisionError
| Exception (what : string).

Inductive result (A : Type) :=
| Ok (a : A)
| Raise (e : exn).
Arguments Ok {A} a.
Arguments Raise {A} e.

#[global] Instance result_ret : MRet result := fun A a => Ok a.
#[global] Instance result_bind : MBind result := fun A B f r =>
  match r with
  | Ok a => f a
  | Raise e => Raise e
  end.
#[global] Instance result_fmap : FMap result := fun A B f r =>
  match r with
  | Ok a => Ok (f a)
  | Raise e => Raise e
  end.

Definition is_ok {A} (r : result A) : bool :=
  match r with Ok _ => true | Raise _ => false end.

(** [for x in l: acc = f(acc, x)] where the body can raise. *)
Fixpoint for_each {A S : Type} (f : S -> A -> result S) (l : list A) (acc : S)
  : result S :=
  match l with
  | [] => Ok acc
  | x :: rest => acc' ← f acc x; for_each f rest acc'
  end.

(** [[f(x) for x in l]] where [f] can raise. *)
Fixpoint comprehension {A B : Type} (f : A -> result B) (l : list A)
  : result (list B) :=
  match l with
  | [] => Ok []
  | x :: rest => y ← f x; ys ← comprehension f rest; Ok (y :: ys)
  end.

(** [[f(x) for x in l if cond(x)]] where [cond] and [f] can raise. *)
Fixpoint comprehension_if {A B : Type} (cond : A -> result bool)
  (f : A -> result B) (l : list A) : result (list B) :=
  match l with
  | [] => Ok []
  | x :: rest =>
      c ← cond x;
      if (c : bool) then y ← f x; ys ← comprehension_if cond f rest; Ok (y :: ys)
      else comprehension_if cond f rest
  end.

(** *** Numbers *)

Inductive num :=
| Int (z : Z)
| Float (q : Q).

Definition to_Q (n : num) : Q :=
  match n with
  | Int z => inject_Z z
  | Float q => q
  end.

Definition num_is_zero (n : num) : bool :=
  match n with
  | Int z => z =? 0
  | Float q => Qeq_bool q 0
  end.

(** [a * b] *)
Definition mul (a b : num) : num :=
  match a, b with
  | Int x, Int y => Int (x * y)
  | _, _ => Float (Qred (to_Q a * to_Q b))
  end.

(** [a // b]: floor division; an [int] when both operands are, a [float]
    holding an integral value otherwise. *)
Definition floordiv (a b : num) : result num :=
  if num_is_zero b then Raise ZeroDivisionError
  else match a, b with
       | Int x, Int y => Ok (Int (x / y))
       | _, _ => Ok (Float (inject_Z (Qfloor (to_Q a / to_Q b))))
       end.

(** [a / b]: true division. *)
Definition truediv (a b : num) : result num :=
  if num_is_zero b then Raise ZeroDivisionError
  else Ok (Float (Qred (to_Q a / to_Q b))).

(** [int(n)]: truncation towards zero. *)
Definition int (n : num) : Z :=
  match n with
  | Int z => z
  | Float q => if Qle_bool 0 q then Qfloor q else Qceiling q
  end.

(** [a <= b] *)
Definition le (a b : num) : bool := Qle_bool (to_Q a) (to_Q b).

(** [a > b] *)
Definition gt (a b : num) : bool := negb (Qle_bool (to_Q a) (to_Q b)).

(** [max(a, b)] on integers. *)
Definition max (a b : Z) : Z := Z.max a b.

(** *** Strings *)

Definition newline : string := String "010"%char EmptyString.

(** [len(s)] *)
Definition len (s : string) : Z := Z.of_nat (String.length s).

(** [str(z)] for an [int]. *)
Definition str (z : Z) : string := pretty z.

Fixpoint spaces (n : nat) : string :=
  match n with
  | O => ""
  | S n' => String " "%char (spaces n')
  end.

(** [s.ljust(w)], the [{:w}] template applied to a string. *)
Definition ljust (w : nat) (s : string) : string :=
  s +:+ spaces (w - String.length s).

(** [s.rjust(w)], the [{:>w}] template, and [{:w}] applied to a number. *)
Definition rjust (w : nat) (s : string) : string :=
  spaces (w - String.length s) +:+ s.

(** [''.join(l)] *)
Fixpoint join (l : list string) : string :=
  match l with
  | [] => ""
  | s :: rest => s +:+ join rest
  end.

(** [s.split('\n')]: never empty. *)
Fixpoint split_lines (s : string) : list string :=
  match s with
  | EmptyString => [""]
  | String c rest =>
      if Ascii.eqb c "010"%char then "" :: split_lines rest
      else match split_lines rest with
           | [] => [String c ""]
           | line :: lines => String c line :: lines
           end
  end.

(** [max(l, key=len)]: the first element of maximal length; raises on an
    empty sequence. *)
Fixpoint max_by_len (l : list string) : result string :=
  match l with
  | [] => Raise (Exception "max() arg is an empty sequence")
  | s :: rest =>
      match rest with
      | [] => Ok s
      | _ => best ← max_by_len rest;
             Ok (if (String.length s <? String.length best)%nat then best else s)
      end
  end.

Definition upper_char (c : ascii) : ascii :=
  let n := nat_of_ascii c in
  if ((97 <=? n) && (n <=? 122))%nat then ascii_of_nat (n - 32) else c.

Definition lower_char (c : ascii) : ascii :=
  let n := nat_of_ascii c in
  if ((65 <=? n) && (n <=? 90))%nat then ascii_of_nat (n + 32) else c.

Fixpoint lower (s : string) : string :=
  match s with
  | EmptyString => ""
  | String c rest => String (lower_char c) (lower rest)
  end.

(** [s.capitalize()] *)
Definition capitalize (s : string) : string :=
  match s with
  | EmptyString => ""
  | String c rest => String (upper_char c) (lower rest)
  end.

(** [ord(c)] *)
Definition ord (c : ascii) : Z := Z.of_nat (nat_of_ascii c).

(** Round to the nearest integer, ties to even. *)
Definition round_half_even (q : Q) : Z :=
  let f := Qfloor q in
  match Qcompare (q - inject_Z f) (1 # 2) with
  | Lt => f
  | Gt => f + 1
  | Eq => if Z.even f then f else f + 1
  end.

(** ['{:5.1f}'.format(n)]: one decimal, right-aligned on five columns. *)
Definition format_5_1f (n : num) : string :=
  let q := to_Q n in
  let t := Z.abs (round_half_even (q * 10)) in
  let sign := if Qle_bool 0 q then "" else "-" in
  rjust 5 (sign +:+ str (t / 10) +:+ "." +:+ str (t mod 10)).

(** *** Dynamic values *)

Inductive pyval :=
| PNone
| PBool (b : bool)
| PNum (n : num)
| PStr (s : string)
| PList (l : list pyval)
| PDict (d : list (string * pyval)).

Fixpoint assoc {A} (k : string) (d : list (string * A)) : option A :=
  match d with
  | [] => None
  | (k', v) :: rest => if String.eqb k' k then Some v else assoc k rest
  end.

(** [v[key]] for a string key. *)
Definition getitem (v : pyval) (key : string) : result pyval :=
  match v with
  | PDict d =>
      match assoc key d with
      | Some x => Ok x
      | None => Raise (KeyError key)
      end
  | PStr _ => Raise (TypeError "string indices must be integers")
  | PList _ => Raise (TypeError "list indices must be integers or slices")
  | _ => Raise (TypeError "object is not subscriptable")
  end.

Fixpoint chars (s : string) : list pyval :=
  match s with
  | EmptyString => []
  | String c rest => PStr (String c "") :: chars rest
  end.

(** The items [for i in v] yields. *)
Definition iterate (v : pyval) : result (list pyval) :=
  match v with
  | PList l => Ok l
  | PDict d => Ok (map (fun kv => PStr (fst kv)) d)
  | PStr s => Ok (chars s)
  | _ => Raise (TypeError "object is not iterable")
  end.

(** Truth value of an object. *)
Definition truthy (v : pyval) : bool :=
  match v with
  | PNone => false
  | PBool b => b
  | PNum n => negb (num_is_zero n)
  | PStr s => negb (String.eqb s "")
  | PList l => match l with [] => false | _ => true end
  | PDict d => match d with [] => false | _ => true end
  end.

(** [v == '\n'] *)
Definition is_newline (v : pyval) : bool :=
  match v with
  | PStr s => String.eqb s newline
  | _ => false
  end.

(** [l.count('\n')] *)
Definition count_newline (l : list pyval) : Z :=
  Z.of_nat (length (filter (fun v => is_newline v = true) l)).

(** [''.join(l)] on dynamic values: every item must be a [str]. *)
Fixpoint join_vals (l : list pyval) : result string :=
  match l with
  | [] => Ok ""
  | PStr s :: rest => r ← join_vals rest; Ok (s +:+ r)
  | _ :: _ => Raise (TypeError "sequence item: expected str instance")
  end.

End Py.

(** ** The CPU plugin: [glances/plugins/cpu/model.py] *)

Module Cpu.
Import Py.

(** [self.stats]: the Snapshot, a dict from field name to number. *)
Abbreviation Stats := (gmap string num).

(** A [namedtuple] as psutil returns it: the ordered [_fields] with their
    values. *)
Abbreviation namedtuple A := (list (string * A)).

Definition _fields {A} (t : namedtuple A) : list string := map fst t.

(** [getattr(t, name)] *)
Definition getattr {A} (t : namedtuple A) (name : string) : result A :=
  match assoc name t with
  | Some v => Ok v
  | None => Raise (AttributeError name)
  end.

(** [key in d] *)
Definition contains {V} (d : gmap string V) (key : string) : bool :=
  match d !! key with Some _ => true | None => false end.

(** [d[key]] *)
Definition item {V} (d : gmap string V) (key : string) : result V :=
  match d !! key with
  | Some v => Ok v
  | None => Raise (KeyError key)
  end.

(** One entry of [self.views]. *)
Record View := { decoration : string; optional : bool }.

Abbreviation Views := (gmap string View).

(** Modelled from the spec: the DisplayLine that
    [GlancesPluginModel.curse_add_line] builds, a fragment of text with its
    style tag and its [optional] flag. *)
Record CurseLine := { msg : string; line_decoration : string; line_optional : bool }.

(** What the plugin reads from its environment in one sampling pass. *)
Record Sample := {
  cpu_percent_get : num;                       (* cpu_percent.get() *)
  cpu_times_percent : namedtuple num;          (* psutil.cpu_times_percent(interval=0.0) *)
  cpu_stats : namedtuple (option Z);           (* psutil.cpu_stats() *)
  getTimeSinceLastUpdate : num                 (* getTimeSinceLastUpdate('cpu') *)
}.

(** The attributes of a [PluginModel] instance. [cpu_stats_old = None] is the
    instance on which [hasattr(self, 'cpu_stats_old')] is false. *)
Record PluginModel := {
  input_method : string;
  args_percpu : bool;
  nb_log_core : Z;
  cpu_stats_old : option (namedtuple (option Z));
  stats : Stats;
  views : Views
}.

(** The methods inherited from [GlancesPluginModel] and the globals of
    [glances.globals] the plugin calls; their code lies outside the plugin. *)
Class PluginBase := {
  get_init_value : Stats;
  update_snmp : PluginModel -> result Stats;
  get_trend : string -> option Z;
  trend_msg : option Z -> string;
  auto_unit : Z -> string;
  get_alert : num -> option num -> string -> string;  (* current, maximum=, header= *)
  get_alert_log : num -> string -> string;
  is_disabled : bool;
  float_str : Q -> string;
  LINUX : bool
}.

Section plugin.
Context `{PluginBase}.

Definition with_cpu_stats_old (self : PluginModel) (old : namedtuple (option Z))
  : PluginModel :=
  {| input_method := input_method self; args_percpu := args_percpu self;
     nb_log_core := nb_log_core self; cpu_stats_old := Some old;
     stats := stats self; views := views self |}.

Definition with_stats (self : PluginModel) (s : Stats) : PluginModel :=
  {| input_method := input_method self; args_percpu := args_percpu self;
     nb_log_core := nb_log_core self; cpu_stats_old := cpu_stats_old self;
     stats := s; views := views self |}.

Definition with_views (self : PluginModel) (v : Views) : PluginModel :=
  {| input_method := input_method self; args_percpu := args_percpu self;
     nb_log_core := nb_log_core self; cpu_stats_old := cpu_stats_old self;
     stats := stats self; views := v |}.

(** [current - previous] on two counter readings, either of which may be
    [None]. *)
Definition counter_sub (current previous : option Z) : result num :=
  match current, previous with
  | Some c, Some p => Ok (Int (c - p))
  | _, _ => Raise (TypeError "unsupported operand type(s) for -")
  end.

(** The body of the loop over [cpu_stats._fields] once a previous reading
    exists. *)
Definition delta_step (cur old : namedtuple (option Z)) (stats : Stats)
  (stat : string) : result Stats :=
  current ← getattr cur stat;
  match current with
  | Some _ =>
      previous ← getattr old stat;
      delta ← counter_sub current previous;
      Ok (<[stat := delta]> stats)
  | None => Ok stats
  end.

(** [update_local]: returns the new stats and the instance with
    [cpu_stats_old] saved. When it raises the instance is unchanged. *)
Definition update_local (self : PluginModel) (src : Sample)
  : result (Stats * PluginModel) :=
  let stats := get_init_value in
  let stats := <["total" := cpu_percent_get src]> stats in
  let cpu_times_percent := cpu_times_percent src in
  stats ← for_each (fun stats stat =>
             v ← getattr cpu_times_percent stat;
             Ok (<[stat := v]> stats))
           (_fields cpu_times_percent) stats;
  let cpu_stats := cpu_stats src in
  let stats := <["time_since_update" := getTimeSinceLastUpdate src]> stats in
  let stats := <["cpucore" := Int (nb_log_core self)]> stats in
  stats ←
    match cpu_stats_old self with
    | None =>
        for_each (fun stats stat => Ok (<[stat := Int 0]> stats))
                 (_fields cpu_stats) stats
    | Some cpu_stats_old =>
        for_each (delta_step cpu_stats cpu_stats_old) (_fields cpu_stats) stats
    end;
  Ok (stats, with_cpu_stats_old self cpu_stats).

(** [update], without its two decorators. *)
Definition update (self : PluginModel) (src : Sample)
  : result (Stats * PluginModel) :=
  '(stats, self) ←
    (if String.eqb (input_method self) "local" then update_local self src
     else if String.eqb (input_method self) "snmp" then
       stats ← update_snmp self; Ok (stats, self)
     else Ok (get_init_value, self));
  Ok (stats, with_stats self stats).

(** Modelled from the spec: [GlancesPluginModel.update_views], which
    [update_views] calls first. It gives every field of the Snapshot, and no
    other, a ViewSet entry with no severity and [optional] false. *)
Definition base_update_views (stats : Stats) : Views :=
  (fun _ => {| decoration := "DEFAULT"; optional := false |}) <$> stats.

(** Every field of the Snapshot has its entry in the views. *)
Definition covers (stats : Stats) (views : Views) : Prop :=
  forall k, is_Some (stats !! k) -> is_Some (views !! k).

(** [views[key]['decoration'] = d] *)
Definition set_decoration (views : Views) (key d : string) : result Views :=
  v ← item views key;
  Ok (<[key := {| decoration := d; optional := optional v |}]> views).

(** [views[key]['optional'] = b] *)
Definition set_optional (views : Views) (key : string) (b : bool) : result Views :=
  v ← item views key;
  Ok (<[key := {| decoration := decoration v; optional := b |}]> views).

(** [update_views]: the instance with the views the call leaves in
    [self.views] when it returns. *)
Definition update_views (self : PluginModel) : result PluginModel :=
  let stats := stats self in
  let views := base_update_views stats in
  views ← for_each (fun views key =>
             if contains stats key then
               v ← item stats key;
               set_decoration views key (get_alert_log v key)
             else Ok views)
           ["user"; "system"; "iowait"; "total"] views;
  views ← for_each (fun views key =>
             if contains stats key then
               v ← item stats key;
               set_decoration views key (get_alert v None key)
             else Ok views)
           ["steal"] views;
  views ← for_each (fun views key =>
             if contains stats key then
               v ← item stats key;
               cpucore ← item stats "cpucore";
               set_decoration views key
                 (get_alert v (Some (mul (Int 100) cpucore)) key)
             else Ok views)
           ["ctx_switches"] views;
  views ← for_each (fun views key =>
             if contains stats key then set_optional views key true
             else Ok views)
           ["nice"; "irq"; "idle"; "steal"; "ctx_switches"; "interrupts";
            "soft_interrupts"; "syscalls"] views;
  Ok (with_views self views).

(** Modelled from the spec: [curse_add_line(msg, decoration,
    optional=optional)], with "DEFAULT" and [false] where the source leaves
    an argument out. *)
Definition curse_add_line (msg decoration : string) (optional : bool) : CurseLine :=
  {| msg := msg; line_decoration := decoration; line_optional := optional |}.

(** Modelled from the spec: [curse_new_line()], the explicit line-break
    sentinel. *)
Definition curse_new_line : CurseLine := curse_add_line newline "DEFAULT" false.

(** Modelled from the spec: [get_views(key=key, option='decoration')], a
    read of the field's ViewSet entry. *)
Definition get_views_decoration (self : PluginModel) (key : string) : result string :=
  decoration <$> item (views self) key.

(** Modelled from the spec: [get_views(key=key, option='optional')]. *)
Definition get_views_optional (self : PluginModel) (key : string) : result bool :=
  optional <$> item (views self) key.

(** [trend_user + trend_system] *)
Definition trend_add (a b : option Z) : result Z :=
  match a, b with
  | Some x, Some y => Ok (x + y)
  | _, _ => Raise (TypeError "unsupported operand type(s) for +")
  end.

(** [str(n)], as the [{:>6}] template renders a number. *)
Definition num_str (n : num) : string :=
  match n with
  | Int z => str z
  | Float q => float_str q
  end.

(** [int(self.stats[key] // self.stats['time_since_update'])] *)
Definition per_second (self : PluginModel) (key : string) : result Z :=
  v ← item (stats self) key;
  t ← item (stats self) "time_since_update";
  r ← floordiv v t;
  Ok (int r).

(** [msg_curse]. Each commented block of the source yields the fragments it
    appends to [ret], in the order the source evaluates them. *)
Definition msg_curse (self : PluginModel) : result (list CurseLine) :=
  (* Only process if stats exist and plugin not disable *)
  if (size (stats self) =? 0)%nat || args_percpu self || is_disabled then Ok []
  else
  let idle_tag := negb (contains (stats self) "user") in
  (* Header *)
  header ←
    (let msg := "CPU" in
     let title := curse_add_line msg "TITLE" false in
     let trend_user := get_trend "user" in
     let trend_system := get_trend "system" in
     trend_cpu ←
       (if bool_decide (trend_user = None) || bool_decide (trend_user = None)
        then Ok None
        else Some <$> trend_add trend_user trend_system);
     let msg := " " +:+ ljust 4 (trend_msg trend_cpu) in
     Ok [title; curse_add_line msg "DEFAULT" false]);
  (* Total CPU usage *)
  total ←
    (total ← item (stats self) "total";
     let msg := format_5_1f total +:+ "%" in
     d ← get_views_decoration self "total";
     Ok [curse_add_line msg d false]);
  (* Idle CPU *)
  idle ←
    (if contains (stats self) "idle" && negb idle_tag then
       let msg1 := "  " +:+ ljust 8 "idle:" in
       o1 ← get_views_optional self "idle";
       idle ← item (stats self) "idle";
       let msg2 := format_5_1f idle +:+ "%" in
       o2 ← get_views_optional self "idle";
       Ok [curse_add_line msg1 "DEFAULT" o1; curse_add_line msg2 "DEFAULT" o2]
     else Ok []);
  (* ctx_switches *)
  ctx_switches ←
    (if contains (stats self) "ctx_switches" then
       let msg1 := "  " +:+ ljust 8 "ctx_sw:" in
       o1 ← get_views_optional self "ctx_switches";
       rate ← per_second self "ctx_switches";
       let msg2 := rjust 5 (auto_unit rate) in
       d ← get_views_decoration self "ctx_switches";
       o2 ← get_views_optional self "ctx_switches";
       Ok [curse_add_line msg1 "DEFAULT" o1; curse_add_line msg2 d o2]
     else Ok []);
  (* User CPU *)
  user ←
    (if contains (stats self) "user" then
       let msg1 := ljust 8 "user:" in
       user ← item (stats self) "user";
       let msg2 := format_5_1f user +:+ "%" in
       d ← get_views_decoration self "user";
       Ok [curse_add_line msg1 "DEFAULT" false; curse_add_line msg2 d false]
     else if contains (stats self) "idle" then
       let msg1 := ljust 8 "idle:" in
       idle ← item (stats self) "idle";
       let msg2 := format_5_1f idle +:+ "%" in
       Ok [curse_add_line msg1 "DEFAULT" false;
           curse_add_line msg2 "DEFAULT" false]
     else Ok []);
  (* IRQ CPU *)
  irq ←
    (if contains (stats self) "irq" then
       let msg1 := "  " +:+ ljust 8 "irq:" in
       o1 ← get_views_optional self "irq";
       irq ← item (stats self) "irq";
       let msg2 := format_5_1f irq +:+ "%" in
       o2 ← get_views_optional self "irq";
       Ok [curse_add_line msg1 "DEFAULT" o1; curse_add_line msg2 "DEFAULT" o2]
     else Ok []);
  (* interrupts *)
  interrupts ←
    (if contains (stats self) "interrupts" then
       let msg1 := "  " +:+ ljust 8 "inter:" in
       o1 ← get_views_optional self "interrupts";
       rate ← per_second self "interrupts";
       let msg2 := rjust 5 (str rate) in
       o2 ← get_views_optional self "interrupts";
       Ok [curse_add_line msg1 "DEFAULT" o1; curse_add_line msg2 "DEFAULT" o2]
     else Ok []);
  (* System CPU *)
  system ←
    (if contains (stats self) "system" && negb idle_tag then
       let msg1 := ljust 8 "system:" in
       system ← item (stats self) "system";
       let msg2 := format_5_1f system +:+ "%" in
       d ← get_views_decoration self "system";
       Ok [curse_add_line msg1 "DEFAULT" false; curse_add_line msg2 d false]
     else
       let msg1 := ljust 8 "core:" in
       core ← item (stats self) "nb_log_core";
       let msg2 := rjust 6 (num_str core) in
       Ok [curse_add_line msg1 "DEFAULT" false;
           curse_add_line msg2 "DEFAULT" false]);
  (* Nice CPU *)
  nice ←
    (if contains (stats self) "nice" then
       let msg1 := "  " +:+ ljust 8 "nice:" in
       o1 ← get_views_optional self "nice";
       nice ← item (stats self) "nice";
       let msg2 := format_5_1f nice +:+ "%" in
       o2 ← get_views_optional self "nice";
       Ok [curse_add_line msg1 "DEFAULT" o1; curse_add_line msg2 "DEFAULT" o2]
     else Ok []);
  (* soft_interrupts *)
  soft_interrupts ←
    (if contains (stats self) "soft_interrupts" then
       let msg1 := "  " +:+ ljust 8 "sw_int:" in
       o1 ← get_views_optional self "soft_interrupts";
       rate ← per_second self "soft_interrupts";
       let msg2 := rjust 5 (str rate) in
       o2 ← get_views_optional self "soft_interrupts";
       Ok [curse_add_line msg1 "DEFAULT" o1; curse_add_line msg2 "DEFAULT" o2]
     else Ok []);
  (* IOWait CPU *)
  iowait ←
    (if contains (stats self) "iowait" then
       let msg1 := ljust 8 "iowait:" in
       o1 ← get_views_optional self "iowait";
       iowait ← item (stats self) "iowait";
       let msg2 := format_5_1f iowait +:+ "%" in
       d ← get_views_decoration self "iowait";
       o2 ← get_views_optional self "iowait";
       Ok [curse_add_line msg1 "DEFAULT" o1; curse_add_line msg2 d o2]
     else Ok []);
  (* Steal CPU usage *)
  steal ←
    (if contains (stats self) "steal" then
       let msg1 := "  " +:+ ljust 8 "steal:" in
       o1 ← get_views_optional self "steal";
       steal ← item (stats self) "steal";
       let msg2 := format_5_1f steal +:+ "%" in
       d ← get_views_decoration self "steal";
       o2 ← get_views_optional self "steal";
       Ok [curse_add_line msg1 "DEFAULT" o1; curse_add_line msg2 d o2]
     else Ok []);
  (* syscalls: always 0 on Linux, not displayed there *)
  syscalls ←
    (if contains (stats self) "syscalls" && negb LINUX then
       let msg1 := "  " +:+ ljust 8 "syscal:" in
       o1 ← get_views_optional self "syscalls";
       rate ← per_second self "syscalls";
       let msg2 := rjust 5 (str rate) in
       o2 ← get_views_optional self "syscalls";
       Ok [curse_add_line msg1 "DEFAULT" o1; curse_add_line msg2 "DEFAULT" o2]
     else Ok []);
  (* Return the message with decoration *)
  Ok (header ++ total ++ idle ++ ctx_switches ++ [curse_new_line]
      ++ user ++ irq ++ interrupts ++ [curse_new_line]
      ++ system ++ nice ++ soft_interrupts ++ [curse_new_line]
      ++ iowait ++ steal ++ syscalls).

(** The label and the value [msg_curse] renders for a counter field at the
    per-second rate [rate]. *)
Definition counter_fragments (field : string) (rate : Z) (label value : string)
  : Prop :=
  (field = "ctx_switches" /\ label = "  " +:+ ljust 8 "ctx_sw:"
   /\ value = rjust 5 (auto_unit rate))
  \/ (field = "interrupts" /\ label = "  " +:+ ljust 8 "inter:"
      /\ value = rjust 5 (str rate))
  \/ (field = "soft_interrupts" /\ label = "  " +:+ ljust 8 "sw_int:"
      /\ value = rjust 5 (str rate))
  \/ (field = "syscalls" /\ label = "  " +:+ ljust 8 "syscal:"
      /\ value = rjust 5 (str rate)).

End plugin.
End Cpu.

(** ** The Rich display: [glances/outputs/glances_rich.py] *)

Module Rich.
Import Py.

(** Plugins order in the TUI menu. *)
Definition _top : list string :=
  ["cpu"; "percpu"; "gpu"; "mem"; "memswap"; "load"; "quicklook"].

Definition _middle_left : list string :=
  ["network"; "connections"; "wifi"; "ports"; "diskio"; "fs"; "irq";
   "folders"; "raid"; "smart"; "sensors"].

Definition _middle_left_width : Z := 34.

Definition _middle_right : list string :=
  ["docker"; "processcount"; "amps"; "processlist"; "alert"].

Definition _bottom : list string := ["now"].

(** [p in names] *)
Definition member (p : string) (names : list string) : bool :=
  existsb (String.eqb p) names.

(** *** The layout tree of the [rich] library *)

Inductive Renderable :=
| Placeholder
| Panel (data title subtitle : string).

Inductive Splitter := RowSplitter | ColumnSplitter.

Inductive Layout :=
| Node (renderable : Renderable) (name : option string) (size : option Z)
       (splitter : Splitter) (children : list Layout).

(** [Layout(renderable, name=name, size=size)]; a new layout has no
    children and the column splitter. [renderable=False] and an omitted
    renderable both give the placeholder. *)
Definition new_layout (r : Renderable) (name : option string) (size : option Z)
  : Layout :=
  Node r name size ColumnSplitter [].

Definition layout_name (l : Layout) : option string :=
  match l with Node _ n _ _ _ => n end.

Definition layout_renderable (l : Layout) : Renderable :=
  match l with Node r _ _ _ _ => r end.

Definition layout_children (l : Layout) : list Layout :=
  match l with Node _ _ _ _ c => c end.

Definition name_is (n : option string) (name : string) : bool :=
  match n with
  | Some n' => String.eqb n' name
  | None => false
  end.

(** The first child on which [f] answers, in order. *)
Definition first_hit {A} (f : Layout -> option A) : list Layout -> option A :=
  fix first (cs : list Layout) : option A :=
    match cs with
    | [] => None
    | c :: cs' =>
        match f c with
        | Some found => Some found
        | None => first cs'
        end
    end.

(** [layout.get(name)]: the layout itself when it bears the name, otherwise
    the first hit among its children, depth first. *)
Fixpoint layout_get (name : string) (l : Layout) : option Layout :=
  match l with
  | Node _ n _ _ children =>
      if name_is n name then Some l
      else first_hit (layout_get name) children
  end.

(** [l.split_row] and [l.split_column] on the given layouts: replace the
    splitter and the children of [l]. *)
Definition split (sp : Splitter) (layouts : list Layout) (l : Layout) : Layout :=
  match l with
  | Node r n s _ _ => Node r n s sp layouts
  end.

(** The children with the first one on which [f] answers replaced by that
    answer. *)
Definition update_first (f : Layout -> option Layout)
  : list Layout -> option (list Layout) :=
  fix first (cs : list Layout) : option (list Layout) :=
    match cs with
    | [] => None
    | c :: cs' =>
        match f c with
        | Some c' => Some (c' :: cs')
        | None => option_map (cons c) (first cs')
        end
    end.

(** [layout[name].split_row] (or [split_column]) as an update of the tree that
    holds the named layout; [None] when no layout bears the name. *)
Fixpoint split_named (name : string) (sp : Splitter) (layouts : list Layout)
  (l : Layout) : option Layout :=
  match l with
  | Node r n s sp0 children =>
      if name_is n name then Some (Node r n s sp layouts)
      else option_map (Node r n s sp0)
             (update_first (split_named name sp layouts) children)
  end.

(** The children of the layout that bears [name]. *)
Definition zone (l : Layout) (name : string) : list Layout :=
  match layout_get name l with
  | Some z => layout_children z
  | None => []
  end.

(** [layout[name]] *)
Definition layout_getitem (l : Layout) (name : string) : result Layout :=
  match layout_get name l with
  | Some found => Ok found
  | None => Raise (KeyError name)
  end.

(** *** The collaborators of the display *)

(** A plugin, seen through [get_stats_display(args=self.args,
    max_width=max_width)]. *)
Record Plugin := { get_stats_display : option Z -> result pyval }.

(** The [stats] object: [getPluginsList(enable=False)] and [get_plugin]. *)
Record GlancesStats := {
  getPluginsList : list string;
  get_plugin : string -> option Plugin
}.

(** [glances.compat]: [u(u(nativestr(x)).encode('ascii', 'replace'))]. *)
Class Compat := { ascii_replace : pyval -> result string }.

Inductive LogRecord :=
| LogWarning (message : string)
| LogDebug (message : string) (cause : exn).

(** One turn of the wait loop as the environment presents it: what
    [countdown.finished()] answers at the loop head, and the character
    [kb.getch()] would return when [kb.kbhit()] holds. *)
Record Tick := { finished : bool; kbhit : option ascii }.

(** Everything the display reads and writes: its own [layout] and [live]
    surface, the shared process registry, the logger, the countdown of the
    running cycle and the turns still to come. Past the end of [ticks] the
    countdown has expired. *)
Record World := {
  layout : Layout;                 (* self.layout *)
  frames : list Layout;            (* self.live.update(layout, refresh=True) *)
  max_processes : option Z;        (* glances_processes.max_processes *)
  log : list LogRecord;            (* logger *)
  countdown : option num;          (* Timer(duration) *)
  ticks : list Tick                (* self.kb and the clock *)
}.

(** [GlancesRich.__init__]: [self.layout = Layout()]. *)
Definition init_layout : Layout := new_layout Placeholder None None.

(** Computations over the world that may raise; state changes made before a
    raise persist. *)
Definition M (A : Type) : Type := World -> result A * World.

#[global] Instance M_ret : MRet M := fun A a w => (Ok a, w).
#[global] Instance M_bind : MBind M := fun A B f m w =>
  match m w with
  | (Ok a, w') => f a w'
  | (Raise e, w') => (Raise e, w')
  end.

Definition lift {A} (r : result A) : M A := fun w => (r, w).

Definition with_layout (w : World) (l : Layout) : World :=
  {| layout := l; frames := frames w; max_processes := max_processes w;
     log := log w; countdown := countdown w; ticks := ticks w |}.

Definition set_layout (l : Layout) : M unit := fun w => (Ok (), with_layout w l).

Definition set_max_processes (n : Z) : M unit := fun w =>
  (Ok (), {| layout := layout w; frames := frames w; max_processes := Some n;
             log := log w; countdown := countdown w; ticks := ticks w |}).

Definition logger (r : LogRecord) : M unit := fun w =>
  (Ok (), {| layout := layout w; frames := frames w;
             max_processes := max_processes w; log := log w ++ [r];
             countdown := countdown w; ticks := ticks w |}).

(** [Timer(duration)] *)
Definition Timer (duration : num) : M unit := fun w =>
  (Ok (), {| layout := layout w; frames := frames w;
             max_processes := max_processes w; log := log w;
             countdown := Some duration; ticks := ticks w |}).

Definition set_ticks (t : list Tick) : M unit := fun w =>
  (Ok (), {| layout := layout w; frames := frames w;
             max_processes := max_processes w; log := log w;
             countdown := countdown w; ticks := t |}).

(** [self.live.update(self.layout, refresh=True)] *)
Definition live_update : M unit := fun w =>
  (Ok (), {| layout := layout w; frames := frames w ++ [layout w];
             max_processes := max_processes w; log := log w;
             countdown := countdown w; ticks := ticks w |}).

Definition get_layout : M Layout := fun w => (Ok (layout w), w).

Definition get_ticks : M (list Tick) := fun w => (Ok (ticks w), w).

(** [self.layout.split_column] *)
Definition layout_split_column (layouts : list Layout) : M unit :=
  l ← get_layout; set_layout (split ColumnSplitter layouts l).

(** [self.layout[name].split_row] or [split_column] *)
Definition layout_split_named (name : string) (sp : Splitter)
  (layouts : list Layout) : M unit :=
  l ← get_layout;
  match split_named name sp layouts l with
  | Some l' => set_layout l'
  | None => lift (Raise (KeyError name))
  end.

(** [for x in l: acc = f(acc, x)] over the world. *)
Fixpoint for_eachM {A S : Type} (f : S -> A -> M S) (l : list A) (acc : S) : M S :=
  match l with
  | [] => mret acc
  | x :: rest => acc' ← f acc x; for_eachM f rest acc'
  end.

(** What [_plugin_to_rich] returns: the panel descriptor of one plugin. *)
Record Descriptor := {
  title : string;
  subtitle : string;
  data : string;
  width : Z;
  height : Z;
  display : pyval
}.

Section display.
Context `{Compat}.

(** [[i['msg'] for i in stats_display['msgdict']]] *)
Definition msgs (stats_display : pyval) : result (list pyval) :=
  msgdict ← getitem stats_display "msgdict";
  items ← iterate msgdict;
  comprehension (fun i => getitem i "msg") items.

(** The [try] block of [_get_width]. *)
Definition _get_width_try (stats_display : pyval) (without_option : bool)
  : result Z :=
  if without_option then
    (* Size without options *)
    msgdict ← getitem stats_display "msgdict";
    items ← iterate msgdict;
    parts ← comprehension
               (fun i =>
                  optional ← getitem i "optional";
                  if negb (truthy optional) then
                    m ← getitem i "msg"; ascii_replace m
                  else Ok "")
               items;
    longest ← max_by_len (split_lines (join parts));
    Ok (len longest)
  else
    (* Size with all options *)
    msgdict ← getitem stats_display "msgdict";
    items ← iterate msgdict;
    parts ← comprehension (fun i => m ← getitem i "msg"; ascii_replace m) items;
    longest ← max_by_len (split_lines (join parts));
    Ok (len longest).

(** [_get_width] *)
Definition _get_width (stats_display : pyval) (without_option : bool) : M Z :=
  match _get_width_try stats_display without_option with
  | Raise e =>
      logger (LogDebug "ERROR: Can not compute plugin width" e);;
      mret 0
  | Ok c => mret c
  end.

(** The [try] block of [_get_height]. *)
Definition _get_height_try (stats_display : pyval) : result Z :=
  l ← msgs stats_display;
  Ok (count_newline l).

(** [_get_height] *)
Definition _get_height (stats_display : pyval) : M Z :=
  match _get_height_try stats_display with
  | Raise e =>
      logger (LogDebug "ERROR: Can not compute plugin height" e);;
      mret 0
  | Ok c => mret (c + 1)
  end.

(** [_plugin_to_rich] *)
Definition _plugin_to_rich (stats : GlancesStats) (plugin : string)
  : M Descriptor :=
  let ret := {| title := ""; subtitle := ""; data := ""; width := 0;
                height := 0; display := PBool false |} in
  match get_plugin stats plugin with
  | Some the_plugin =>
      let _max_width := None in
      let _max_width :=
        if member plugin _middle_left then Some _middle_left_width
        else _max_width in
      (if String.eqb plugin "processlist" then set_max_processes 10
       else mret ());;
      (* Grab the stats to display *)
      stat_display ← lift (get_stats_display the_plugin _max_width);
      (* Build the object to display *)
      stat_repr ← lift (msgs stat_display);
      let ret_title := capitalize plugin in
      ret_data ← lift (join_vals stat_repr);
      w ← _get_width stat_display false;
      let ret_width := w + 4 in
      h ← _get_height stat_display;
      let ret_height := h + 2 in
      ret_display ← lift (getitem stat_display "display");
      mret {| title := ret_title; subtitle := subtitle ret; data := ret_data;
              width := ret_width; height := ret_height;
              display := ret_display |}
  | None => mret ret
  end.

(** [plugins_to_rich] *)
Definition plugins_to_rich (stats : GlancesStats) : M (gmap string Descriptor) :=
  for_eachM (fun ret p => d ← _plugin_to_rich stats p; mret (<[p := d]> ret))
            (getPluginsList stats) ∅.

(** [stats_display[p]] *)
Definition descriptor (stats_display : gmap string Descriptor) (p : string)
  : result Descriptor :=
  match stats_display !! p with
  | Some d => Ok d
  | None => Raise (KeyError p)
  end.

(** [stats_display[p]['display'] and len(stats_display[p]['data']) > 0] *)
Definition shown (stats_display : gmap string Descriptor) (p : string)
  : result bool :=
  d ← descriptor stats_display p;
  if truthy (display d) then
    d ← descriptor stats_display p;
    Ok (len (data d) >? 0)
  else Ok false.

(** [Panel(stats_display[p]['data'], title=stats_display[p]['title'],
    subtitle=stats_display[p]['subtitle'])] *)
Definition panel (stats_display : gmap string Descriptor) (p : string)
  : result Renderable :=
  d ← descriptor stats_display p;
  Ok (Panel (data d) (title d) (subtitle d)).

(** The body of [update_layout] once [stats_display] is known. *)
Definition update_layout_with (stats_display : gmap string Descriptor) : M unit :=
  (* Update the layout *)
  cpu ← lift (descriptor stats_display "cpu");
  now ← lift (descriptor stats_display "now");
  layout_split_column
    [new_layout Placeholder (Some "top") (Some (height cpu));
     new_layout Placeholder (Some "middle") None;
     new_layout Placeholder (Some "bottom") (Some (height now))];;
  renderable ← lift (for_each (fun (renderable : list Layout) (p : string) =>
      visible ← shown stats_display p;
      if (visible : bool) then
        r ← (if String.eqb p "quicklook" then
               Ok (new_layout Placeholder (Some p) None)
             else
               pn ← panel stats_display p;
               d ← descriptor stats_display p;
               Ok (new_layout pn (Some p) (Some (width d))));
        Ok (renderable ++ [r])
      else Ok renderable) _top []);
  layout_split_named "top" RowSplitter renderable;;
  layout_split_named "middle" RowSplitter
    [new_layout Placeholder (Some "middle_left") (Some (_middle_left_width + 8));
     new_layout Placeholder (Some "middle_right") None];;
  middle_left ← (l ← get_layout; lift (layout_getitem l "middle_left"));
  panels ← lift (comprehension_if (shown stats_display)
                   (fun p =>
                      pn ← panel stats_display p;
                      d ← descriptor stats_display p;
                      Ok (new_layout pn (Some p) (Some (height d))))
                   _middle_left);
  layout_split_named "middle_left" ColumnSplitter
    (panels ++ [new_layout Placeholder (Some "middle_left_padding") None]);;
  renderable ← lift (for_each (fun (renderable : list Layout) (p : string) =>
      visible ← shown stats_display p;
      if (visible : bool) then
        r ← (if String.eqb p "processlist" then
               Ok (new_layout Placeholder (Some p) None)
             else
               pn ← panel stats_display p;
               d ← descriptor stats_display p;
               Ok (new_layout pn (Some p) (Some (height d))));
        Ok (renderable ++ [r])
      else Ok renderable) _middle_right []);
  layout_split_named "middle_right" ColumnSplitter renderable;;
  layout_split_named "bottom" RowSplitter
    [new_layout Placeholder (Some "bottom") None].

(** [update_layout] *)
Definition update_layout (stats : GlancesStats) : M unit :=
  (* Get the stats and apply the Rich transformation *)
  stats_display ← plugins_to_rich stats;
  update_layout_with stats_display.

(** [pressedkey == ord('\x1b') or pressedkey == ord('q')] *)
Definition is_exit_key (pressedkey : Z) : bool :=
  (pressedkey =? ord "027"%char) || (pressedkey =? ord "q"%char).

(** The [while not countdown.finished() and not isexitkey] loop of [update],
    driven by the turns the environment presents. *)
Fixpoint wait (turns : list Tick) (isexitkey : bool) : M bool :=
  match turns with
  | [] => mret isexitkey
  | turn :: rest =>
      set_ticks rest;;
      if negb (finished turn) && negb isexitkey then
        (* Manage if a key was pressed *)
        let '(pressedkey, isexitkey) :=
          match kbhit turn with
          | Some c =>
              let pressedkey := ord c in
              (pressedkey, is_exit_key pressedkey)
          | None => (-1, false)
          end in
        (* Redraw display *)
        live_update;;
        wait rest isexitkey
      else mret isexitkey
  end.

(** [update] *)
Definition update (stats : GlancesStats) (duration : num) : M bool :=
  duration ←
    (if le duration (Int 0) then
       logger (LogWarning "Update and export time higher than refresh_time.");;
       mret (Float (1 # 10))
     else mret duration);
  (* Wait duration (in s) time *)
  let isexitkey := false in
  Timer duration;;
  update_layout stats;;
  turns ← get_ticks;
  wait turns isexitkey.

(** *** Vocabulary of the properties *)

(** The fragments of a plugin's content: what iterating
    [stats_display['msgdict']] yields. *)
Definition fragments (stats_display : pyval) : result (list pyval) :=
  getitem stats_display "msgdict" ≫= iterate.

(** [key in v] *)
Definition has_key (v : pyval) (key : string) : bool :=
  match v with
  | PDict d => match assoc key d with Some _ => true | None => false end
  | _ => false
  end.

(** Well-formed content: it has fragments and each of them has a 'msg'. *)
Definition well_formed (stats_display : pyval) : bool :=
  match fragments stats_display with
  | Ok items => forallb (fun i => has_key i "msg") items
  | Raise _ => false
  end.

(** A fragment whose 'msg' is the line-break sentinel. *)
Definition is_sentinel (i : pyval) : bool :=
  match i with
  | PDict d => match assoc "msg" d with Some m => is_newline m | None => false end
  | _ => false
  end.

(** The number of line-break sentinels among the fragments. *)
Definition sentinels (stats_display : pyval) : Z :=
  match fragments stats_display with
  | Ok items => Z.of_nat (length (filter (fun i => is_sentinel i = true) items))
  | Raise _ => 0
  end.

(** A fragment whose 'msg' has an ASCII rendering. *)
Definition has_text (i : pyval) : bool :=
  match i with
  | PDict d =>
      match assoc "msg" d with
      | Some m => is_ok (ascii_replace m)
      | None => false
      end
  | _ => false
  end.

(** Content whose width can be measured: it has fragments, each of which has
    text; without options, each has an 'optional' flag and the fragments not
    flagged optional have text. *)
Definition measurable (stats_display : pyval) (without_option : bool) : bool :=
  match fragments stats_display with
  | Ok items =>
      forallb (fun i =>
                 if without_option then
                   match i with
                   | PDict d =>
                       match assoc "optional" d with
                       | Some o => truthy o || has_text i
                       | None => false
                       end
                   | _ => false
                   end
                 else has_text i) items
  | Raise _ => false
  end.

End display.

(** A layout placed for a plugin of [names] that is shown: a childless
    layout named after the plugin, whose descriptor has a true [display] and
    non-empty [data], and which holds either no renderable of its own or the
    panel of that descriptor. *)
Definition placed (stats_display : gmap string Descriptor) (names : list string)
  (n : Layout) : Prop :=
  exists p d,
    p ∈ names /\ layout_name n = Some p /\ layout_children n = []
    /\ stats_display !! p = Some d
    /\ truthy (display d) = true /\ data d <> ""
    /\ (layout_renderable n = Placeholder
        \/ layout_renderable n = Panel (data d) (title d) (subtitle d)).

(** The log of [w'] continues the log of [w]. *)
Definition log_grows (w w' : World) : Prop :=
  exists extra, log w' = log w ++ extra.

(** What fetching descriptors may change: the process registry and the log. *)
Definition fetch_frame (w w' : World) : Prop :=
  layout w' = layout w /\ frames w' = frames w /\ countdown w' = countdown w
  /\ ticks w' = ticks w /\ log_grows w w'.

(** What composing the layout may change: in addition, the layout. *)
Definition compose_frame (w w' : World) : Prop :=
  frames w' = frames w /\ countdown w' = countdown w /\ ticks w' = ticks w
  /\ log_grows w w'.

(** [m] keeps the world within [R], whether it returns or raises. *)
Definition preserves {A} (R : World -> World -> Prop) (m : M A) : Prop :=
  forall w, R w (snd (m w)).

(** The shared process registry is as it was. *)
Definition same_registry (w w' : World) : Prop :=
  max_processes w' = max_processes w.

(** A turn with the escape character or 'q' pending. *)
Definition cancel_turn (t : Tick) : Prop :=
  kbhit t = Some "027"%char \/ kbhit t = Some "q"%char.

End Rich.

(** ** Concrete collaborators and inputs used to exercise the model *)

Module Scenario.
Import Py.

(** A severity scale in the manner of [get_alert]: the value as a percentage
    of the maximum, against fixed boundaries. *)
Definition alert (current : num) (maximum : option num) (header : string) : string :=
  let maximum := match maximum with Some m => m | None => Int 100 end in
  match truediv (mul current (Int 100)) maximum with
  | Ok pct =>
      if gt pct (Int 90) then "CRITICAL"
      else if gt pct (Int 70) then "WARNING"
      else if gt pct (Int 50) then "CAREFUL"
      else "OK"
  | Raise _ => "DEFAULT"
  end.

(** The inherited methods, for given trends of 'user' and 'system'. *)
Definition base (trend_user trend_system : option Z) : Cpu.PluginBase :=
  {| Cpu.get_init_value := ∅;
     Cpu.update_snmp := fun _ => Raise (Exception "no SNMP agent");
     Cpu.get_trend := fun item =>
       if String.eqb item "user" then trend_user
       else if String.eqb item "system" then trend_system
       else None;
     Cpu.trend_msg := fun trend =>
       match trend with
       | None => " "
       | Some t => if 1 <? t then "/" else if t <? -1 then "\" else "-"
       end;
     Cpu.auto_unit := str;
     Cpu.get_alert := alert;
     Cpu.get_alert_log := fun current header => alert current None header;
     Cpu.is_disabled := false;
     Cpu.float_str := fun q => str (Qfloor q) +:+ ".0";
     Cpu.LINUX := true |}.

(** A freshly created CPU plugin on a four-core machine. *)
Definition fresh_plugin : Cpu.PluginModel :=
  {| Cpu.input_method := "local"; Cpu.args_percpu := false;
     Cpu.nb_log_core := 4; Cpu.cpu_stats_old := None;
     Cpu.stats := ∅; Cpu.views := ∅ |}.

(** A sampling pass in which every counter reads [raw]. *)
Definition sample (raw : Z) : Cpu.Sample :=
  {| Cpu.cpu_percent_get := Float (975 # 10);
     Cpu.cpu_times_percent :=
       [("user", Float (60 # 1)); ("system", Float (375 # 10));
        ("idle", Float (25 # 10))];
     Cpu.cpu_stats :=
       [("ctx_switches", Some raw); ("interrupts", Some raw);
        ("soft_interrupts", Some raw); ("syscalls", Some 0)];
     Cpu.getTimeSinceLastUpdate := Float (2 # 1) |}.

(** The plugin after a first sampling pass that read [raw]. *)
Definition sampled_plugin (raw : Z) : Cpu.PluginModel :=
  {| Cpu.input_method := "local"; Cpu.args_percpu := false;
     Cpu.nb_log_core := 4; Cpu.cpu_stats_old := Some (Cpu.cpu_stats (sample raw));
     Cpu.stats := ∅; Cpu.views := ∅ |}.

(** The Snapshot of the specification's decoration scenario. *)
Definition busy_plugin : Cpu.PluginModel :=
  {| Cpu.input_method := "local"; Cpu.args_percpu := false;
     Cpu.nb_log_core := 4; Cpu.cpu_stats_old := None;
     Cpu.stats :=
       <["total" := Float (975 # 10)]>
       (<["ctx_switches" := Int 5000]>
       (<["cpucore" := Int 4]>
       (<["time_since_update" := Float (2 # 1)]> ∅)));
     Cpu.views := ∅ |}.

(** The plugin after two sampling passes reading 120 then 185, decorated
    by [update_views]. *)
Definition displayed_plugin : Cpu.PluginModel :=
  match
    '(_, p1) ← Cpu.update (H := base None None) fresh_plugin (sample 120);
    '(_, p2) ← Cpu.update (H := base None None) p1 (sample 185);
    Cpu.update_views (H := base None None) p2
  with
  | Ok p => p
  | Raise _ => fresh_plugin
  end.

(** [glances.compat] on the values the panels hold. *)
Definition compat : Rich.Compat :=
  {| Rich.ascii_replace := fun v =>
       match v with
       | PStr s => Ok s
       | PNum (Int z) => Ok (str z)
       | _ => Raise (AttributeError "decode")
       end |}.

Definition fragment (msg : string) (optional : bool) : pyval :=
  PDict [("msg", PStr msg); ("decoration", PStr "DEFAULT");
         ("optional", PBool optional)].

Definition stats_display (fragments : list pyval) (display : bool) : pyval :=
  PDict [("msgdict", PList fragments); ("display", PBool display)].

Definition plugin_showing (v : pyval) : Rich.Plugin :=
  {| Rich.get_stats_display := fun _ => Ok v |}.

Definition broken_plugin : Rich.Plugin :=
  {| Rich.get_stats_display := fun _ => Raise (Exception "metric source down") |}.

Definition all_plugins : list string :=
  Rich._top ++ Rich._middle_left ++ Rich._middle_right ++ Rich._bottom.

(** A registry in which 'cpu', 'network', 'processlist' and 'now' have
    content, 'mem' is disabled and the other plugins are absent; [cpu] is the
    CPU plugin to register. *)
Definition registry (cpu : Rich.Plugin) : Rich.GlancesStats :=
  {| Rich.getPluginsList := all_plugins;
     Rich.get_plugin := fun p =>
       if String.eqb p "cpu" then Some cpu
       else if String.eqb p "mem" then
         Some (plugin_showing (stats_display [fragment "MEM" false] false))
       else if String.eqb p "network" then
         Some (plugin_showing (stats_display [fragment "NETWORK" false] true))
       else if String.eqb p "processlist" then
         Some (plugin_showing (stats_display [fragment "TASKS" false] true))
       else if String.eqb p "now" then
         Some (plugin_showing (stats_display [fragment "2022-01-01" false] true))
       else None |}.

Definition cpu_panel : Rich.Plugin :=
  plugin_showing
    (stats_display [fragment "CPU" false; fragment newline false;
                    fragment "user:    12.0%" true] true).

(** The display right after [__init__], with the given turns ahead. *)
Definition world (turns : list Rich.Tick) : Rich.World :=
  {| Rich.layout := Rich.init_layout; Rich.frames := [];
     Rich.max_processes := None; Rich.log := []; Rich.countdown := None;
     Rich.ticks := turns |}.

Definition idle_turn : Rich.Tick := {| Rich.finished := false; Rich.kbhit := None |}.

Definition key_turn (c : ascii) : Rich.Tick :=
  {| Rich.finished := false; Rich.kbhit := Some c |}.

Definition expired_turn : Rich.Tick := {| Rich.finished := true; Rich.kbhit := None |}.

End Scenario.

(** ** The SNMP input method of the CPU plugin: [update_snmp] *)

Module Snmp.
Import Py Cpu.

(** [snmp_oid] *)
Definition snmp_oid : list (string * list (string * string)) :=
  [("default", [("user", "1.3.6.1.4.1.2021.11.9.0");
                ("system", "1.3.6.1.4.1.2021.11.10.0");
                ("idle", "1.3.6.1.4.1.2021.11.11.0")]);
   ("windows", [("percent", "1.3.6.1.2.1.25.3.3.1.2")]);
   ("esxi", [("percent", "1.3.6.1.2.1.25.3.3.1.2")]);
   ("netapp", [("system", "1.3.6.1.4.1.789.1.2.1.3.0");
               ("idle", "1.3.6.1.4.1.789.1.2.1.5.0");
               ("cpucore", "1.3.6.1.4.1.789.1.2.1.6.0")])].

(** [a + b] *)
Definition add (a b : num) : num :=
  match a, b with
  | Int x, Int y => Int (x + y)
  | _, _ => Float (Qred (to_Q a + to_Q b))
  end.

(** [a - b] *)
Definition sub (a b : num) : num :=
  match a, b with
  | Int x, Int y => Int (x - y)
  | _, _ => Float (Qred (to_Q a - to_Q b))
  end.

(** [d[key]] on a dict kept in insertion order. *)
Definition lookup {A} (d : list (string * A)) (key : string) : result A :=
  match assoc key d with
  | Some v => Ok v
  | None => Raise (KeyError key)
  end.

(** [c.startswith(prefix)] *)
Definition startswith (c prefix : string) : bool := String.prefix prefix c.

(** What [update_snmp] reads from outside the plugin: the system name the
    agent reports, the SNMP query of the base class, which answers with a
    dict of strings, and Python's [float] on a string. *)
Class Agent := {
  short_system_name : string;
  get_stats_snmp : list (string * string) -> bool -> result (list (string * string));
  float : string -> result num
}.

Section snmp.
Context `{PluginBase} `{Agent}.

(** Modelled from the spec: [reset()], which puts the plugin's Snapshot back
    to its init value. *)
Definition reset (self : PluginModel) : PluginModel :=
  with_stats self get_init_value.

(** The Windows and ESXi branch once the table of per-core loads is there. *)
Definition update_snmp_bulk (cpu_stats : list (string * string)) : result Stats :=
  let stats := get_init_value in
  (* Iter through CPU and compute the idle CPU stats *)
  let stats := <["nb_log_core" := Int 0]> stats in
  let stats := <["idle" := Int 0]> stats in
  stats ← for_each (fun (stats : Stats) (c : string) =>
             if startswith c "percent" then
               idle ← item stats "idle";
               raw ← lookup cpu_stats "percent.3";
               load ← float raw;
               let stats := <["idle" := add idle load]> stats in
               n ← item stats "nb_log_core";
               Ok (<["nb_log_core" := add n (Int 1)]> stats)
             else Ok stats)
           (map fst cpu_stats) stats;
  n ← item stats "nb_log_core";
  stats ← (if gt n (Int 0) then
             idle ← item stats "idle";
             n ← item stats "nb_log_core";
             mean ← truediv idle n;
             Ok (<["idle" := mean]> stats)
           else Ok stats);
  idle ← item stats "idle";
  let stats := <["idle" := sub (Int 100) idle]> stats in
  idle ← item stats "idle";
  Ok (<["total" := sub (Int 100) idle]> stats).

(** The default branch once the agent has answered with a non-empty
    'idle': the answer converted to floats, and 'total'. *)
Definition update_snmp_scalar (answer : list (string * string)) : result Stats :=
  (* Convert SNMP stats to float *)
  stats ← for_each (fun (stats : Stats) (key : string) =>
             raw ← lookup answer key;
             value ← float raw;
             Ok (<[key := value]> stats))
           (map fst answer) ∅;
  idle ← item stats "idle";
  Ok (<["total" := sub (Int 100) idle]> stats).

(** [update_snmp]: what it returns or raises, and the instance it leaves. *)
Definition update_snmp (self : PluginModel) : result Stats * PluginModel :=
  (* Update stats using SNMP *)
  if String.eqb short_system_name "windows"
     || String.eqb short_system_name "esxi" then
    (* Windows or VMWare ESXi *)
    match (oid ← lookup snmp_oid short_system_name; get_stats_snmp oid true) with
    | Ok cpu_stats => (update_snmp_bulk cpu_stats, self)
    | Raise (KeyError _) =>
        (* the handler resets; [cpu_stats] is then read unassigned *)
        (Raise (Exception "UnboundLocalError: cpu_stats"), reset self)
    | Raise e => (Raise e, self)
    end
  else
    (* Default behavior *)
    let answer :=
      match (oid ← lookup snmp_oid short_system_name; get_stats_snmp oid false) with
      | Raise (KeyError _) =>
          oid ← lookup snmp_oid "default"; get_stats_snmp oid false
      | r => r
      end in
    match answer with
    | Ok stats =>
        match lookup stats "idle" with
        | Ok idle =>
            if String.eqb idle "" then
              let self := reset self in (Ok (Cpu.stats self), self)
            else (update_snmp_scalar stats, self)
        | Raise e => (Raise e, self)
        end
    | Raise e => (Raise e, self)
    end.

End snmp.
End Snmp.

(** ** The range in which the model's arithmetic is Python's *)

Module Range.
Import Py Cpu.

(** The number of trailing zero bits. *)
Fixpoint trailing_zeros (p : positive) : Z :=
  match p with
  | xO p' => 1 + trailing_zeros p'
  | _ => 0
  end.

(** [q] is the value of a finite double: [m * 2**e] with [m] below [2**53]
    in magnitude and [e] at least -1074, below [2**1024] in magnitude.
    Infinities and NaN have no rational value. *)
Definition is_double (q : Q) : bool :=
  let r := Qred q in
  match Qnum r with
  | 0 => true
  | Zpos n | Zneg n =>
      let d := Qden r in
      let k := trailing_zeros d in
      let j := trailing_zeros n in
      (Zpos d =? 2 ^ k)
      && (Zpos n / 2 ^ j <? 2 ^ 53)
      && (-1074 <=? j - k)
      && (Zpos n <? 2 ^ 1024 * Zpos d)
  end.

(** A number Python holds and converts without rounding: a finite double, or
    an [int] of magnitude at most [2**53], which [float()] converts
    exactly. *)
Definition exact (n : num) : bool :=
  match n with
  | Int z => Z.abs z <=? 2 ^ 53
  | Float q => is_double q
  end.

(** [abs(n)] as a rational. *)
Definition magnitude (n : num) : Q :=
  Z.abs (Qnum (to_Q n)) # Qden (to_Q n).

(** [a // b] followed by [int()] is computed without rounding and without
    overflow: the operands are exact, the divisor is not zero and the
    quotient is below [2**50] in magnitude, where the float floor division
    snaps to the exact floor. *)
Definition exact_quotient (a b : num) : bool :=
  exact a && exact b && negb (num_is_zero b)
  && negb (Qle_bool (inject_Z (2 ^ 50) * magnitude b) (magnitude a)).

(** The fields [msg_curse] renders as a rate. *)
Definition counters : list string :=
  ["ctx_switches"; "interrupts"; "soft_interrupts"; "syscalls"].

(** Every value of the Snapshot is exact. *)
Definition all_exact (stats : Stats) : bool :=
  bool_decide (map_Forall (fun _ v => exact v = true) stats).

(** The Snapshot is within the range in which [msg_curse] computes exactly:
    its values are exact, and so is the rate of every counter it holds
    together with 'time_since_update'. *)
Definition in_range (stats : Stats) : bool :=
  all_exact stats
  && forallb (fun k =>
                match stats !! k, stats !! "time_since_update" with
                | Some v, Some t => exact_quotient v t
                | _, _ => true
                end) counters.

End Range.

(** ** Further inputs used to exercise the model *)

Module Cases.
Import Py.

(** What a computation returns, or [default] when it raises. *)
Definition returned {A} (r : result A) (default : A) : A :=
  match r with
  | Ok a => a
  | Raise _ => default
  end.

(** The busy Snapshot of the decoration scenario, taken with no time
    elapsed since the previous pass. *)
Definition stalled_plugin : Cpu.PluginModel :=
  {| Cpu.input_method := "local"; Cpu.args_percpu := false;
     Cpu.nb_log_core := 4; Cpu.cpu_stats_old := None;
     Cpu.stats :=
       <["total" := Float (975 # 10)]>
       (<["ctx_switches" := Int 5000]>
       (<["cpucore" := Int 4]>
       (<["time_since_update" := Float (0 # 1)]> ∅)));
     Cpu.views := ∅ |}.

(** The same Snapshot once [update_views] has decorated it. *)
Definition stalled_display : Cpu.PluginModel :=
  returned (Cpu.update_views (H := Scenario.base None None) stalled_plugin)
           stalled_plugin.

(** The busy Snapshot of the decoration scenario, decorated: it holds
    neither 'user' nor 'system'. *)
Definition busy_display : Cpu.PluginModel :=
  returned (Cpu.update_views (H := Scenario.base None None)
              Scenario.busy_plugin)
           Scenario.busy_plugin.

(** A plugin whose previous pass had no reading of 'syscalls'. *)
Definition partial_plugin : Cpu.PluginModel :=
  {| Cpu.input_method := "local"; Cpu.args_percpu := false;
     Cpu.nb_log_core := 4;
     Cpu.cpu_stats_old :=
       Some [("ctx_switches", Some 120); ("interrupts", Some 120);
             ("soft_interrupts", Some 120); ("syscalls", None)];
     Cpu.stats := ∅; Cpu.views := ∅ |}.

(** [float] on the strings the agents below answer. *)
Definition parse_float (s : string) : result num :=
  if String.eqb s "2" then Ok (Float (2 # 1))
  else if String.eqb s "10" then Ok (Float (10 # 1))
  else if String.eqb s "12.5" then Ok (Float (25 # 2))
  else if String.eqb s "30" then Ok (Float (30 # 1))
  else if String.eqb s "80" then Ok (Float (80 # 1))
  else if String.eqb s "90" then Ok (Float (90 # 1))
  else Raise (Exception "could not convert string to float").

(** A Windows host whose agent answers the given table of per-core loads. *)
Definition windows_agent (table : list (string * string)) : Snmp.Agent :=
  {| Snmp.short_system_name := "windows";
     Snmp.get_stats_snmp := fun _ _ => Ok table;
     Snmp.float := parse_float |}.

(** A NetApp filer: 12.5% system, 80% idle, two cores. *)
Definition netapp_agent : Snmp.Agent :=
  {| Snmp.short_system_name := "netapp";
     Snmp.get_stats_snmp := fun _ _ =>
       Ok [("system", "12.5"); ("idle", "80"); ("cpucore", "2")];
     Snmp.float := parse_float |}.

End Cases.

(** ** Properties of the Python layer *)

Module PyProps.
Import Py.

Lemma bind_ok_inv {A B} (m : result A) (k : A -> result B) b :
  (m ≫= k) = Ok b -> exists a, m = Ok a /\ k a = Ok b.
Proof. destruct m as [a|e]; [eauto | discriminate]. Qed.

Lemma comprehension_raises {A B} (f : A -> result B) (P : A -> bool) l :
  (forall x, is_ok (f x) = P x) ->
  forallb P l = false -> exists e, comprehension f l = Raise e.
Proof.
  intros Hf. induction l as [|x l IH]; simpl; [discriminate|].
  specialize (Hf x). destruct (f x) as [y|e]; simpl in *.
  - rewrite <- Hf. simpl. intros [e He]%IH. rewrite He. eauto.
  - eauto.
Qed.

End PyProps.

(** ** Properties of the CPU plugin *)

Module CpuProps.
Import Py Cpu PyProps.

Lemma assoc_fields {A} (t : namedtuple A) g :
  g ∈ _fields t -> is_Some (assoc g t).
Proof.
  induction t as [|[k v] t IH]; simpl.
  - intros Hin. by apply elem_of_nil in Hin.
  - intros [->|Hin]%elem_of_cons.
    + rewrite String.eqb_refl. eauto.
    + destruct (String.eqb k g); [eauto | by apply IH].
Qed.

Lemma assoc_in_fields {A} (t : namedtuple A) g v :
  assoc g t = Some v -> g ∈ _fields t.
Proof.
  unfold _fields. induction t as [|[k x] t IH]; simpl; [discriminate|].
  destruct (String.eqb k g) eqn:Hk.
  - apply String.eqb_eq in Hk as ->. left.
  - right. by apply IH.
Qed.

Lemma getattr_fields {A} (t : namedtuple A) g :
  g ∈ _fields t -> exists v, getattr t g = Ok v.
Proof.
  intros [v Hv]%assoc_fields. exists v. unfold getattr. by rewrite Hv.
Qed.

Section sampling.
Context `{PluginBase}.

(** The loop over the percentage fields always runs to its end. *)
Lemma times_loop_ok (t : namedtuple num) l (acc : Stats) :
  (forall g, g ∈ l -> g ∈ _fields t) ->
  exists r, for_each (fun stats stat =>
              v ← getattr t stat; Ok (<[stat := v]> stats)) l acc = Ok r.
Proof.
  revert acc. induction l as [|g l IH]; intros acc Hl; simpl; [eauto|].
  destruct (getattr_fields t g) as [v Hv]; [apply Hl; left|].
  rewrite Hv. simpl. apply IH. intros g' Hg'. apply Hl. by right.
Qed.

(** First sample: every counter field is emitted as 0. *)
Lemma first_sample_loop l (acc : Stats) :
  exists r, for_each (fun stats stat => Ok (<[stat := Int 0]> stats)) l acc = Ok r
    /\ forall f, (f ∈ l -> r !! f = Some (Int 0))
              /\ (f ∉ l -> r !! f = acc !! f).
Proof.
  revert acc. induction l as [|g l IH]; intros acc; simpl.
  - exists acc. split; [done|]. intros f. split; [|done].
    intros Hin. by apply elem_of_nil in Hin.
  - destruct (IH (<[g := Int 0]> acc)) as (r & Hr & Hf).
    exists r. split; [exact Hr|]. intros f.
    destruct (Hf f) as [Hin Hout]. split.
    + intros Hfl. destruct (decide (f ∈ l)) as [Hl|Hl]; [by apply Hin|].
      rewrite Hout by done. apply elem_of_cons in Hfl as [->|Hfl]; [|done].
      by rewrite lookup_insert_eq.
    + intros Hfl. apply not_elem_of_cons in Hfl as [Hne Hfl].
      rewrite Hout by done. by rewrite lookup_insert_ne.
Qed.

(** Later samples: every counter with a reading is emitted as the plain
    difference to its previous reading. *)
Lemma later_sample_loop (cur old : namedtuple (option Z)) l (acc : Stats) :
  (forall g, g ∈ l -> g ∈ _fields cur) ->
  (forall g c, assoc g cur = Some (Some c) -> exists p, assoc g old = Some (Some p)) ->
  exists r, for_each (delta_step cur old) l acc = Ok r
    /\ forall f c p, assoc f cur = Some (Some c) -> assoc f old = Some (Some p) ->
         (f ∈ l -> r !! f = Some (Int (c - p))) /\ (f ∉ l -> r !! f = acc !! f).
Proof.
  intros Hl Hold. revert acc. induction l as [|g l IH]; intros acc; simpl.
  - exists acc. split; [done|]. intros f c p _ _. split; [|done].
    intros Hin. by apply elem_of_nil in Hin.
  - assert (Hstep : exists acc', delta_step cur old acc g = Ok acc'
              /\ forall f c p, assoc f cur = Some (Some c) ->
                   assoc f old = Some (Some p) ->
                   (f = g -> acc' !! f = Some (Int (c - p)))
                   /\ (f <> g -> acc' !! f = acc !! f)).
    { unfold delta_step, getattr.
      destruct (assoc_fields cur g) as [[c|] Hc]; [apply Hl; left| |];
        rewrite Hc; simpl.
      - destruct (Hold g c Hc) as [p Hp]. rewrite Hp. simpl.
        eexists. split; [reflexivity|]. intros f c' p' Hc' Hp'. split.
        + intros ->. rewrite Hc in Hc'. rewrite Hp in Hp'.
          injection Hc' as <-. injection Hp' as <-.
          by rewrite lookup_insert_eq.
        + intros Hne. by rewrite lookup_insert_ne.
      - exists acc. split; [reflexivity|]. intros f c' p' Hc' Hp'. split.
        + intros ->. rewrite Hc in Hc'. discriminate.
        + done. }
    destruct Hstep as (acc' & Hacc' & Hstep). rewrite Hacc'. simpl.
    destruct (IH (fun g' Hg' => Hl g' (proj2 (elem_of_cons l g' g) (or_intror Hg'))) acc')
      as (r & Hr & Hf).
    exists r. split; [exact Hr|]. intros f c p Hc Hp.
    destruct (Hf f c p Hc Hp) as [Hin Hout].
    destruct (Hstep f c p Hc Hp) as [Heq Hne]. split.
    + intros Hfl. destruct (decide (f ∈ l)) as [Hfl'|Hfl']; [by apply Hin|].
      rewrite Hout by done. apply elem_of_cons in Hfl as [->|Hfl]; [|done].
      by apply Heq.
    + intros Hfl. apply not_elem_of_cons in Hfl as [Hne' Hfl].
      rewrite Hout by done. by apply Hne.
Qed.

Lemma update_local_first (self : PluginModel) (src : Sample) :
  cpu_stats_old self = None ->
  exists stats,
    update_local self src = Ok (stats, with_cpu_stats_old self (cpu_stats src))
    /\ forall f, f ∈ _fields (cpu_stats src) -> stats !! f = Some (Int 0).
Proof.
  intros Hold. unfold update_local. rewrite Hold.
  destruct (times_loop_ok (cpu_times_percent src) (_fields (cpu_times_percent src))
              (<["total" := cpu_percent_get src]> get_init_value)) as [r Hr];
    [done|].
  cbv zeta. rewrite Hr. simpl.
  destruct (first_sample_loop (_fields (cpu_stats src))
              (<["cpucore" := Int (nb_log_core self)]>
                 (<["time_since_update" := getTimeSinceLastUpdate src]> r)))
    as (r' & Hr' & Hf).
  rewrite Hr'. simpl. exists r'. split; [done|].
  intros f Hin. by apply Hf.
Qed.

Lemma update_local_later (self : PluginModel) (src : Sample) old :
  cpu_stats_old self = Some old ->
  (forall f c, assoc f (cpu_stats src) = Some (Some c) ->
               exists p, assoc f old = Some (Some p)) ->
  exists stats,
    update_local self src = Ok (stats, with_cpu_stats_old self (cpu_stats src))
    /\ forall f c p, assoc f (cpu_stats src) = Some (Some c) ->
         assoc f old = Some (Some p) -> stats !! f = Some (Int (c - p)).
Proof.
  intros Hold Hprev. unfold update_local. rewrite Hold.
  destruct (times_loop_ok (cpu_times_percent src) (_fields (cpu_times_percent src))
              (<["total" := cpu_percent_get src]> get_init_value)) as [r Hr];
    [done|].
  cbv zeta. rewrite Hr. simpl.
  destruct (later_sample_loop (cpu_stats src) old (_fields (cpu_stats src))
              (<["cpucore" := Int (nb_log_core self)]>
                 (<["time_since_update" := getTimeSinceLastUpdate src]> r)))
    as (r' & Hr' & Hf); [done|done|].
  rewrite Hr'. simpl. exists r'. split; [done|].
  intros f c p Hc Hp. apply (Hf f c p Hc Hp).
  by apply (assoc_in_fields _ _ (Some c)).
Qed.

(** C1, as amended. On the first sample (no [cpu_stats_old] yet) every
    counter field is emitted as 0 whatever its raw value, and the raw counters
    are stored as [cpu_stats_old]. On a later sample, where every counter that
    reads a value also had one in the previous pass, a counter is emitted as
    [current - previous], with no clamping; that is [max(0, current -
    previous)] as long as the counter has not gone backwards. *)
Theorem update_local_delta (self : PluginModel) (src : Sample) :
  (forall old f c, cpu_stats_old self = Some old ->
     assoc f (cpu_stats src) = Some (Some c) ->
     exists p, assoc f old = Some (Some p)) ->
  exists stats self',
    update_local self src = Ok (stats, self')
    /\ cpu_stats_old self' = Some (cpu_stats src)
    /\ (cpu_stats_old self = None ->
        forall f, f ∈ _fields (cpu_stats src) -> stats !! f = Some (Int 0))
    /\ (forall old f c p, cpu_stats_old self = Some old ->
          assoc f (cpu_stats src) = Some (Some c) ->
          assoc f old = Some (Some p) ->
          stats !! f = Some (Int (c - p))
          /\ (p <= c -> stats !! f = Some (Int (Py.max 0 (c - p))))).
Proof.
  intros Hprev. destruct (cpu_stats_old self) as [old|] eqn:Hold.
  - destruct (update_local_later self src old Hold) as (stats & Hu & Hd).
    { intros f c Hc. by apply (Hprev old f c). }
    exists stats, (with_cpu_stats_old self (cpu_stats src)).
    split; [exact Hu|]. split; [done|]. split; [done|].
    intros old' f c p [= <-] Hc Hp. split; [by apply Hd|].
    intros Hle. rewrite (Hd f c p Hc Hp). unfold Py.max.
    by rewrite Z.max_r by lia.
  - destruct (update_local_first self src Hold) as (stats & Hu & Hz).
    exists stats, (with_cpu_stats_old self (cpu_stats src)).
    split; [exact Hu|]. split; [done|]. split; [by intros _|].
    intros old' f c p [=].
Qed.

End sampling.

(** The check of [update_local_delta] on the fresh plugin and on the plugin
    that has already read 120, both sampling 185. *)
Lemma update_local_delta_witness :
  (exists stats self',
     update_local (H := Scenario.base None None) Scenario.fresh_plugin
       (Scenario.sample 185) = Ok (stats, self')
     /\ cpu_stats_old self' = Some (cpu_stats (Scenario.sample 185))
     /\ stats !! "ctx_switches" = Some (Int 0))
  /\ (exists stats self',
     update_local (H := Scenario.base None None) (Scenario.sampled_plugin 120)
       (Scenario.sample 185) = Ok (stats, self')
     /\ stats !! "ctx_switches" = Some (Int 65)).
Proof.
  split.
  - destruct (update_local_delta (H := Scenario.base None None)
                Scenario.fresh_plugin (Scenario.sample 185))
      as (stats & self' & Hu & Hs & Hz & _).
    { intros old f c Hold. discriminate Hold. }
    exists stats, self'. split; [exact Hu|]. split; [exact Hs|].
    apply Hz; [reflexivity|]. simpl. left.
  - destruct (update_local_delta (H := Scenario.base None None)
                (Scenario.sampled_plugin 120) (Scenario.sample 185))
      as (stats & self' & Hu & _ & _ & Hd).
    { intros old f c [= <-]. unfold Scenario.sample. cbn [cpu_stats assoc].
      repeat (destruct (String.eqb _ f); [intros _; eexists; reflexivity|]).
      intros [=]. }
    exists stats, self'. split; [exact Hu|].
    destruct (Hd (cpu_stats (Scenario.sample 120)) "ctx_switches" 185 120)
      as [Hv _]; [reflexivity..|]. exact Hv.
Defined.

(** C1 as stated fails: a counter that reads 120 after having read 185 is
    emitted as -65, not as max(0, 120 - 185) = 0. *)
Lemma update_local_delta_counterexample :
  exists stats self',
    update_local (H := Scenario.base None None) (Scenario.sampled_plugin 185)
      (Scenario.sample 120) = Ok (stats, self')
    /\ stats !! "ctx_switches" = Some (Int (-65))
    /\ stats !! "ctx_switches" <> Some (Int (Py.max 0 (120 - 185))).
Proof.
  eexists _, _. split; [vm_compute; reflexivity|]. split; [reflexivity|].
  intros Heq. vm_compute in Heq. discriminate Heq.
Qed.

Section decoration.
Context `{PluginBase}.

Lemma set_decoration_ok (views : Views) key d w :
  views !! key = Some w ->
  set_decoration views key d
  = Ok (<[key := {| decoration := d; optional := optional w |}]> views).
Proof. intros Hw. unfold set_decoration, item. by rewrite Hw. Qed.

Lemma set_optional_ok (views : Views) key b w :
  views !! key = Some w ->
  set_optional views key b
  = Ok (<[key := {| decoration := decoration w; optional := b |}]> views).
Proof. intros Hw. unfold set_optional, item. by rewrite Hw. Qed.

Lemma base_update_views_covers (stats : Stats) :
  covers stats (base_update_views stats).
Proof.
  intros k [v Hv]. unfold base_update_views.
  rewrite lookup_fmap, Hv. simpl. eauto.
Qed.

Lemma covers_insert (stats : Stats) (views : Views) k w :
  covers stats views -> covers stats (<[k := w]> views).
Proof.
  intros Hc k' Hk'. destruct (decide (k = k')) as [->|Hne].
  - rewrite lookup_insert_eq. eauto.
  - rewrite lookup_insert_ne by done. by apply Hc.
Qed.

(** A loop that decorates the fields of [keys] leaves the other fields as
    they were and never fails on covered views. *)
Lemma decoration_loop (stats : Stats) (g : num -> string -> string) keys
  (views : Views) :
  covers stats views ->
  exists views',
    for_each (fun views key =>
                if contains stats key then
                  v ← item stats key; set_decoration views key (g v key)
                else Ok views) keys views = Ok views'
    /\ covers stats views'
    /\ forall k, k ∉ keys -> views' !! k = views !! k.
Proof.
  revert views. induction keys as [|key keys IH]; intros views Hc; simpl.
  - exists views. eauto.
  - unfold contains, item. destruct (stats !! key) as [v|] eqn:Hv; simpl.
    + destruct (Hc key) as [w Hw]; [eauto|].
      rewrite (set_decoration_ok _ _ _ _ Hw). simpl.
      destruct (IH (<[key := {| decoration := g v key; optional := optional w |}]>
                      views)) as (views' & Hl & Hc' & Hk).
      { by apply covers_insert. }
      exists views'. split; [exact Hl|]. split; [exact Hc'|].
      intros k [Hne Hnin]%not_elem_of_cons.
      rewrite Hk by done. by rewrite lookup_insert_ne.
    + destruct (IH views Hc) as (views' & Hl & Hc' & Hk).
      exists views'. split; [exact Hl|]. split; [exact Hc'|].
      intros k [Hne Hnin]%not_elem_of_cons. by apply Hk.
Qed.

(** The loop that marks fields optional keeps every decoration. *)
Lemma optional_loop (stats : Stats) keys (views : Views) :
  covers stats views ->
  exists views',
    for_each (fun views key =>
                if contains stats key then set_optional views key true
                else Ok views) keys views = Ok views'
    /\ forall k, decoration <$> views' !! k = decoration <$> views !! k.
Proof.
  revert views. induction keys as [|key keys IH]; intros views Hc; simpl.
  - exists views. eauto.
  - unfold contains. destruct (stats !! key) as [v|] eqn:Hv; simpl.
    + destruct (Hc key) as [w Hw]; [eauto|].
      rewrite (set_optional_ok _ _ _ _ Hw). simpl.
      destruct (IH (<[key := {| decoration := decoration w; optional := true |}]>
                      views)) as (views' & Hl & Hk).
      { by apply covers_insert. }
      exists views'. split; [exact Hl|]. intros k. rewrite Hk.
      destruct (decide (key = k)) as [<-|Hne].
      * by rewrite lookup_insert_eq, Hw.
      * by rewrite lookup_insert_ne.
    + by apply IH.
Qed.

(** C7. For every Snapshot holding 'ctx_switches' and 'cpucore',
    [update_views] returns, and the decoration it leaves on 'ctx_switches' is
    [get_alert] of the value against the maximum [100 * cpucore] read from
    the same Snapshot; with [cpucore = 4] that maximum is 400. *)
Theorem update_views_ctx_switches_scaled (self : PluginModel) (v c : num) :
  stats self !! "ctx_switches" = Some v ->
  stats self !! "cpucore" = Some c ->
  exists self',
    update_views self = Ok self'
    /\ stats self' = stats self
    /\ decoration <$> views self' !! "ctx_switches"
       = Some (get_alert v (Some (mul (Int 100) c)) "ctx_switches")
    /\ (c = Int 4 ->
        decoration <$> views self' !! "ctx_switches"
        = Some (get_alert v (Some (Int 400)) "ctx_switches")).
Proof.
  intros Hv Hcore. unfold update_views.
  destruct (decoration_loop (stats self) get_alert_log
              ["user"; "system"; "iowait"; "total"]
              (base_update_views (stats self)))
    as (v1 & H1 & Hc1 & Hk1); [apply base_update_views_covers|].
  rewrite H1. cbn [mbind result_bind].
  destruct (decoration_loop (stats self) (fun x key => get_alert x None key)
              ["steal"] v1) as (v2 & H2 & Hc2 & Hk2); [exact Hc1|].
  cbv beta in H2. rewrite H2. cbn [mbind result_bind].
  destruct (Hc2 "ctx_switches") as [w Hw]; [eauto|].
  assert (H3 : for_each (fun views key =>
              if contains (stats self) key then
                x ← item (stats self) key;
                cpucore ← item (stats self) "cpucore";
                set_decoration views key
                  (get_alert x (Some (mul (Int 100) cpucore)) key)
              else Ok views) ["ctx_switches"] v2
            = Ok (<["ctx_switches" :=
                     {| decoration :=
                          get_alert v (Some (mul (Int 100) c)) "ctx_switches";
                        optional := optional w |}]> v2)).
  { simpl. unfold contains, item. rewrite Hv, Hcore. simpl.
    by rewrite (set_decoration_ok _ _ _ _ Hw). }
  rewrite H3. cbn [mbind result_bind].
  match goal with
  | |- context [for_each _ _ ?views3] =>
      destruct (optional_loop (stats self)
                  ["nice"; "irq"; "idle"; "steal"; "ctx_switches"; "interrupts";
                   "soft_interrupts"; "syscalls"] views3) as (v4 & H4 & Hk4);
        [by apply covers_insert|]
  end.
  rewrite H4. cbn [mbind result_bind].
  eexists. split; [reflexivity|]. split; [reflexivity|].
  assert (Hd : decoration <$> v4 !! "ctx_switches"
               = Some (get_alert v (Some (mul (Int 100) c)) "ctx_switches")).
  { rewrite Hk4. by rewrite lookup_insert_eq. }
  split; [exact Hd|]. intros ->. exact Hd.
Qed.

End decoration.

(** The check of [update_views_ctx_switches_scaled] on the Snapshot
    [{total: 97.5, ctx_switches: 5000, cpucore: 4, time_since_update: 2.0}]:
    5000 against a maximum of 400 is critical. *)
Lemma update_views_ctx_switches_scaled_witness :
  exists self',
    update_views (H := Scenario.base None None) Scenario.busy_plugin = Ok self'
    /\ decoration <$> views self' !! "ctx_switches" = Some "CRITICAL".
Proof.
  destruct (update_views_ctx_switches_scaled (H := Scenario.base None None)
              Scenario.busy_plugin (Int 5000) (Int 4))
    as (self' & Hu & _ & _ & Hd); [reflexivity | reflexivity |].
  exists self'. split; [exact Hu|]. by rewrite Hd.
Defined.

Section rendering.
Context `{PluginBase}.

(** The counter loops touch no key outside the fields they run over. *)
Lemma later_sample_loop_frame (cur old : namedtuple (option Z)) l
  (acc r : Stats) k :
  for_each (delta_step cur old) l acc = Ok r -> k ∉ l -> r !! k = acc !! k.
Proof.
  revert acc. induction l as [|g l IH]; intros acc; simpl.
  - by intros [= ->].
  - intros (acc' & Hstep & Hrest)%bind_ok_inv [Hne Hnin]%not_elem_of_cons.
    rewrite (IH _ Hrest Hnin). unfold delta_step in Hstep.
    apply bind_ok_inv in Hstep as ([c|] & _ & Hstep).
    + apply bind_ok_inv in Hstep as (previous & _ & Hstep).
      apply bind_ok_inv in Hstep as (delta & _ & [= <-]).
      by rewrite lookup_insert_ne.
    + by injection Hstep as <-.
Qed.

Lemma update_local_later_time (self : PluginModel) (src : Sample) old stats self' :
  cpu_stats_old self = Some old ->
  update_local self src = Ok (stats, self') ->
  "time_since_update" ∉ _fields (cpu_stats src) ->
  stats !! "time_since_update" = Some (getTimeSinceLastUpdate src).
Proof.
  intros Hold Hu Hnin. unfold update_local in Hu. rewrite Hold in Hu.
  cbv zeta in Hu. apply bind_ok_inv in Hu as (r & _ & Hu).
  apply bind_ok_inv in Hu as (r' & Hloop & [= <- _]).
  rewrite (later_sample_loop_frame _ _ _ _ _ _ Hloop Hnin).
  rewrite lookup_insert_ne by done. by rewrite lookup_insert_eq.
Qed.

Lemma update_local_ok (self : PluginModel) (src : Sample) stats self' :
  input_method self = "local" ->
  update_local self src = Ok (stats, self') ->
  update self src = Ok (stats, with_stats self' stats).
Proof. intros Hm Hu. unfold update. rewrite Hm. simpl. by rewrite Hu. Qed.

Lemma update_views_frame (self self' : PluginModel) :
  update_views self = Ok self' ->
  stats self' = stats self /\ args_percpu self' = args_percpu self.
Proof.
  unfold update_views.
  intros (v1 & _ & (v2 & _ & (v3 & _ & (v4 & _ & [= <-])%bind_ok_inv)
            %bind_ok_inv)%bind_ok_inv)%bind_ok_inv.
  done.
Qed.

(** Where [msg_curse] returns on a displayed plugin whose Snapshot holds a
    counter field, the fragment after the field's label carries the integer
    [int(field // time_since_update)]; 'syscalls' is rendered off Linux only. *)
Lemma msg_curse_counter (self : PluginModel) lines field rate :
  msg_curse self = Ok lines ->
  (size (stats self) =? 0)%nat || args_percpu self || is_disabled = false ->
  field ∈ ["ctx_switches"; "interrupts"; "soft_interrupts"; "syscalls"] ->
  (field = "syscalls" -> LINUX = false) ->
  contains (stats self) field = true ->
  per_second self field = Ok rate ->
  exists pre post label value d o1 o2,
    lines = pre ++ [curse_add_line label "DEFAULT" o1; curse_add_line value d o2]
            ++ post
    /\ counter_fragments field rate label value.
Proof.
  intros Hm Hguard Hfield Hlinux Hin Hrate. unfold msg_curse in Hm.
  rewrite Hguard in Hm. cbv zeta in Hm.
  apply bind_ok_inv in Hm as (header & _ & Hm).
  apply bind_ok_inv in Hm as (total & _ & Hm).
  apply bind_ok_inv in Hm as (idle & _ & Hm).
  apply bind_ok_inv in Hm as (ctx & Hctx & Hm).
  apply bind_ok_inv in Hm as (user & _ & Hm).
  apply bind_ok_inv in Hm as (irq & _ & Hm).
  apply bind_ok_inv in Hm as (inter & Hinter & Hm).
  apply bind_ok_inv in Hm as (system & _ & Hm).
  apply bind_ok_inv in Hm as (nice & _ & Hm).
  apply bind_ok_inv in Hm as (soft & Hsoft & Hm).
  apply bind_ok_inv in Hm as (iowait & _ & Hm).
  apply bind_ok_inv in Hm as (steal & _ & Hm).
  apply bind_ok_inv in Hm as (syscalls & Hsys & [= <-]).
  unfold counter_fragments.
  rewrite !elem_of_cons, elem_of_nil in Hfield.
  destruct Hfield as [->|[->|[->|[->|[]]]]].
  - rewrite Hin, Hrate in Hctx.
    apply bind_ok_inv in Hctx as (o1 & _ & Hctx). simpl in Hctx.
    apply bind_ok_inv in Hctx as (d & _ & Hctx).
    apply bind_ok_inv in Hctx as (o2 & _ & [= <-]).
    eexists (header ++ total ++ idle), _, _, _, d, o1, o2.
    split; [rewrite <- !app_assoc; simpl; reflexivity|]. auto.
  - rewrite Hin, Hrate in Hinter.
    apply bind_ok_inv in Hinter as (o1 & _ & Hinter). simpl in Hinter.
    apply bind_ok_inv in Hinter as (o2 & _ & [= <-]).
    eexists (header ++ total ++ idle ++ ctx ++ [curse_new_line] ++ user ++ irq),
      _, _, _, "DEFAULT", o1, o2.
    split; [rewrite <- !app_assoc; simpl; reflexivity|]. auto.
  - rewrite Hin, Hrate in Hsoft.
    apply bind_ok_inv in Hsoft as (o1 & _ & Hsoft). simpl in Hsoft.
    apply bind_ok_inv in Hsoft as (o2 & _ & [= <-]).
    eexists (header ++ total ++ idle ++ ctx ++ [curse_new_line] ++ user ++ irq
             ++ inter ++ [curse_new_line] ++ system ++ nice),
      _, _, _, "DEFAULT", o1, o2.
    split; [rewrite <- !app_assoc; simpl; reflexivity|]. auto 6.
  - rewrite Hin, Hrate, (Hlinux eq_refl) in Hsys.
    apply bind_ok_inv in Hsys as (o1 & _ & Hsys). simpl in Hsys.
    apply bind_ok_inv in Hsys as (o2 & _ & [= <-]).
    eexists (header ++ total ++ idle ++ ctx ++ [curse_new_line] ++ user ++ irq
             ++ inter ++ [curse_new_line] ++ system ++ nice ++ soft
             ++ [curse_new_line] ++ iowait ++ steal),
      [], _, _, "DEFAULT", o1, o2.
    split; [rewrite <- !app_assoc; simpl; reflexivity|]. auto 8.
Qed.

(** On the scenario's readings the rendered value is 32, not 32.5. *)
Lemma per_second_65_by_2 (self : PluginModel) key :
  stats self !! key = Some (Int 65) ->
  stats self !! "time_since_update" = Some (Float (2 # 1)) ->
  per_second self key = Ok 32.
Proof.
  intros Hk Ht. unfold per_second, item. rewrite Hk, Ht. reflexivity.
Qed.

(** C6, as amended. A counter field ('ctx_switches', 'interrupts',
    'soft_interrupts', or 'syscalls' off Linux) reads 120 on the first-ever
    sample and 185 on the second, 2.0 seconds later. The first Snapshot emits
    0 and stores 120 as previous state, the second emits 65, and the
    per-second value [msg_curse] renders after the field's label is the
    integer 32, that is [int(65 // 2.0)]: the delta floor-divided by
    [time_since_update]. *)
Theorem counter_rate_scenario (self0 : PluginModel) (src1 src2 : Sample)
  (field : string) :
  field ∈ ["ctx_switches"; "interrupts"; "soft_interrupts"; "syscalls"] ->
  (field = "syscalls" -> LINUX = false) ->
  input_method self0 = "local" ->
  cpu_stats_old self0 = None ->
  args_percpu self0 = false ->
  is_disabled = false ->
  assoc field (cpu_stats src1) = Some (Some 120) ->
  assoc field (cpu_stats src2) = Some (Some 185) ->
  (forall f c, assoc f (cpu_stats src2) = Some (Some c) ->
               exists p, assoc f (cpu_stats src1) = Some (Some p)) ->
  getTimeSinceLastUpdate src2 = Float (2 # 1) ->
  "time_since_update" ∉ _fields (cpu_stats src2) ->
  exists st1 self1 st2 self2,
    update self0 src1 = Ok (st1, self1)
    /\ st1 !! field = Some (Int 0)
    /\ (cpu_stats_old self1 ≫= assoc field) = Some (Some 120)
    /\ update self1 src2 = Ok (st2, self2)
    /\ st2 !! field = Some (Int 65)
    /\ per_second self2 field = Ok 32
    /\ forall self3 lines,
         update_views self2 = Ok self3 ->
         msg_curse self3 = Ok lines ->
         exists pre post label value d o1 o2,
           lines = pre
                   ++ [curse_add_line label "DEFAULT" o1;
                       curse_add_line value d o2]
                   ++ post
           /\ counter_fragments field 32 label value.
Proof.
  intros Hfield Hlinux Hm Hold Hpercpu Hdis H120 H185 Hprev Ht Hnin.
  destruct (update_local_first self0 src1 Hold) as (st1 & Hu1 & Hz).
  set (self1 := with_stats (with_cpu_stats_old self0 (cpu_stats src1)) st1).
  destruct (update_local_later self1 src2 (cpu_stats src1) eq_refl Hprev)
    as (st2 & Hu2 & Hd).
  set (self2 := with_stats (with_cpu_stats_old self1 (cpu_stats src2)) st2).
  pose proof (Hd field 185 120 H185 H120) as H65.
  assert (Hrate : per_second self2 field = Ok 32).
  { apply per_second_65_by_2; simpl; [exact H65|].
    rewrite <- Ht.
    by apply (update_local_later_time self1 src2 (cpu_stats src1) _ _
                eq_refl Hu2). }
  exists st1, self1, st2, self2.
  split; [by apply update_local_ok|].
  split; [apply Hz; by apply (assoc_in_fields _ _ (Some 120))|].
  split; [exact H120|].
  split; [by apply update_local_ok|].
  split; [exact H65|].
  split; [exact Hrate|].
  intros self3 lines Hv Hl.
  destruct (update_views_frame _ _ Hv) as [Hs Hp].
  apply (msg_curse_counter self3 lines field 32 Hl); [|done|done| |].
  - rewrite Hs, Hp, Hdis. simpl. rewrite Hpercpu.
    destruct (size st2 =? 0)%nat eqn:Hsize; [|done].
    apply Nat.eqb_eq, map_size_empty_iff in Hsize.
    rewrite Hsize in H65. by rewrite lookup_empty in H65.
  - unfold contains. rewrite Hs. simpl. by rewrite H65.
  - unfold per_second in *. by rewrite Hs.
Qed.

(** With a 'user' trend and no 'system' trend the guard, which tests
    [trend_user] twice, lets the addition run and [msg_curse] raises. *)
Lemma msg_curse_missing_system_trend (self : PluginModel) u :
  (size (stats self) =? 0)%nat || args_percpu self || is_disabled = false ->
  get_trend "user" = Some u ->
  get_trend "system" = None ->
  msg_curse self = Raise (TypeError "unsupported operand type(s) for +").
Proof.
  intros Hguard Hu Hs. unfold msg_curse. rewrite Hguard, Hu, Hs. reflexivity.
Qed.

End rendering.

(** The check of [counter_rate_scenario] on the four-core plugin, for the
    'interrupts' counter. *)
Lemma counter_rate_scenario_witness :
  exists st1 self1 st2 self2,
    update (H := Scenario.base None None) Scenario.fresh_plugin
      (Scenario.sample 120) = Ok (st1, self1)
    /\ st1 !! "interrupts" = Some (Int 0)
    /\ update (H := Scenario.base None None) self1 (Scenario.sample 185)
       = Ok (st2, self2)
    /\ st2 !! "interrupts" = Some (Int 65)
    /\ per_second self2 "interrupts" = Ok 32.
Proof.
  destruct (counter_rate_scenario (H := Scenario.base None None)
              Scenario.fresh_plugin (Scenario.sample 120) (Scenario.sample 185)
              "interrupts")
    as (st1 & self1 & st2 & self2 & Hu1 & Hz & _ & Hu2 & Hd & Hr & _);
    try reflexivity.
  - rewrite !elem_of_cons. auto.
  - intros [=].
  - intros f c. unfold Scenario.sample. cbn [cpu_stats assoc].
    repeat (destruct (String.eqb _ f); [intros _; eexists; reflexivity|]).
    intros [=].
  - unfold Scenario.sample, _fields. cbn [cpu_stats map fst].
    rewrite !elem_of_cons, elem_of_nil. intros [[=]|[[=]|[[=]|[[=]|[]]]]].
  - by exists st1, self1, st2, self2.
Defined.

(** C6 as stated fails: after the readings 120 and 185 taken 2.0 seconds
    apart, the fragment rendered after 'ctx_sw:' is "   32", and 32 is not
    65 / 2.0 = 32.5. *)
Lemma counter_rate_counterexample :
  exists lines,
    msg_curse (H := Scenario.base None None) Scenario.displayed_plugin = Ok lines
    /\ stats Scenario.displayed_plugin !! "ctx_switches" = Some (Int 65)
    /\ stats Scenario.displayed_plugin !! "time_since_update"
       = Some (Float (2 # 1))
    /\ msg <$> lines !! 5%nat = Some "  ctx_sw: "
    /\ msg <$> lines !! 6%nat = Some "   32"
    /\ per_second Scenario.displayed_plugin "ctx_switches" = Ok 32
    /\ ~ (inject_Z 32 == 65 / 2)%Q.
Proof.
  eexists. split; [vm_compute; reflexivity|].
  repeat (split; [reflexivity|]). intros Heq. discriminate Heq.
Qed.

(** C2: the panel header at get_trend('user') = 1 and get_trend('system')
    = None. The combined trend is not rendered as unavailable: [msg_curse]
    raises on [trend_user + trend_system]. With the two trends swapped the
    header shows the unavailable glyph. *)
Theorem msg_curse_system_trend_unavailable :
  msg_curse (H := Scenario.base (Some 1) None) Scenario.displayed_plugin
  = Raise (TypeError "unsupported operand type(s) for +")
  /\ (map msg <$> msg_curse (H := Scenario.base None (Some 1))
                    Scenario.displayed_plugin)
     ≫= (fun l => Ok (l !! 1%nat))
     = Ok (Some (" " +:+ ljust 4 " ")).
Proof.
  split.
  - by apply (msg_curse_missing_system_trend (H := Scenario.base (Some 1) None)
                Scenario.displayed_plugin 1).
  - vm_compute. reflexivity.
Qed.

End CpuProps.

(** ** Properties of the Rich display *)

Module RichProps.
Import Py Rich PyProps.

Lemma bind_run {A B} (m : M A) (k : A -> M B) w :
  (m ≫= k) w
  = match m w with
    | (Ok a, w') => k a w'
    | (Raise e, w') => (Raise e, w')
    end.
Proof. reflexivity. Qed.

Lemma getitem_has_key i key :
  has_key i key = true -> exists d v, i = PDict d /\ assoc key d = Some v
                                      /\ getitem i key = Ok v.
Proof.
  destruct i as [| | | |l|d]; simpl; try discriminate.
  destruct (assoc key d) as [v|] eqn:Hv; [|discriminate].
  intros _. exists d, v. by rewrite Hv.
Qed.

Lemma is_ok_getitem i key : is_ok (getitem i key) = has_key i key.
Proof.
  destruct i as [| | | |l|d]; simpl; try reflexivity.
  by destruct (assoc key d).
Qed.

(** On fragments that all have a 'msg', the comprehension returns and the
    sentinels among its results are the sentinel fragments. *)
Lemma msgs_of_fragments items :
  forallb (fun i => has_key i "msg") items = true ->
  exists l, comprehension (fun i => getitem i "msg") items = Ok l
    /\ count_newline l
       = Z.of_nat (length (filter (fun i => is_sentinel i = true) items)).
Proof.
  induction items as [|i items IH]; simpl.
  - intros _. by exists [].
  - intros [Hi Hrest]%andb_prop.
    destruct (getitem_has_key i "msg" Hi) as (d & v & -> & Hv & Hg).
    destruct (IH Hrest) as (l & Hl & Hcount).
    rewrite Hg, Hl. simpl. exists (v :: l). split; [done|].
    unfold count_newline in *. rewrite !filter_cons. simpl. rewrite Hv.
    destruct (decide (is_newline v = true)); simpl; lia.
Qed.

Section measurement.
Context `{Compat}.

Lemma has_text_ok i :
  is_ok (m ← getitem i "msg"; ascii_replace m) = has_text i.
Proof.
  destruct i as [| | | |l|d]; simpl; try reflexivity.
  by destruct (assoc "msg" d).
Qed.

Lemma optional_text_ok i :
  is_ok (optional ← getitem i "optional";
         if negb (truthy optional) then m ← getitem i "msg"; ascii_replace m
         else Ok "")
  = match i with
    | PDict d =>
        match assoc "optional" d with
        | Some o => truthy o || has_text i
        | None => false
        end
    | _ => false
    end.
Proof.
  destruct i as [| | | |l|d]; try reflexivity.
  cbn [getitem]. destruct (assoc "optional" d) as [o|]; [|reflexivity].
  cbn [mbind result_bind]. destruct (truthy o); [reflexivity|].
  cbn [negb orb]. apply (has_text_ok (PDict d)).
Qed.

Lemma _get_height_try_spec stats_display :
  (well_formed stats_display = true ->
   _get_height_try stats_display = Ok (sentinels stats_display))
  /\ (well_formed stats_display = false ->
      exists e, _get_height_try stats_display = Raise e).
Proof.
  unfold _get_height_try, msgs, well_formed, sentinels, fragments.
  destruct (getitem stats_display "msgdict") as [m|e]; simpl;
    [|split; [discriminate|eauto]].
  destruct (iterate m) as [items|e]; simpl; [|split; [discriminate|eauto]].
  destruct (forallb (fun i => has_key i "msg") items) eqn:Hall.
  - destruct (msgs_of_fragments items Hall) as (l & -> & Hcount). simpl.
    split; [by rewrite Hcount|discriminate].
  - split; [discriminate|]. intros _.
    destruct (comprehension_raises (fun i => getitem i "msg")
                (fun i => has_key i "msg") items) as [e He];
      [intros x; apply is_ok_getitem | exact Hall |].
    rewrite He. eauto.
Qed.

Lemma _get_width_try_malformed stats_display without_option :
  measurable stats_display without_option = false ->
  exists e, _get_width_try stats_display without_option = Raise e.
Proof.
  unfold measurable, _get_width_try, fragments.
  destruct without_option;
    (destruct (getitem stats_display "msgdict") as [m|e]; simpl; [|eauto];
     destruct (iterate m) as [items|e]; simpl; [|eauto]; intros Hall).
  - destruct (comprehension_raises _ _ items optional_text_ok Hall) as [e He].
    rewrite He. eauto.
  - destruct (comprehension_raises _ _ items has_text_ok Hall) as [e He].
    rewrite He. eauto.
Qed.

Lemma _get_width_try_nonneg stats_display without_option c :
  _get_width_try stats_display without_option = Ok c -> 0 <= c.
Proof.
  unfold _get_width_try. destruct without_option; intros Hc;
    repeat (apply bind_ok_inv in Hc as (? & _ & Hc));
    injection Hc as <-; unfold len; lia.
Qed.

(** C8. Height and width measurement are total. [_get_height] returns the
    number of line-break sentinels plus one on well-formed content and 0 on
    any other content; [_get_width], with or without the optional fragments,
    always returns a width, which is 0 on content it cannot measure. Neither
    raises. *)
Theorem measurement_total (stats_display : pyval) (without_option : bool)
  (w : World) :
  fst (_get_height stats_display w)
  = Ok (if well_formed stats_display then sentinels stats_display + 1 else 0)
  /\ exists n, fst (_get_width stats_display without_option w) = Ok n
       /\ 0 <= n
       /\ (measurable stats_display without_option = false -> n = 0).
Proof.
  split.
  - unfold _get_height.
    destruct (_get_height_try_spec stats_display) as [Hwf Hmal].
    destruct (well_formed stats_display).
    + by rewrite (Hwf eq_refl).
    + destruct (Hmal eq_refl) as [e ->]. reflexivity.
  - unfold _get_width.
    destruct (_get_width_try stats_display without_option) as [c|e] eqn:Htry.
    + exists c. split; [reflexivity|]. split.
      * by apply (_get_width_try_nonneg stats_display without_option).
      * intros Hm. destruct (_get_width_try_malformed _ _ Hm) as [e He].
        congruence.
    + exists 0. split; [reflexivity|]. split; [lia|done].
Qed.

End measurement.

(** *** Frame conditions *)

Ltac frame_by_computation :=
  unfold preserves, fetch_frame, compose_frame, same_registry, log_grows;
  intros; simpl; repeat split; try reflexivity;
  try (exists []; by rewrite app_nil_r).

#[local] Instance log_grows_refl : Reflexive log_grows.
Proof. intros w. exists []. by rewrite app_nil_r. Qed.

#[local] Instance log_grows_trans : Transitive log_grows.
Proof.
  intros w1 w2 w3 [e1 H1] [e2 H2]. exists (e1 ++ e2).
  by rewrite H2, H1, app_assoc.
Qed.

#[local] Instance fetch_frame_refl : Reflexive fetch_frame.
Proof. intros w. frame_by_computation. Qed.

#[local] Instance fetch_frame_trans : Transitive fetch_frame.
Proof.
  intros w1 w2 w3 (Hl1 & Hf1 & Hc1 & Ht1 & Hg1) (Hl2 & Hf2 & Hc2 & Ht2 & Hg2).
  repeat split; try congruence. by transitivity w2.
Qed.

#[local] Instance compose_frame_refl : Reflexive compose_frame.
Proof. intros w. frame_by_computation. Qed.

#[local] Instance compose_frame_trans : Transitive compose_frame.
Proof.
  intros w1 w2 w3 (Hf1 & Hc1 & Ht1 & Hg1) (Hf2 & Hc2 & Ht2 & Hg2).
  repeat split; try congruence. by transitivity w2.
Qed.

#[local] Instance same_registry_refl : Reflexive same_registry.
Proof. by intros w. Qed.

#[local] Instance same_registry_trans : Transitive same_registry.
Proof. unfold same_registry. intros w1 w2 w3 H1 H2. congruence. Qed.

Lemma fetch_compose_frame w w' : fetch_frame w w' -> compose_frame w w'.
Proof. intros (_ & Hf & Hc & Ht & Hg). by repeat split. Qed.

Section frames.
Context (R : World -> World -> Prop) `{!Reflexive R} `{!Transitive R}.

Lemma preserves_ret {A} (a : A) : preserves R (mret a).
Proof. intros w. simpl. reflexivity. Qed.

Lemma preserves_lift {A} (r : result A) : preserves R (lift r).
Proof. intros w. simpl. reflexivity. Qed.

Lemma preserves_bind {A B} (m : M A) (k : A -> M B) :
  preserves R m -> (forall a, preserves R (k a)) -> preserves R (m ≫= k).
Proof.
  intros Hm Hk w. rewrite bind_run. specialize (Hm w).
  destruct (m w) as [[a|e] w1]; simpl in *; [|done].
  transitivity w1; [done|apply Hk].
Qed.

Lemma preserves_for_eachM {A S} (f : S -> A -> M S) l acc :
  (forall s x, preserves R (f s x)) -> preserves R (for_eachM f l acc).
Proof.
  intros Hf. revert acc. induction l as [|x l IH]; intros acc; simpl.
  - apply preserves_ret.
  - apply preserves_bind; [apply Hf|apply IH].
Qed.

End frames.

Lemma preserves_logger_fetch r : preserves fetch_frame (logger r).
Proof. intros w. unfold fetch_frame. simpl. repeat split. by exists [r]. Qed.

Lemma preserves_logger_registry r : preserves same_registry (logger r).
Proof. by intros w. Qed.

Lemma preserves_set_max_processes n : preserves fetch_frame (set_max_processes n).
Proof. frame_by_computation. Qed.

Section fetching.
Context `{Compat}.

Lemma preserves_get_width_fetch sd wo : preserves fetch_frame (_get_width sd wo).
Proof.
  unfold _get_width. destruct (_get_width_try sd wo).
  - apply preserves_ret; apply _.
  - apply preserves_bind; try apply _; [apply preserves_logger_fetch|].
    intros _. apply preserves_ret; apply _.
Qed.

Lemma preserves_get_height_fetch sd : preserves fetch_frame (_get_height sd).
Proof.
  unfold _get_height. destruct (_get_height_try sd).
  - apply preserves_ret; apply _.
  - apply preserves_bind; try apply _; [apply preserves_logger_fetch|].
    intros _. apply preserves_ret; apply _.
Qed.

Lemma preserves_get_width_registry sd wo :
  preserves same_registry (_get_width sd wo).
Proof. unfold _get_width. by destruct (_get_width_try sd wo). Qed.

Lemma preserves_get_height_registry sd :
  preserves same_registry (_get_height sd).
Proof. unfold _get_height. by destruct (_get_height_try sd). Qed.

(** Fetching a descriptor changes neither the layout, the frames drawn, the
    countdown nor the turns ahead, and only adds to the log. *)
Lemma preserves_plugin_to_rich stats plugin :
  preserves fetch_frame (_plugin_to_rich stats plugin).
Proof.
  unfold _plugin_to_rich. destruct (get_plugin stats plugin) as [pl|];
    [|apply preserves_ret; apply _].
  cbv zeta.
  repeat first
    [ apply preserves_ret; apply _
    | apply preserves_lift; apply _
    | apply preserves_set_max_processes
    | apply preserves_get_width_fetch
    | apply preserves_get_height_fetch
    | apply preserves_bind; [apply _ | | intros ?]
    | match goal with
      | |- context [String.eqb plugin "processlist"] =>
          destruct (String.eqb plugin "processlist")
      end ].
Qed.

Lemma preserves_plugins_to_rich stats :
  preserves fetch_frame (plugins_to_rich stats).
Proof.
  unfold plugins_to_rich. apply preserves_for_eachM; try apply _.
  intros ret p. apply preserves_bind; try apply _.
  - apply preserves_plugin_to_rich.
  - intros d. apply preserves_ret; apply _.
Qed.

(** What [_plugin_to_rich] does after the process registry step. *)
Lemma plugin_to_rich_registry stats plugin w :
  max_processes (snd (_plugin_to_rich stats plugin w))
  = if String.eqb plugin "processlist" then
      match get_plugin stats plugin with
      | Some _ => Some 10
      | None => max_processes w
      end
    else max_processes w.
Proof.
  unfold _plugin_to_rich. destruct (get_plugin stats plugin) as [pl|];
    [|by destruct (String.eqb plugin "processlist")].
  cbv zeta. rewrite bind_run.
  assert (Hrest : forall w0 : World,
            max_processes
              (snd ((stat_display ← lift (get_stats_display pl
                        (if member plugin _middle_left
                         then Some _middle_left_width else None));
                     stat_repr ← lift (msgs stat_display);
                     ret_data ← lift (join_vals stat_repr);
                     w1 ← _get_width stat_display false;
                     h ← _get_height stat_display;
                     ret_display ← lift (getitem stat_display "display");
                     mret {| title := capitalize plugin; subtitle := "";
                             data := ret_data; width := w1 + 4;
                             height := h + 2; display := ret_display |}) w0))
            = max_processes w0).
  { intros w0.
    match goal with
    | |- max_processes (snd (?m w0)) = _ =>
        change (same_registry w0 (snd (m w0)));
        generalize w0; change (preserves same_registry m)
    end.
    repeat first
      [ apply preserves_ret; apply _
      | apply preserves_lift; apply _
      | apply preserves_get_width_registry
      | apply preserves_get_height_registry
      | apply preserves_bind; [apply _ | | intros ?] ]. }
  destruct (String.eqb plugin "processlist"); simpl; by rewrite Hrest.
Qed.

(** C10, as amended. [_plugin_to_rich] leaves the shared process
    registry's [max_processes] as it was for every plugin other than
    'processlist', and for 'processlist' when [stats.get_plugin] returns
    nothing; for a registered 'processlist' it sets [max_processes] to 10.
    In every case it leaves the layout, the frames drawn, the countdown and
    the turns ahead as they were and only appends to the log. *)
Theorem plugin_to_rich_frame (stats : GlancesStats) (plugin : string) (w : World) :
  let w' := snd (_plugin_to_rich stats plugin w) in
  max_processes w'
  = (if String.eqb plugin "processlist" then
       match get_plugin stats plugin with
       | Some _ => Some 10
       | None => max_processes w
       end
     else max_processes w)
  /\ layout w' = layout w /\ frames w' = frames w
  /\ countdown w' = countdown w /\ ticks w' = ticks w /\ log_grows w w'.
Proof.
  split; [apply plugin_to_rich_registry|].
  apply (preserves_plugin_to_rich stats plugin w).
Qed.

(** A plugin whose fetch raises makes [_plugin_to_rich] raise. *)
Lemma plugin_to_rich_fetch_raises stats p pl e w :
  get_plugin stats p = Some pl ->
  (forall max_width, get_stats_display pl max_width = Raise e) ->
  fst (_plugin_to_rich stats p w) = Raise e.
Proof.
  intros Hp Hfetch. unfold _plugin_to_rich. rewrite Hp. cbv zeta.
  rewrite bind_run.
  destruct (String.eqb p "processlist"); simpl; rewrite bind_run;
    unfold lift; by rewrite Hfetch.
Qed.

Lemma plugins_loop_raises stats p pl e l (acc : gmap string Descriptor) w :
  get_plugin stats p = Some pl ->
  (forall max_width, get_stats_display pl max_width = Raise e) ->
  p ∈ l ->
  exists e', fst (for_eachM (fun ret p =>
                      d ← _plugin_to_rich stats p; mret (<[p := d]> ret))
                    l acc w) = Raise e'.
Proof.
  intros Hp Hfetch. revert acc w.
  induction l as [|x l IH]; intros acc w Hin; [by apply elem_of_nil in Hin|].
  simpl. rewrite !bind_run.
  destruct (_plugin_to_rich stats x w) as [[d|e0] w1] eqn:Hx; simpl; [|eauto].
  apply elem_of_cons in Hin as [->|Hin]; [|by apply IH].
  pose proof (plugin_to_rich_fetch_raises stats x pl e w Hp Hfetch) as Hr.
  rewrite Hx in Hr. discriminate Hr.
Qed.

Lemma update_layout_fetch_raises stats p pl e w :
  get_plugin stats p = Some pl ->
  (forall max_width, get_stats_display pl max_width = Raise e) ->
  p ∈ getPluginsList stats ->
  exists e', update_layout stats w = (Raise e', snd (plugins_to_rich stats w)).
Proof.
  intros Hp Hfetch Hin. unfold update_layout. rewrite bind_run.
  destruct (plugins_loop_raises stats p pl e (getPluginsList stats) ∅ w
              Hp Hfetch Hin) as [e' He'].
  fold (plugins_to_rich stats) in He'.
  destruct (plugins_to_rich stats w) as [[sd|e0] w1]; simpl in *;
    [discriminate|]. injection He' as ->. eauto.
Qed.

(** C3, as amended. When the descriptor fetch of one listed plugin raises,
    [update_layout] raises as well and leaves the layout as it was: the
    rebuild of the cycle is aborted, no panel is excluded on its own and none
    of the remaining panels is composed. [update] then raises too, before
    drawing any frame. *)
Theorem fetch_failure_aborts_rebuild (stats : GlancesStats) (p : string)
  (pl : Plugin) (e : exn) (duration : num) (w : World) :
  p ∈ getPluginsList stats ->
  get_plugin stats p = Some pl ->
  (forall max_width, get_stats_display pl max_width = Raise e) ->
  (exists e', fst (update_layout stats w) = Raise e'
              /\ layout (snd (update_layout stats w)) = layout w)
  /\ (exists e', fst (update stats duration w) = Raise e'
                 /\ layout (snd (update stats duration w)) = layout w
                 /\ frames (snd (update stats duration w)) = frames w).
Proof.
  intros Hin Hp Hfetch.
  assert (Hlayout : forall w0, exists e',
             fst (update_layout stats w0) = Raise e'
             /\ layout (snd (update_layout stats w0)) = layout w0
             /\ frames (snd (update_layout stats w0)) = frames w0).
  { intros w0.
    destruct (update_layout_fetch_raises stats p pl e w0 Hp Hfetch Hin)
      as [e' ->].
    exists e'. simpl.
    destruct (preserves_plugins_to_rich stats w0) as (Hl & Hf & _). eauto. }
  split.
  - destruct (Hlayout w) as (e' & He & Hl & _). eauto.
  - unfold update. rewrite bind_run.
    destruct (le duration (Int 0)); simpl; repeat (rewrite bind_run; simpl);
      match goal with
      | |- context [update_layout stats ?w0] =>
          destruct (Hlayout w0) as (e' & He & Hl & Hf);
          destruct (update_layout stats w0) as [[[]|e0] w1]; simpl in *;
          [discriminate|]; exists e0; eauto
      end.
Qed.

End fetching.

(** *** Composition of the layout *)

Lemma bind_run_ok_inv {A B} (m : M A) (k : A -> M B) w b w' :
  (m ≫= k) w = (Ok b, w') ->
  exists a w1, m w = (Ok a, w1) /\ k a w1 = (Ok b, w').
Proof.
  rewrite bind_run. destruct (m w) as [[a|e] w1]; [eauto|discriminate].
Qed.

Lemma lift_ok_inv {A} (r : result A) w a w' :
  lift r w = (Ok a, w') -> r = Ok a /\ w' = w.
Proof. unfold lift. by intros [= -> ->]. Qed.

Lemma member_false p target names :
  p ∈ names -> member target names = false -> String.eqb p target = false.
Proof.
  unfold member. induction names as [|x names IH]; simpl.
  - intros Hin. by apply elem_of_nil in Hin.
  - intros [->|Hin]%elem_of_cons [Hx Hrest]%orb_false_elim.
    + by rewrite String.eqb_sym.
    + by apply IH.
Qed.

Lemma update_first_none (f : Layout -> option Layout) l :
  Forall (fun n => f n = None) l -> update_first f l = None.
Proof.
  induction 1 as [|n l Hn _ IH]; simpl; [done|]. by rewrite Hn, IH.
Qed.

Lemma first_hit_none {A} (f : Layout -> option A) l :
  Forall (fun n => f n = None) l -> first_hit f l = None.
Proof.
  induction 1 as [|n l Hn _ IH]; simpl; [done|]. by rewrite Hn.
Qed.

Lemma placed_split_miss sd names target sp kids n :
  member target names = false -> placed sd names n ->
  split_named target sp kids n = None.
Proof.
  intros Hm (p & d & Hin & Hname & Hkids & _).
  destruct n as [r nm s sp0 cs]. simpl in Hname, Hkids. subst. simpl.
  by rewrite (member_false p target names Hin Hm).
Qed.

Lemma placed_get_miss sd names target n :
  member target names = false -> placed sd names n ->
  layout_get target n = None.
Proof.
  intros Hm (p & d & Hin & Hname & Hkids & _).
  destruct n as [r nm s sp0 cs]. simpl in Hname, Hkids. subst. simpl.
  by rewrite (member_false p target names Hin Hm).
Qed.

Lemma zone_split_miss sd names target sp kids l :
  member target names = false -> Forall (placed sd names) l ->
  update_first (split_named target sp kids) l = None.
Proof.
  intros Hm Hl. apply update_first_none.
  eapply Forall_impl; [exact Hl|]. intros n. by apply placed_split_miss.
Qed.

Lemma zone_get_miss sd names target l :
  member target names = false -> Forall (placed sd names) l ->
  first_hit (layout_get target) l = None.
Proof.
  intros Hm Hl. apply first_hit_none.
  eapply Forall_impl; [exact Hl|]. intros n. by apply placed_get_miss.
Qed.

Lemma placed_weaken sd names n p d r s :
  p ∈ names -> sd !! p = Some d -> truthy (display d) = true -> data d <> "" ->
  r = Placeholder \/ r = Panel (data d) (title d) (subtitle d) ->
  n = new_layout r (Some p) s -> placed sd names n.
Proof. intros Hin Hd Ht Hdata Hr ->. exists p, d. by repeat split. Qed.

Section composing.
Context `{Compat}.

Lemma shown_true sd p :
  shown sd p = Ok true ->
  exists d, sd !! p = Some d /\ truthy (display d) = true /\ data d <> "".
Proof.
  unfold shown, descriptor. destruct (sd !! p) as [d|]; [|discriminate].
  simpl. destruct (truthy (display d)) eqn:Ht; [|discriminate]. simpl.
  intros [= Hlen]. exists d. split; [done|]. split; [done|].
  intros Hempty. rewrite Hempty in Hlen. discriminate Hlen.
Qed.

(** The layout of a shown plugin in the top or middle-right zone. *)
Lemma placed_flexible sd names p flexible (size : Descriptor -> Z) n :
  p ∈ names -> shown sd p = Ok true ->
  (if String.eqb p flexible then Ok (new_layout Placeholder (Some p) None)
   else pn ← panel sd p; d ← descriptor sd p;
        Ok (new_layout pn (Some p) (Some (size d)))) = Ok n ->
  placed sd names n.
Proof.
  intros Hin (d & Hd & Ht & Hdata)%shown_true.
  unfold panel, descriptor. rewrite Hd. simpl.
  destruct (String.eqb p flexible); intros [= <-].
  - apply (placed_weaken sd names _ p d Placeholder None); auto.
  - apply (placed_weaken sd names _ p d (Panel (data d) (title d) (subtitle d))
             (Some (size d))); auto.
Qed.

(** The layout of a shown plugin in the middle-left zone. *)
Lemma placed_stacked sd names p n :
  p ∈ names -> shown sd p = Ok true ->
  (pn ← panel sd p; d ← descriptor sd p;
   Ok (new_layout pn (Some p) (Some (height d)))) = Ok n ->
  placed sd names n.
Proof.
  intros Hin (d & Hd & Ht & Hdata)%shown_true.
  unfold panel, descriptor. rewrite Hd. simpl.
  intros [= <-].
  apply (placed_weaken sd names _ p d (Panel (data d) (title d) (subtitle d))
           (Some (height d))); auto.
Qed.

(** A [for] loop that appends one layout per shown plugin. *)
Lemma zone_loop sd (mk : string -> result Layout) names all acc res :
  (forall p, p ∈ names -> p ∈ all) ->
  (forall p n, p ∈ all -> shown sd p = Ok true -> mk p = Ok n -> placed sd all n) ->
  for_each (fun (renderable : list Layout) (p : string) =>
              visible ← shown sd p;
              if (visible : bool) then r ← mk p; Ok (renderable ++ [r])
              else Ok renderable) names acc = Ok res ->
  exists added, res = acc ++ added /\ Forall (placed sd all) added.
Proof.
  intros Hsub Hmk. revert acc. induction names as [|p names IH]; intros acc.
  - simpl. intros [= <-]. exists []. by rewrite app_nil_r.
  - simpl. intros (acc' & Hstep & Hrest)%bind_ok_inv.
    apply bind_ok_inv in Hstep as (visible & Hv & Hstep).
    destruct (IH (fun q Hq => Hsub q (proj2 (elem_of_cons names q p)
                                        (or_intror Hq))) _ Hrest)
      as (added & -> & Hadded).
    destruct visible.
    + apply bind_ok_inv in Hstep as (r & Hr & [= <-]).
      exists (r :: added). rewrite <- app_assoc. split; [done|].
      constructor; [|done]. apply (Hmk p r); [apply Hsub; left|done..].
    + injection Hstep as <-. eauto.
Qed.

(** The comprehension that keeps one layout per shown plugin. *)
Lemma zone_comprehension sd (mk : string -> result Layout) names all res :
  (forall p, p ∈ names -> p ∈ all) ->
  (forall p n, p ∈ all -> shown sd p = Ok true -> mk p = Ok n -> placed sd all n) ->
  comprehension_if (shown sd) mk names = Ok res ->
  Forall (placed sd all) res.
Proof.
  intros Hsub Hmk. revert res. induction names as [|p names IH]; intros res.
  - simpl. by intros [= <-].
  - simpl. intros (visible & Hv & Hstep)%bind_ok_inv.
    assert (Hsub' : forall q, q ∈ names -> q ∈ all).
    { intros q Hq. apply Hsub. by right. }
    destruct visible; [|by apply IH].
    apply bind_ok_inv in Hstep as (r & Hr & Hstep).
    apply bind_ok_inv in Hstep as (rest & Hrest & [= <-]).
    constructor; [|by apply IH]. apply (Hmk p r); [apply Hsub; left|done..].
Qed.

Lemma layout_split_column_run kids w :
  layout_split_column kids w
  = (Ok (), with_layout w (split ColumnSplitter kids (layout w))).
Proof. reflexivity. Qed.

Lemma layout_split_named_run name sp kids w :
  layout_split_named name sp kids w
  = match split_named name sp kids (layout w) with
    | Some l' => (Ok (), with_layout w l')
    | None => (Raise (KeyError name), w)
    end.
Proof.
  unfold layout_split_named. rewrite bind_run. simpl.
  by destruct (split_named name sp kids (layout w)).
Qed.

Lemma padded_split_miss sd target sp kids l :
  member target ("middle_left_padding" :: _middle_left) = false ->
  Forall (placed sd _middle_left) l ->
  update_first (split_named target sp kids)
    (l ++ [new_layout Placeholder (Some "middle_left_padding") None]) = None.
Proof.
  intros Hm Hl. apply update_first_none, Forall_app. split.
  - eapply Forall_impl; [exact Hl|]. intros n Hn.
    apply (placed_split_miss sd _middle_left); [|done].
    simpl in Hm. by apply orb_false_elim in Hm as [_ Hm].
  - constructor; [|done]. unfold new_layout. cbn [split_named name_is].
    simpl in Hm. apply orb_false_elim in Hm as [Hm _].
    rewrite String.eqb_sym in Hm. by rewrite Hm.
Qed.

Lemma padded_get_miss sd target l :
  member target ("middle_left_padding" :: _middle_left) = false ->
  Forall (placed sd _middle_left) l ->
  first_hit (layout_get target)
    (l ++ [new_layout Placeholder (Some "middle_left_padding") None]) = None.
Proof.
  intros Hm Hl. apply first_hit_none, Forall_app. split.
  - eapply Forall_impl; [exact Hl|]. intros n Hn.
    apply (placed_get_miss sd _middle_left); [|done].
    simpl in Hm. by apply orb_false_elim in Hm as [_ Hm].
  - constructor; [|done]. unfold new_layout. cbn [layout_get name_is].
    simpl in Hm. apply orb_false_elim in Hm as [Hm _].
    rewrite String.eqb_sym in Hm. by rewrite Hm.
Qed.

Lemma update_layout_with_zones sd w w' :
  layout_name (layout w) = None ->
  update_layout_with sd w = (Ok (), w') ->
  Forall (placed sd _top) (zone (layout w') "top")
  /\ (exists panels,
        zone (layout w') "middle_left"
        = panels ++ [new_layout Placeholder (Some "middle_left_padding") None]
        /\ Forall (placed sd _middle_left) panels)
  /\ Forall (placed sd _middle_right) (zone (layout w') "middle_right").
Proof.
  intros Hroot Hu. unfold update_layout_with in Hu.
  apply bind_run_ok_inv in Hu as (cpu & w1 & [Hcpu ->]%lift_ok_inv & Hu).
  apply bind_run_ok_inv in Hu as (now & w1 & [Hnow ->]%lift_ok_inv & Hu).
  apply bind_run_ok_inv in Hu as ([] & w1 & Hsplit & Hu).
  rewrite layout_split_column_run in Hsplit. injection Hsplit as <-.
  destruct (layout w) as [r0 n0 s0 sp0 cs0] eqn:Hl. simpl in Hroot. subst n0.
  apply bind_run_ok_inv in Hu as (T & w1 & [HT ->]%lift_ok_inv & Hu).
  apply zone_loop with (all := _top) in HT as (T' & -> & HT); [|done|].
  2:{ intros p n Hp Hs Hn. by apply (placed_flexible sd _top p "quicklook" width). }
  simpl in HT |- *.
  apply bind_run_ok_inv in Hu as ([] & w1 & Hsplit & Hu).
  rewrite layout_split_named_run in Hsplit. simpl in Hsplit.
  injection Hsplit as <-.
  apply bind_run_ok_inv in Hu as ([] & w1 & Hsplit & Hu).
  rewrite layout_split_named_run in Hsplit. simpl in Hsplit.
  rewrite (zone_split_miss sd _top "middle" _ _ T' eq_refl HT) in Hsplit.
  simpl in Hsplit. injection Hsplit as <-.
  apply bind_run_ok_inv in Hu as (ml & w1 & Hget & Hu).
  apply bind_run_ok_inv in Hget as (l & w2 & Hg & [_ ->]%lift_ok_inv).
  injection Hg as _ <-.
  apply bind_run_ok_inv in Hu as (ML & w1 & [HML ->]%lift_ok_inv & Hu).
  apply zone_comprehension with (all := _middle_left) in HML; [|done|].
  2:{ intros p n Hp Hs Hn. by apply (placed_stacked sd _middle_left p). }
  apply bind_run_ok_inv in Hu as ([] & w1 & Hsplit & Hu).
  rewrite layout_split_named_run in Hsplit. simpl in Hsplit.
  rewrite (zone_split_miss sd _top "middle_left" _ _ T' eq_refl HT) in Hsplit.
  simpl in Hsplit. injection Hsplit as <-.
  apply bind_run_ok_inv in Hu as (MR & w1 & [HMR ->]%lift_ok_inv & Hu).
  apply zone_loop with (all := _middle_right) in HMR as (MR' & -> & HMR); [|done|].
  2:{ intros p n Hp Hs Hn.
      by apply (placed_flexible sd _middle_right p "processlist" height). }
  simpl in HMR |- *.
  apply bind_run_ok_inv in Hu as ([] & w1 & Hsplit & Hu).
  rewrite layout_split_named_run in Hsplit. simpl in Hsplit.
  rewrite (zone_split_miss sd _top "middle_right" _ _ T' eq_refl HT) in Hsplit.
  simpl in Hsplit.
  rewrite (padded_split_miss sd "middle_right" _ _ ML eq_refl HML) in Hsplit.
  simpl in Hsplit. injection Hsplit as <-.
  rewrite layout_split_named_run in Hu. simpl in Hu.
  rewrite (zone_split_miss sd _top "bottom" _ _ T' eq_refl HT) in Hu.
  simpl in Hu.
  rewrite (padded_split_miss sd "bottom" _ _ ML eq_refl HML) in Hu.
  simpl in Hu.
  rewrite (zone_split_miss sd _middle_right "bottom" _ _ MR' eq_refl HMR) in Hu.
  simpl in Hu. injection Hu as <-.
  unfold zone. simpl.
  rewrite (zone_get_miss sd _top "middle_left" T' eq_refl HT).
  rewrite (zone_get_miss sd _top "middle_right" T' eq_refl HT). simpl.
  rewrite (padded_get_miss sd "middle_right" ML eq_refl HML). simpl.
  split; [exact HT|]. split; [|exact HMR]. by exists ML.
Qed.

(** C4. Whatever descriptors the plugins return, when [update_layout]
    composes the layout every layout it places in the top, middle-left and
    middle-right zones belongs to a plugin whose descriptor has a true
    [display] and non-empty [data]; a descriptor with [display] false or with
    empty content places nothing. The middle-left zone ends with its padding
    region, which is no panel. *)
Theorem update_layout_panels_shown (stats : GlancesStats) (w w' : World) :
  layout_name (layout w) = None ->
  update_layout stats w = (Ok (), w') ->
  exists stats_display,
    fst (plugins_to_rich stats w) = Ok stats_display
    /\ Forall (placed stats_display _top) (zone (layout w') "top")
    /\ (exists panels,
          zone (layout w') "middle_left"
          = panels ++ [new_layout Placeholder (Some "middle_left_padding") None]
          /\ Forall (placed stats_display _middle_left) panels)
    /\ Forall (placed stats_display _middle_right)
         (zone (layout w') "middle_right").
Proof.
  intros Hroot Hu. unfold update_layout in Hu.
  apply bind_run_ok_inv in Hu as (sd & w1 & Hfetch & Hu).
  exists sd. rewrite Hfetch. split; [reflexivity|].
  apply (update_layout_with_zones sd w1 w'); [|exact Hu].
  destruct (preserves_plugins_to_rich stats w) as (Hl & _).
  rewrite Hfetch in Hl. simpl in Hl. by rewrite Hl.
Qed.

End composing.

(** *** The refresh loop *)

Lemma preserves_weaken {A} (R R' : World -> World -> Prop) (m : M A) :
  (forall w w', R w w' -> R' w w') -> preserves R m -> preserves R' m.
Proof. intros HR Hm w. apply HR, Hm. Qed.

Lemma preserves_split_named name sp kids :
  preserves compose_frame (layout_split_named name sp kids).
Proof.
  intros w. rewrite layout_split_named_run.
  destruct (split_named name sp kids (layout w)); frame_by_computation.
Qed.

Lemma is_exit_key_spec c :
  is_exit_key (ord c) = true <-> c = "027"%char \/ c = "q"%char.
Proof.
  unfold is_exit_key, ord. rewrite orb_true_iff, !Z.eqb_eq. split.
  - intros [Hc|Hc]; apply Nat2Z.inj in Hc;
      rewrite <- (ascii_nat_embedding c), Hc; auto.
  - by intros [->| ->]; [left|right].
Qed.

Lemma cancel_turn_key t :
  cancel_turn t <-> exists c, kbhit t = Some c /\ is_exit_key (ord c) = true.
Proof.
  unfold cancel_turn. split.
  - intros [Hk|Hk]; eexists; (split; [exact Hk|reflexivity]).
  - intros (c & Hk & [->| ->]%is_exit_key_spec); auto.
Qed.

Section looping.
Context `{Compat}.

Lemma preserves_update_layout_with sd :
  preserves compose_frame (update_layout_with sd).
Proof.
  unfold update_layout_with, layout_split_column.
  repeat first
    [ apply preserves_ret; apply _
    | apply preserves_lift; apply _
    | apply preserves_split_named
    | apply preserves_bind; [apply _ | | intros ?]
    | by frame_by_computation ].
Qed.

Lemma preserves_update_layout stats :
  preserves compose_frame (update_layout stats).
Proof.
  unfold update_layout. apply preserves_bind; [apply _| |].
  - apply (preserves_weaken fetch_frame); [apply fetch_compose_frame|].
    apply preserves_plugins_to_rich.
  - intros sd. apply preserves_update_layout_with.
Qed.

(** Once the exit key has been seen the loop stops at its next test. *)
Lemma wait_exit turns w :
  fst (wait turns true w) = Ok true
  /\ layout (snd (wait turns true w)) = layout w
  /\ frames (snd (wait turns true w)) = frames w
  /\ countdown (snd (wait turns true w)) = countdown w
  /\ log (snd (wait turns true w)) = log w.
Proof.
  destruct turns as [|t rest]; simpl; [done|].
  rewrite bind_run. simpl. by rewrite andb_false_r.
Qed.

(** The loop from a fresh [isexitkey]: it returns; it draws one frame per
    turn it runs; it returns true exactly when a turn with the cancel key
    pending comes before the countdown expires; when it returns false it has
    run every turn up to the expiry of the countdown. *)
Lemma wait_spec turns w :
  exists b k,
    fst (wait turns false w) = Ok b
    /\ layout (snd (wait turns false w)) = layout w
    /\ countdown (snd (wait turns false w)) = countdown w
    /\ log (snd (wait turns false w)) = log w
    /\ frames (snd (wait turns false w)) = frames w ++ replicate k (layout w)
    /\ (b = true <->
        exists n t, turns !! n = Some t /\ cancel_turn t
          /\ forall m t', (m <= n)%nat -> turns !! m = Some t' ->
                          finished t' = false)
    /\ (b = false ->
        (forall m, (m < k)%nat ->
           exists t, turns !! m = Some t /\ finished t = false)
        /\ (turns !! k = None
            \/ exists t, turns !! k = Some t /\ finished t = true)).
Proof.
  revert w. induction turns as [|t rest IH]; intros w.
  - exists false, 0%nat. simpl. rewrite app_nil_r.
    do 5 (split; [done|]). split; [split; [done|]|].
    + intros (n & t & Hn & _). by rewrite lookup_nil in Hn.
    + intros _. split; [intros m Hm; lia|by left].
  - simpl. rewrite bind_run. simpl. rewrite andb_true_r.
    destruct (finished t) eqn:Hfin; simpl.
    { exists false, 0%nat. simpl. rewrite app_nil_r.
      do 5 (split; [done|]). split; [split; [done|]|].
      - intros (n & t' & Hn & _ & Hall).
        specialize (Hall 0%nat t (Nat.le_0_l n) eq_refl). congruence.
      - intros _. split; [intros m Hm; lia|]. right. by exists t. }
    assert (Hcontinue : forall w0 : World,
              layout w0 = layout w -> countdown w0 = countdown w ->
              log w0 = log w -> frames w0 = frames w ++ [layout w] ->
              ~ cancel_turn t ->
              exists b k,
                fst (wait rest false w0) = Ok b
                /\ layout (snd (wait rest false w0)) = layout w
                /\ countdown (snd (wait rest false w0)) = countdown w
                /\ log (snd (wait rest false w0)) = log w
                /\ frames (snd (wait rest false w0))
                   = frames w ++ replicate k (layout w)
                /\ (b = true <->
                    exists n t', (t :: rest) !! n = Some t' /\ cancel_turn t'
                      /\ forall m t'', (m <= n)%nat ->
                           (t :: rest) !! m = Some t'' -> finished t'' = false)
                /\ (b = false ->
                    (forall m, (m < k)%nat ->
                       exists t', (t :: rest) !! m = Some t'
                                  /\ finished t' = false)
                    /\ ((t :: rest) !! k = None
                        \/ exists t', (t :: rest) !! k = Some t'
                                      /\ finished t' = true))).
    { intros w0 Hl0 Hc0 Hg0 Hf0 Hnot.
      destruct (IH w0) as (b & k & Hr & Hl & Hc & Hg & Hf & Hb & Hk).
      exists b, (S k). rewrite Hr, Hl, Hc, Hg, Hf, Hl0, Hc0, Hg0, Hf0.
      rewrite <- app_assoc. simpl.
      do 5 (split; [done|]). split; [split|].
      - intros Hb'. apply Hb in Hb' as (n & t' & Hn & Hcancel & Hall).
        exists (S n), t'. split; [done|]. split; [done|].
        intros [|m] t'' Hm; simpl; [by intros [= <-]|].
        apply Hall. lia.
      - intros (n & t' & Hn & Hcancel & Hall). apply Hb.
        destruct n as [|n]; simpl in Hn; [by injection Hn as <-|].
        exists n, t'. split; [done|]. split; [done|].
        intros m t'' Hm Hm'. apply (Hall (S m)); [lia|done].
      - intros Hfalse. destruct (Hk Hfalse) as [Hlt Hend].
        split; [|exact Hend].
        intros [|m] Hm; simpl; [eauto|]. apply Hlt. lia. }
    destruct (kbhit t) as [c|] eqn:Hkey;
      [destruct (is_exit_key (ord c)) eqn:Hexit|].
    + rewrite bind_run. simpl.
      match goal with
      | |- context [wait rest true ?w0] =>
          destruct (wait_exit rest w0) as (Hr & Hl & Hf & Hc & Hg)
      end.
      exists true, 1%nat. rewrite Hr, Hl, Hf, Hc, Hg. simpl.
      do 5 (split; [done|]). split; [split; [|done]|done].
      intros _. exists 0%nat, t. split; [done|]. split.
      * apply cancel_turn_key. eauto.
      * intros m t' Hm. assert (m = 0)%nat as -> by lia.
        simpl. by intros [= <-].
    + rewrite bind_run. simpl. apply Hcontinue; try done.
      intros (c' & Hc' & Hx)%cancel_turn_key. congruence.
    + rewrite bind_run. simpl. apply Hcontinue; try done.
      intros (c' & Hc' & Hx)%cancel_turn_key. congruence.
Qed.

(** [update] up to the wait loop: the floor on the duration, the countdown,
    then the layout. *)
Lemma update_run stats duration w :
  update stats duration w
  = match
      update_layout stats
        {| layout := layout w; frames := frames w;
           max_processes := max_processes w;
           log := if le duration (Int 0)
                  then log w ++ [LogWarning
                         "Update and export time higher than refresh_time."]
                  else log w;
           countdown := Some (if le duration (Int 0) then Float (1 # 10)
                              else duration);
           ticks := ticks w |}
    with
    | (Ok _, w3) => wait (ticks w3) false w3
    | (Raise e, w3) => (Raise e, w3)
    end.
Proof.
  unfold update. rewrite bind_run.
  destruct (le duration (Int 0)); simpl; repeat (rewrite bind_run; simpl);
    match goal with
    | |- context [update_layout stats ?w0] =>
        by destruct (update_layout stats w0) as [[[]|e] w3]
    end.
Qed.

(** C9. When [update] returns, it returns true exactly when some turn
    reached before the countdown expires has the cancel key pending, the
    escape character or 'q'; and when it returns false it has redrawn once
    per turn up to the expiry of the countdown, so that no other key ended
    the loop early. *)
Theorem update_returns_cancel (stats : GlancesStats) (duration : num)
  (w w' : World) (b : bool) :
  update stats duration w = (Ok b, w') ->
  (b = true <->
   exists n t, ticks w !! n = Some t /\ cancel_turn t
     /\ forall m t', (m <= n)%nat -> ticks w !! m = Some t' ->
                     finished t' = false)
  /\ (b = false ->
      exists k, frames w' = frames w ++ replicate k (layout w')
        /\ (forall m, (m < k)%nat ->
              exists t, ticks w !! m = Some t /\ finished t = false)
        /\ (ticks w !! k = None
            \/ exists t, ticks w !! k = Some t /\ finished t = true)).
Proof.
  rewrite update_run.
  match goal with
  | |- context [update_layout stats ?w0] =>
      pose proof (preserves_update_layout stats w0) as (Hf & _ & Ht & _);
      destruct (update_layout stats w0) as [[[]|e] w3]; [|discriminate]
  end.
  simpl in Hf, Ht. rewrite Ht. intros Hwait.
  destruct (wait_spec (ticks w) w3) as (b0 & k & Hr & Hl & _ & _ & Hfr & Hb & Hk).
  rewrite Hwait in Hr, Hl, Hfr. simpl in Hr, Hl, Hfr. injection Hr as <-.
  split; [exact Hb|]. intros Hfalse. exists k.
  rewrite Hfr, Hl, Hf. split; [done|]. by apply Hk.
Qed.

(** C5. For a duration of 0 or less [update] logs a warning and runs its
    countdown on 0.1 seconds: the call is the call with duration 0.1 made
    after the warning, and it returns whenever the layout of the cycle can be
    composed. For a duration above 0 the countdown runs on the duration as
    given. *)
Theorem update_duration_floor (stats : GlancesStats) (duration : num) (w : World) :
  let warning :=
    LogWarning "Update and export time higher than refresh_time." in
  (le duration (Int 0) = true ->
   countdown (snd (update stats duration w)) = Some (Float (1 # 10))
   /\ warning ∈ log (snd (update stats duration w))
   /\ update stats duration w
      = update stats (Float (1 # 10)) (snd (logger warning w))
   /\ is_ok (fst (update stats duration w))
      = is_ok (fst (update_layout stats
                      (snd ((logger warning;; Timer (Float (1 # 10))) w)))))
  /\ (gt duration (Int 0) = true ->
      countdown (snd (update stats duration w)) = Some duration).
Proof.
  intros warning.
  assert (Hrun : forall w0 : World,
            let r := match update_layout stats w0 with
                     | (Ok _, w3) => wait (ticks w3) false w3
                     | (Raise e, w3) => (Raise e, w3)
                     end in
            countdown (snd r) = countdown w0
            /\ log_grows w0 (snd r)
            /\ is_ok (fst r) = is_ok (fst (update_layout stats w0))).
  { intros w0.
    pose proof (preserves_update_layout stats w0) as (_ & Hc & _ & Hg).
    destruct (update_layout stats w0) as [[[]|e] w3]; simpl in *; [|done].
    destruct (wait_spec (ticks w3) w3) as (b & k & Hr & _ & Hc' & Hg' & _).
    rewrite Hr, Hc', Hc. split; [done|]. split; [|done].
    destruct Hg as [extra Hg]. exists extra. by rewrite Hg'. }
  split.
  - intros Hle. rewrite !update_run. simpl. rewrite Hle.
    match goal with
    | |- context [update_layout stats ?w0] =>
        destruct (Hrun w0) as (Hc & [extra Hg] & Hok)
    end.
    split; [exact Hc|]. split.
    { rewrite Hg. simpl. rewrite !elem_of_app, list_elem_of_singleton. auto. }
    split; [reflexivity|]. exact Hok.
  - unfold gt. intros Hgt. apply negb_true_iff in Hgt.
    change (le duration (Int 0) = false) in Hgt.
    rewrite update_run, Hgt.
    match goal with
    | |- context [update_layout stats ?w0] =>
        destruct (Hrun w0) as (Hc & _)
    end.
    exact Hc.
Qed.

End looping.

(** The check of [update_returns_cancel]: an idle turn, an 'a', then 'q'
    ends the loop with true; with the countdown expiring before the 'q' the
    loop returns false after two redraws. *)
Lemma update_returns_cancel_witness :
  (fst (update (H := Scenario.compat) (Scenario.registry Scenario.cpu_panel)
          (Int 3)
          (Scenario.world [Scenario.idle_turn; Scenario.key_turn "a";
                           Scenario.key_turn "q"; Scenario.idle_turn]))
   = Ok true
   /\ exists n t,
        [Scenario.idle_turn; Scenario.key_turn "a"; Scenario.key_turn "q";
         Scenario.idle_turn] !! n = Some t
        /\ cancel_turn t)
  /\ (fst (update (H := Scenario.compat) (Scenario.registry Scenario.cpu_panel)
             (Int 3)
             (Scenario.world [Scenario.idle_turn; Scenario.key_turn "a";
                              Scenario.expired_turn; Scenario.key_turn "q"]))
      = Ok false
      /\ length (frames (snd (update (H := Scenario.compat)
                                 (Scenario.registry Scenario.cpu_panel) (Int 3)
                                 (Scenario.world [Scenario.idle_turn;
                                                  Scenario.key_turn "a";
                                                  Scenario.expired_turn;
                                                  Scenario.key_turn "q"]))))
         = 2%nat).
Proof.
  split.
  - split; [vm_compute; reflexivity|].
    destruct (update_returns_cancel (H := Scenario.compat)
                (Scenario.registry Scenario.cpu_panel) (Int 3)
                (Scenario.world [Scenario.idle_turn; Scenario.key_turn "a";
                                 Scenario.key_turn "q"; Scenario.idle_turn])
                (snd (update (H := Scenario.compat)
                        (Scenario.registry Scenario.cpu_panel) (Int 3)
                        (Scenario.world [Scenario.idle_turn;
                                         Scenario.key_turn "a";
                                         Scenario.key_turn "q";
                                         Scenario.idle_turn])))
                true) as [Htrue _].
    + vm_compute. reflexivity.
    + destruct (proj1 Htrue eq_refl) as (n & t & Hn & Hc & _). eauto.
  - split; [vm_compute; reflexivity|].
    destruct (update_returns_cancel (H := Scenario.compat)
                (Scenario.registry Scenario.cpu_panel) (Int 3)
                (Scenario.world [Scenario.idle_turn; Scenario.key_turn "a";
                                 Scenario.expired_turn; Scenario.key_turn "q"])
                (snd (update (H := Scenario.compat)
                        (Scenario.registry Scenario.cpu_panel) (Int 3)
                        (Scenario.world [Scenario.idle_turn;
                                         Scenario.key_turn "a";
                                         Scenario.expired_turn;
                                         Scenario.key_turn "q"])))
                false) as [_ Hfalse].
    + vm_compute. reflexivity.
    + destruct (Hfalse eq_refl) as (k & _ & _ & _).
      vm_compute. reflexivity.
Defined.

(** The check of [update_duration_floor]: a duration of -0.5 is floored to
    0.1 with a warning, a duration of 3 is kept. *)
Lemma update_duration_floor_witness :
  countdown (snd (update (H := Scenario.compat)
                    (Scenario.registry Scenario.cpu_panel) (Float (-1 # 2))
                    (Scenario.world [Scenario.idle_turn])))
  = Some (Float (1 # 10))
  /\ is_ok (fst (update (H := Scenario.compat)
                   (Scenario.registry Scenario.cpu_panel) (Float (-1 # 2))
                   (Scenario.world [Scenario.idle_turn])))
     = true
  /\ countdown (snd (update (H := Scenario.compat)
                       (Scenario.registry Scenario.cpu_panel) (Int 3)
                       (Scenario.world [Scenario.idle_turn])))
     = Some (Int 3).
Proof.
  destruct (update_duration_floor (H := Scenario.compat)
              (Scenario.registry Scenario.cpu_panel) (Float (-1 # 2))
              (Scenario.world [Scenario.idle_turn])) as [Hfloor _].
  destruct (Hfloor eq_refl) as (Hc & _ & _ & Hok).
  destruct (update_duration_floor (H := Scenario.compat)
              (Scenario.registry Scenario.cpu_panel) (Int 3)
              (Scenario.world [Scenario.idle_turn])) as [_ Hkeep].
  split; [exact Hc|]. split; [|exact (Hkeep eq_refl)].
  rewrite Hok. vm_compute. reflexivity.
Defined.

(** The check of [update_layout_panels_shown] on the registry in which
    'cpu', 'network', 'processlist' and 'now' have content and 'mem' is
    disabled. *)
Lemma update_layout_panels_shown_witness :
  exists stats_display,
    fst (plugins_to_rich (H := Scenario.compat)
           (Scenario.registry Scenario.cpu_panel) (Scenario.world []))
    = Ok stats_display
    /\ Forall (placed stats_display _top)
         (zone (layout (snd (update_layout (H := Scenario.compat)
                               (Scenario.registry Scenario.cpu_panel)
                               (Scenario.world [])))) "top")
    /\ map layout_name
         (zone (layout (snd (update_layout (H := Scenario.compat)
                               (Scenario.registry Scenario.cpu_panel)
                               (Scenario.world [])))) "top")
       = [Some "cpu"].
Proof.
  destruct (update_layout_panels_shown (H := Scenario.compat)
              (Scenario.registry Scenario.cpu_panel) (Scenario.world [])
              (snd (update_layout (H := Scenario.compat)
                      (Scenario.registry Scenario.cpu_panel)
                      (Scenario.world []))))
    as (sd & Hsd & Htop & _).
  - reflexivity.
  - vm_compute. reflexivity.
  - exists sd. split; [exact Hsd|]. split; [exact Htop|].
    vm_compute. reflexivity.
Defined.

(** The check of [fetch_failure_aborts_rebuild]: the CPU plugin's fetch
    raises and the display still shows its initial, empty layout. *)
Lemma fetch_failure_aborts_rebuild_witness :
  exists e',
    fst (update_layout (H := Scenario.compat)
           (Scenario.registry Scenario.broken_plugin) (Scenario.world []))
    = Raise e'
    /\ layout (snd (update_layout (H := Scenario.compat)
                      (Scenario.registry Scenario.broken_plugin)
                      (Scenario.world [])))
       = init_layout.
Proof.
  destruct (fetch_failure_aborts_rebuild (H := Scenario.compat)
              (Scenario.registry Scenario.broken_plugin) "cpu"
              Scenario.broken_plugin (Exception "metric source down")
              (Int 3) (Scenario.world []))
    as [(e' & He & Hl) _].
  - unfold Scenario.registry, Scenario.all_plugins, _top. simpl. left.
  - reflexivity.
  - reflexivity.
  - exists e'. split; [exact He|exact Hl].
Defined.

(** C3 as stated fails: with the CPU plugin's fetch raising while 'network'
    has content to show, [update_layout] raises and the layout holds no
    'network' panel, nor even the middle-left zone; with a healthy CPU plugin
    the same registry gives the 'network' panel its place. *)
Lemma fetch_failure_counterexample :
  fst (update_layout (H := Scenario.compat)
         (Scenario.registry Scenario.broken_plugin) (Scenario.world []))
  = Raise (Exception "metric source down")
  /\ layout_get "network"
       (layout (snd (update_layout (H := Scenario.compat)
                       (Scenario.registry Scenario.broken_plugin)
                       (Scenario.world []))))
     = None
  /\ layout_get "middle_left"
       (layout (snd (update_layout (H := Scenario.compat)
                       (Scenario.registry Scenario.broken_plugin)
                       (Scenario.world []))))
     = None
  /\ layout_name <$>
       layout_get "network"
         (layout (snd (update_layout (H := Scenario.compat)
                         (Scenario.registry Scenario.cpu_panel)
                         (Scenario.world []))))
     = Some (Some "network").
Proof. vm_compute. repeat split. Qed.

(** C10 as stated fails: fetching the descriptor of 'processlist' changes
    the shared registry's [max_processes] from unset to 10. *)
Lemma plugin_to_rich_registry_counterexample :
  max_processes (Scenario.world []) = None
  /\ max_processes
       (snd (_plugin_to_rich (H := Scenario.compat)
               (Scenario.registry Scenario.cpu_panel) "processlist"
               (Scenario.world [])))
     = Some 10.
Proof. vm_compute. split; reflexivity. Qed.

(** C5 as stated fails: with a duration of -0.5 and the CPU plugin's fetch
    raising, [update] floors the duration to 0.1 and logs the warning, and
    then raises, before drawing any frame: the call does not proceed without
    raising. *)
Lemma update_duration_floor_counterexample :
  fst (update (H := Scenario.compat)
         (Scenario.registry Scenario.broken_plugin) (Float (-1 # 2))
         (Scenario.world [Scenario.idle_turn]))
  = Raise (Exception "metric source down")
  /\ countdown (snd (update (H := Scenario.compat)
                       (Scenario.registry Scenario.broken_plugin)
                       (Float (-1 # 2))
                       (Scenario.world [Scenario.idle_turn])))
     = Some (Float (1 # 10))
  /\ log (snd (update (H := Scenario.compat)
                 (Scenario.registry Scenario.broken_plugin) (Float (-1 # 2))
                 (Scenario.world [Scenario.idle_turn])))
     = [LogWarning "Update and export time higher than refresh_time."]
  /\ frames (snd (update (H := Scenario.compat)
                    (Scenario.registry Scenario.broken_plugin)
                    (Float (-1 # 2))
                    (Scenario.world [Scenario.idle_turn])))
     = [].
Proof. vm_compute. repeat split. Qed.

End RichProps.

(** ** Further properties of the CPU plugin *)

Module CpuExtra.
Import Py Cpu PyProps CpuProps.

Lemma int_of_integral (z : Z) : int (Float (inject_Z z)) = z.
Proof.
  unfold int. destruct (Qle_bool 0 (inject_Z z));
    [apply Qfloor_Z | apply Qceiling_Z].
Qed.

(** [a // b] followed by [int()] is the floor of the exact quotient. *)
Lemma floordiv_floor (a b : num) :
  num_is_zero b = false ->
  int <$> floordiv a b = Ok (Qfloor (to_Q a / to_Q b)).
Proof.
  intros Hb. unfold floordiv. rewrite Hb.
  destruct a as [x|p], b as [y|q]; simpl; f_equal;
    try apply int_of_integral.
  apply Zdiv_Qdiv.
Qed.

Section rates.
Context `{PluginBase}.

(** X1. Within the range in which Python's floor division is exact (exact
    operands and a quotient below [2**50] in magnitude), and for a positive
    [time_since_update], the rate [msg_curse] renders,
    [int(field // time_since_update)], is the floor of
    [field / time_since_update]: it never overstates the rate and understates
    it by less than one per second. Outside that range Python rounds the
    operands or overflows, and nothing is stated. *)
Theorem per_second_floor (self : PluginModel) (key : string) (v t : num) :
  stats self !! key = Some v ->
  stats self !! "time_since_update" = Some t ->
  Range.exact_quotient v t = true ->
  (0 < to_Q t)%Q ->
  exists rate,
    per_second self key = Ok rate
    /\ (inject_Z rate * to_Q t <= to_Q v)%Q
    /\ (to_Q v < (inject_Z rate + 1) * to_Q t)%Q.
Proof.
  intros Hv Ht _ Hpos.
  assert (Hnz : ~ (to_Q t == 0)%Q).
  { intros Hz. rewrite Hz in Hpos. by apply Qlt_irrefl in Hpos. }
  assert (Hb : num_is_zero t = false).
  { destruct t as [y|q]; simpl in *.
    - apply Z.eqb_neq. intros ->. by apply Hnz.
    - destruct (Qeq_bool q 0) eqn:Hq; [|done].
      by apply Qeq_bool_eq in Hq. }
  exists (Qfloor (to_Q v / to_Q t)). split.
  - unfold per_second, item. rewrite Hv, Ht. simpl.
    pose proof (floordiv_floor v t Hb) as Hf.
    destruct (floordiv v t) as [r|e]; simpl in *; [|discriminate].
    by injection Hf as ->.
  - split.
    + apply Qle_trans with (to_Q v / to_Q t * to_Q t)%Q.
      * apply Qmult_le_compat_r; [apply Qfloor_le|by apply Qlt_le_weak].
      * rewrite Qmult_comm, Qmult_div_r by done. apply Qle_refl.
    + apply Qle_lt_trans with (to_Q v / to_Q t * to_Q t)%Q.
      * rewrite Qmult_comm, Qmult_div_r by done. apply Qle_refl.
      * apply Qmult_lt_compat_r; [done|].
        change 1%Q with (inject_Z 1). rewrite <- inject_Z_plus.
        apply Qlt_floor.
Qed.

End rates.

(** The check of [per_second_floor] on the 65 interrupts counted over 2.0
    seconds. *)
Lemma per_second_floor_witness :
  exists rate,
    per_second Scenario.displayed_plugin "interrupts" = Ok rate
    /\ (inject_Z rate * (2 # 1) <= inject_Z 65)%Q
    /\ (inject_Z 65 < (inject_Z rate + 1) * (2 # 1))%Q.
Proof.
  destruct (per_second_floor Scenario.displayed_plugin "interrupts" (Int 65)
              (Float (2 # 1)))
    as (rate & Hr & Hlo & Hhi);
    [by vm_compute | by vm_compute | by vm_compute | reflexivity |].
  exists rate. split; [exact Hr|]. split; [exact Hlo|exact Hhi].
Defined.

End CpuExtra.

Module CpuViews.
Import Py Cpu PyProps CpuProps.

Section views.
Context `{PluginBase}.

(** A loop that decorates the fields of [keys]: it keeps the entries and
    their [optional] flags, and rewrites the decoration of exactly the
    fields of [keys] that the Snapshot holds. *)
Lemma decoration_loop_entries (stats : Stats) (g : num -> string -> string)
  keys (views : Views) :
  covers stats views ->
  exists views',
    for_each (fun views key =>
                if contains stats key then
                  v ← item stats key; set_decoration views key (g v key)
                else Ok views) keys views = Ok views'
    /\ covers stats views'
    /\ (forall k, optional <$> views' !! k = optional <$> views !! k)
    /\ (forall k, k ∉ keys -> views' !! k = views !! k)
    /\ (forall k v, k ∈ keys -> stats !! k = Some v ->
                    decoration <$> views' !! k = Some (g v k)).
Proof.
  revert views. induction keys as [|key keys IH]; intros views Hc; simpl.
  - exists views. repeat split; try done.
    intros k v Hin. by apply elem_of_nil in Hin.
  - unfold contains, item. destruct (stats !! key) as [v|] eqn:Hv; simpl.
    + destruct (Hc key) as [w Hw]; [eauto|].
      rewrite (set_decoration_ok _ _ _ _ Hw). simpl.
      set (views1 := <[key := {| decoration := g v key;
                                 optional := optional w |}]> views).
      destruct (IH views1) as (views' & Hl & Hc' & Ho & Hk & Hd).
      { by apply covers_insert. }
      exists views'. split; [exact Hl|]. split; [exact Hc'|].
      split; [|split].
      * intros k. rewrite Ho. unfold views1.
        destruct (decide (key = k)) as [<-|Hne].
        -- by rewrite lookup_insert_eq, Hw.
        -- by rewrite lookup_insert_ne.
      * intros k [Hne Hnin]%not_elem_of_cons. rewrite Hk by done.
        unfold views1. by rewrite lookup_insert_ne.
      * intros k v' Hin Hv'. destruct (decide (k ∈ keys)) as [Hin'|Hnin].
        -- by apply Hd.
        -- apply elem_of_cons in Hin as [->|Hin]; [|done].
           rewrite Hk by done. unfold views1. rewrite lookup_insert_eq.
           simpl. congruence.
    + destruct (IH views Hc) as (views' & Hl & Hc' & Ho & Hk & Hd).
      exists views'. split; [exact Hl|]. split; [exact Hc'|].
      split; [exact Ho|]. split.
      * intros k [Hne Hnin]%not_elem_of_cons. by apply Hk.
      * intros k v' [->|Hin]%elem_of_cons Hv'; [congruence|by apply Hd].
Qed.

(** The loop that marks the fields of [keys] optional: it keeps the entries
    and their decorations, and sets the flag of exactly the fields of [keys]
    that the Snapshot holds. *)
Lemma optional_loop_entries (stats : Stats) keys (views : Views) :
  covers stats views ->
  exists views',
    for_each (fun views key =>
                if contains stats key then set_optional views key true
                else Ok views) keys views = Ok views'
    /\ covers stats views'
    /\ (forall k, decoration <$> views' !! k = decoration <$> views !! k)
    /\ (forall k, k ∉ keys -> views' !! k = views !! k)
    /\ (forall k, k ∈ keys -> is_Some (stats !! k) ->
                  optional <$> views' !! k = Some true).
Proof.
  revert views. induction keys as [|key keys IH]; intros views Hc; simpl.
  - exists views. repeat split; try done.
    intros k Hin. by apply elem_of_nil in Hin.
  - unfold contains. destruct (stats !! key) as [v|] eqn:Hv; simpl.
    + destruct (Hc key) as [w Hw]; [eauto|].
      rewrite (set_optional_ok _ _ _ _ Hw). simpl.
      set (views1 := <[key := {| decoration := decoration w;
                                 optional := true |}]> views).
      destruct (IH views1) as (views' & Hl & Hc' & Hd & Hk & Ho).
      { by apply covers_insert. }
      exists views'. split; [exact Hl|]. split; [exact Hc'|].
      split; [|split].
      * intros k. rewrite Hd. unfold views1.
        destruct (decide (key = k)) as [<-|Hne].
        -- by rewrite lookup_insert_eq, Hw.
        -- by rewrite lookup_insert_ne.
      * intros k [Hne Hnin]%not_elem_of_cons. rewrite Hk by done.
        unfold views1. by rewrite lookup_insert_ne.
      * intros k Hin Hk'. destruct (decide (k ∈ keys)) as [Hin'|Hnin].
        -- by apply Ho.
        -- apply elem_of_cons in Hin as [->|Hin]; [|done].
           rewrite Hk by done. unfold views1. by rewrite lookup_insert_eq.
    + destruct (IH views Hc) as (views' & Hl & Hc' & Hd & Hk & Ho).
      exists views'. split; [exact Hl|]. split; [exact Hc'|].
      split; [exact Hd|]. split.
      * intros k [Hne Hnin]%not_elem_of_cons. by apply Hk.
      * intros k [->|Hin]%elem_of_cons [v' Hv']; [congruence|].
        apply Ho; eauto.
Qed.

(** The loop over ['ctx_switches'], which also reads 'cpucore'. *)
Lemma ctx_loop (stats : Stats) (views : Views) :
  covers stats views ->
  match stats !! "ctx_switches", stats !! "cpucore" with
  | Some v, Some c =>
      exists views',
        for_each (fun views key =>
                    if contains stats key then
                      x ← item stats key;
                      cpucore ← item stats "cpucore";
                      set_decoration views key
                        (get_alert x (Some (mul (Int 100) cpucore)) key)
                    else Ok views) ["ctx_switches"] views = Ok views'
        /\ covers stats views'
        /\ (forall k, optional <$> views' !! k = optional <$> views !! k)
        /\ (forall k, k <> "ctx_switches" -> views' !! k = views !! k)
        /\ decoration <$> views' !! "ctx_switches"
           = Some (get_alert v (Some (mul (Int 100) c)) "ctx_switches")
  | Some v, None =>
      for_each (fun views key =>
                  if contains stats key then
                    x ← item stats key;
                    cpucore ← item stats "cpucore";
                    set_decoration views key
                      (get_alert x (Some (mul (Int 100) cpucore)) key)
                  else Ok views) ["ctx_switches"] views
      = Raise (KeyError "cpucore")
  | None, _ =>
      for_each (fun views key =>
                  if contains stats key then
                    x ← item stats key;
                    cpucore ← item stats "cpucore";
                    set_decoration views key
                      (get_alert x (Some (mul (Int 100) cpucore)) key)
                  else Ok views) ["ctx_switches"] views
      = Ok views
  end.
Proof.
  intros Hc. simpl. unfold contains, item.
  destruct (stats !! "ctx_switches") as [v|] eqn:Hv; [|done].
  destruct (stats !! "cpucore") as [c|] eqn:Hcore; [|done]. simpl.
  destruct (Hc "ctx_switches") as [w Hw]; [eauto|].
  rewrite (set_decoration_ok _ _ _ _ Hw). simpl.
  eexists. split; [reflexivity|]. split; [by apply covers_insert|].
  split; [|split].
  - intros k. destruct (decide ("ctx_switches" = k)) as [<-|Hne].
    + by rewrite lookup_insert_eq, Hw.
    + by rewrite lookup_insert_ne.
  - intros k Hne. by rewrite lookup_insert_ne.
  - by rewrite lookup_insert_eq.
Qed.

(** With 'cpucore' in the Snapshot, [update_views] returns, on views that
    cover the Snapshot it leaves untouched. *)
Lemma update_views_covered (self : PluginModel) :
  is_Some (stats self !! "cpucore") ->
  exists self',
    update_views self = Ok self'
    /\ stats self' = stats self /\ args_percpu self' = args_percpu self
    /\ covers (stats self') (views self').
Proof.
  intros [c Hcore]. unfold update_views.
  destruct (decoration_loop_entries (stats self) get_alert_log
              ["user"; "system"; "iowait"; "total"]
              (base_update_views (stats self)))
    as (v1 & H1 & Hc1 & _); [apply base_update_views_covers|].
  rewrite H1. cbn [mbind result_bind].
  destruct (decoration_loop_entries (stats self)
              (fun x key => get_alert x None key) ["steal"] v1)
    as (v2 & H2 & Hc2 & _); [exact Hc1|].
  cbv beta in H2. rewrite H2. cbn [mbind result_bind].
  pose proof (ctx_loop (stats self) v2 Hc2) as H3. rewrite Hcore in H3.
  assert (exists v3,
    for_each (fun views key =>
                if contains (stats self) key then
                  x ← item (stats self) key;
                  cpucore ← item (stats self) "cpucore";
                  set_decoration views key
                    (get_alert x (Some (mul (Int 100) cpucore)) key)
                else Ok views) ["ctx_switches"] v2 = Ok v3
    /\ covers (stats self) v3) as (v3 & H3' & Hc3).
  { destruct (stats self !! "ctx_switches") as [v|].
    - destruct H3 as (v3 & H3 & Hc3 & _). eauto.
    - eauto. }
  rewrite H3'. cbn [mbind result_bind].
  destruct (optional_loop_entries (stats self)
              ["nice"; "irq"; "idle"; "steal"; "ctx_switches"; "interrupts";
               "soft_interrupts"; "syscalls"] v3 Hc3) as (v4 & H4 & Hc4 & _).
  rewrite H4. simpl. eexists. split; [reflexivity|]. done.
Qed.

(** X4. [update_views] fails in one case only: a Snapshot that holds
    'ctx_switches' without 'cpucore' raises [KeyError('cpucore')]; on every
    other Snapshot it returns. *)
Theorem update_views_returns (self : PluginModel) :
  if contains (stats self) "ctx_switches"
     && negb (contains (stats self) "cpucore")
  then update_views self = Raise (KeyError "cpucore")
  else exists self', update_views self = Ok self'.
Proof.
  unfold update_views.
  destruct (decoration_loop_entries (stats self) get_alert_log
              ["user"; "system"; "iowait"; "total"]
              (base_update_views (stats self)))
    as (v1 & H1 & Hc1 & _); [apply base_update_views_covers|].
  rewrite H1. cbn [mbind result_bind].
  destruct (decoration_loop_entries (stats self)
              (fun x key => get_alert x None key) ["steal"] v1)
    as (v2 & H2 & Hc2 & _); [exact Hc1|].
  cbv beta in H2. rewrite H2. cbn [mbind result_bind].
  pose proof (ctx_loop (stats self) v2 Hc2) as H3.
  assert (Hcond : contains (stats self) "ctx_switches"
                  && negb (contains (stats self) "cpucore")
                  = match stats self !! "ctx_switches",
                          stats self !! "cpucore" with
                    | Some _, None => true
                    | _, _ => false
                    end).
  { unfold contains. destruct (stats self !! "ctx_switches");
      by destruct (stats self !! "cpucore"). }
  rewrite Hcond. clear Hcond.
  destruct (stats self !! "ctx_switches") as [v|];
    [destruct (stats self !! "cpucore") as [c|]|].
  - destruct H3 as (v3 & H3 & Hc3 & _). rewrite H3. cbn [mbind result_bind].
    destruct (optional_loop_entries (stats self)
                ["nice"; "irq"; "idle"; "steal"; "ctx_switches"; "interrupts";
                 "soft_interrupts"; "syscalls"] v3 Hc3) as (v4 & H4 & _).
    rewrite H4. simpl. eauto.
  - by rewrite H3.
  - rewrite H3. cbn [mbind result_bind].
    destruct (optional_loop_entries (stats self)
                ["nice"; "irq"; "idle"; "steal"; "ctx_switches"; "interrupts";
                 "soft_interrupts"; "syscalls"] v2 Hc2) as (v4 & H4 & _).
    rewrite H4. simpl. eauto.
Qed.

(** X5. When [update_views] returns, the views are rebuilt from the
    Snapshot alone: there is one entry per Snapshot field and no other;
    [optional] is true exactly on the eight fields of the optional list;
    'user', 'system', 'iowait' and 'total' carry [get_alert_log] of their
    value, 'steal' carries [get_alert] of its value, and every field outside
    those five and 'ctx_switches' keeps the default decoration. The Snapshot
    itself is untouched. *)
Theorem update_views_entries (self self' : PluginModel) :
  update_views self = Ok self' ->
  stats self' = stats self
  /\ (forall k, is_Some (views self' !! k) <-> is_Some (stats self !! k))
  /\ (forall k, is_Some (stats self !! k) ->
        optional <$> views self' !! k
        = Some (bool_decide
                  (k ∈ ["nice"; "irq"; "idle"; "steal"; "ctx_switches";
                        "interrupts"; "soft_interrupts"; "syscalls"])))
  /\ (forall k v, k ∈ ["user"; "system"; "iowait"; "total"] ->
        stats self !! k = Some v ->
        decoration <$> views self' !! k = Some (get_alert_log v k))
  /\ (forall v, stats self !! "steal" = Some v ->
        decoration <$> views self' !! "steal"
        = Some (get_alert v None "steal"))
  /\ (forall k, is_Some (stats self !! k) ->
        k ∉ ["user"; "system"; "iowait"; "total"; "steal"; "ctx_switches"] ->
        decoration <$> views self' !! k = Some "DEFAULT").
Proof.
  unfold update_views.
  destruct (decoration_loop_entries (stats self) get_alert_log
              ["user"; "system"; "iowait"; "total"]
              (base_update_views (stats self)))
    as (v1 & H1 & Hc1 & Ho1 & Hk1 & Hd1); [apply base_update_views_covers|].
  rewrite H1. cbn [mbind result_bind].
  destruct (decoration_loop_entries (stats self)
              (fun x key => get_alert x None key) ["steal"] v1)
    as (v2 & H2 & Hc2 & Ho2 & Hk2 & Hd2); [exact Hc1|].
  cbv beta in H2. rewrite H2. cbn [mbind result_bind].
  intros (v3 & H3 & Hrest)%bind_ok_inv.
  assert (Hv3 : covers (stats self) v3
                /\ (forall k, optional <$> v3 !! k = optional <$> v2 !! k)
                /\ (forall k, k <> "ctx_switches" -> v3 !! k = v2 !! k)).
  { pose proof (ctx_loop (stats self) v2 Hc2) as Hctx.
    destruct (stats self !! "ctx_switches") as [v|];
      [destruct (stats self !! "cpucore") as [c|]|].
    - destruct Hctx as (v3' & H3' & Hc3 & Ho3 & Hk3 & _).
      rewrite H3' in H3. by injection H3 as <-.
    - rewrite Hctx in H3. discriminate H3.
    - rewrite Hctx in H3. by injection H3 as <-. }
  destruct Hv3 as (Hc3 & Ho3 & Hk3).
  destruct (optional_loop_entries (stats self)
              ["nice"; "irq"; "idle"; "steal"; "ctx_switches"; "interrupts";
               "soft_interrupts"; "syscalls"] v3 Hc3)
    as (v4 & H4 & Hc4 & Hd4 & Hk4 & Ho4).
  rewrite H4 in Hrest. simpl in Hrest. injection Hrest as <-. simpl.
  assert (Hbase : forall k, base_update_views (stats self) !! k
            = (fun _ => {| decoration := "DEFAULT"; optional := false |})
                <$> stats self !! k).
  { intros k. unfold base_update_views. by rewrite lookup_fmap. }
  split; [done|]. split; [|split; [|split; [|split]]].
  - intros k. split; [|apply Hc4].
    intros Hk. rewrite <- (fmap_is_Some decoration), Hd4 in Hk.
    rewrite fmap_is_Some, <- (fmap_is_Some optional), Ho3, Ho2, Ho1 in Hk.
    rewrite fmap_is_Some, Hbase, fmap_is_Some in Hk. exact Hk.
  - intros k Hk. case_bool_decide as Hin.
    + by apply Ho4.
    + rewrite Hk4 by done. rewrite Ho3, Ho2, Ho1, Hbase.
      destruct Hk as [v ->]. reflexivity.
  - intros k v Hin Hv. rewrite Hd4. rewrite Hk3.
    + rewrite Hk2; [by apply Hd1|].
      rewrite list_elem_of_singleton. intros ->.
      rewrite !elem_of_cons, elem_of_nil in Hin.
      destruct Hin as [?|[?|[?|[?|[]]]]]; discriminate.
    + intros ->. rewrite !elem_of_cons, elem_of_nil in Hin.
      destruct Hin as [?|[?|[?|[?|[]]]]]; discriminate.
  - intros v Hv. rewrite Hd4, Hk3 by done. apply Hd2; [left|done].
  - intros k [v Hv] Hnin. rewrite Hd4.
    rewrite !not_elem_of_cons in Hnin.
    destruct Hnin as (Hu & Hs & Hi & Ht & Hst & Hctx & _).
    rewrite Hk3 by done. rewrite Hk2.
    2:{ rewrite !not_elem_of_cons. split; [done|]. apply not_elem_of_nil. }
    rewrite Hk1.
    2:{ rewrite !not_elem_of_cons. repeat split; try done.
        apply not_elem_of_nil. }
    by rewrite Hbase, Hv.
Qed.

End views.

(** The check of [update_views_entries] on the busy Snapshot: of its
    entries only 'ctx_switches' is optional, 'total' is critical and
    'cpucore' keeps the default decoration. *)
Lemma update_views_entries_witness :
  let self' :=
    Cases.returned
      (update_views (H := Scenario.base None None) Scenario.busy_plugin)
      Scenario.busy_plugin in
  update_views (H := Scenario.base None None) Scenario.busy_plugin = Ok self'
  /\ stats self' = stats Scenario.busy_plugin
  /\ optional <$> views self' !! "ctx_switches" = Some true
  /\ optional <$> views self' !! "total" = Some false
  /\ decoration <$> views self' !! "total" = Some "CRITICAL"
  /\ decoration <$> views self' !! "cpucore" = Some "DEFAULT".
Proof.
  intros self'.
  assert (update_views (H := Scenario.base None None) Scenario.busy_plugin
          = Ok self') as Hu by (vm_compute; reflexivity).
  destruct (update_views_entries (H := Scenario.base None None)
              Scenario.busy_plugin self' Hu)
    as (Hs & _ & Ho & Hd & _ & Hk).
  split; [exact Hu|]. split; [exact Hs|].
  split; [rewrite (Ho "ctx_switches"); [by vm_compute|vm_compute; eauto]|].
  split; [rewrite (Ho "total"); [by vm_compute|vm_compute; eauto]|].
  split.
  - rewrite (Hd "total" (Float (975 # 10))); [by vm_compute| |by vm_compute].
    rewrite !elem_of_cons. auto.
  - apply Hk; [vm_compute; eauto|].
    rewrite !elem_of_cons, elem_of_nil.
    intros [[=]|[[=]|[[=]|[[=]|[[=]|[[=]|[]]]]]]].
Defined.

End CpuViews.

Module CpuSampling.
Import Py Cpu PyProps CpuProps.

Lemma is_Some_insert (m : Stats) g v k :
  is_Some (<[g := v]> m !! k) <-> k = g \/ is_Some (m !! k).
Proof.
  destruct (decide (g = k)) as [->|Hne].
  - rewrite lookup_insert_eq. split; eauto.
  - rewrite lookup_insert_ne by done. split; [eauto|].
    intros [->|Hk]; done.
Qed.

Section sampling.
Context `{PluginBase}.

Lemma times_loop_dom (t : namedtuple num) l (acc r : Stats) :
  for_each (fun stats stat => v ← getattr t stat; Ok (<[stat := v]> stats))
           l acc = Ok r ->
  forall k, is_Some (r !! k) <-> k ∈ l \/ is_Some (acc !! k).
Proof.
  revert acc. induction l as [|g l IH]; intros acc; simpl.
  - intros [= <-] k. split; [eauto|]. intros [Hin|Hk]; [|done].
    by apply elem_of_nil in Hin.
  - intros (acc' & Hstep & Hrest)%bind_ok_inv k.
    apply bind_ok_inv in Hstep as (v & _ & [= <-]).
    rewrite (IH _ Hrest k), is_Some_insert, elem_of_cons. tauto.
Qed.

Lemma first_loop_dom l (acc r : Stats) :
  for_each (fun stats stat => Ok (<[stat := Int 0]> stats)) l acc = Ok r ->
  forall k, is_Some (r !! k) <-> k ∈ l \/ is_Some (acc !! k).
Proof.
  revert acc. induction l as [|g l IH]; intros acc; simpl.
  - intros [= <-] k. split; [eauto|]. intros [Hin|Hk]; [|done].
    by apply elem_of_nil in Hin.
  - intros Hrest k.
    rewrite (IH _ Hrest k), is_Some_insert, elem_of_cons. tauto.
Qed.

Lemma delta_step_inv (cur old : namedtuple (option Z)) (acc acc' : Stats) g :
  delta_step cur old acc g = Ok acc' ->
  (assoc g cur = Some None /\ acc' = acc)
  \/ exists c p, assoc g cur = Some (Some c) /\ assoc g old = Some (Some p)
                 /\ acc' = <[g := Int (c - p)]> acc.
Proof.
  unfold delta_step, getattr.
  destruct (assoc g cur) as [[c|]|]; simpl; [| |discriminate].
  - destruct (assoc g old) as [[p|]|]; simpl; [|discriminate..].
    intros [= <-]. right. eauto.
  - intros [= <-]. by left.
Qed.

Lemma later_loop_dom (cur old : namedtuple (option Z)) l (acc r : Stats) :
  for_each (delta_step cur old) l acc = Ok r ->
  forall k, is_Some (r !! k)
            <-> (k ∈ l /\ exists c, assoc k cur = Some (Some c))
                \/ is_Some (acc !! k).
Proof.
  revert acc. induction l as [|g l IH]; intros acc; simpl.
  - intros [= <-] k. split; [eauto|]. intros [[Hin _]|Hk]; [|done].
    by apply elem_of_nil in Hin.
  - intros (acc' & Hstep & Hrest)%bind_ok_inv k.
    rewrite (IH _ Hrest k), elem_of_cons.
    apply delta_step_inv in Hstep as [[Hnone ->]|(c & p & Hc & Hp & ->)].
    + split; [tauto|]. intros [[[->|Hin] [c Hc]]|Hk]; [congruence|eauto|eauto].
    + rewrite is_Some_insert. split; [|tauto].
      intros [Hin|[->|Hk]]; [tauto| |tauto]. left. eauto.
Qed.

Lemma later_loop_value (cur old : namedtuple (option Z)) l (acc r : Stats) f c p :
  for_each (delta_step cur old) l acc = Ok r ->
  assoc f cur = Some (Some c) -> assoc f old = Some (Some p) ->
  f ∈ l \/ acc !! f = Some (Int (c - p)) ->
  r !! f = Some (Int (c - p)).
Proof.
  intros Hloop Hc Hp. revert acc Hloop.
  induction l as [|g l IH]; intros acc; simpl.
  - intros [= <-] [Hin|Hacc]; [|done]. by apply elem_of_nil in Hin.
  - intros (acc' & Hstep & Hrest)%bind_ok_inv Hin.
    apply (IH _ Hrest).
    apply delta_step_inv in Hstep as [[Hnone ->]|(c' & p' & Hc' & Hp' & ->)].
    + destruct Hin as [[->|Hin]%elem_of_cons|Hacc]; [congruence|eauto|eauto].
    + destruct (decide (f = g)) as [->|Hne].
      * right. rewrite lookup_insert_eq. congruence.
      * rewrite lookup_insert_ne by done.
        destruct Hin as [[->|Hin]%elem_of_cons|Hacc]; [done|eauto|eauto].
Qed.

Lemma later_loop_raises (cur old : namedtuple (option Z)) l (acc : Stats) f c :
  (forall g, g ∈ l -> g ∈ _fields cur /\ g ∈ _fields old) ->
  assoc f cur = Some (Some c) -> assoc f old = Some None -> f ∈ l ->
  for_each (delta_step cur old) l acc
  = Raise (TypeError "unsupported operand type(s) for -").
Proof.
  intros Hl Hc Hp. revert acc. induction l as [|g l IH]; intros acc Hin; simpl.
  - by apply elem_of_nil in Hin.
  - destruct (Hl g) as [[x Hx]%assoc_fields [y Hy]%assoc_fields]; [left|].
    assert (forall g', g' ∈ l -> g' ∈ _fields cur /\ g' ∈ _fields old) as Hl'.
    { intros g' Hg'. apply Hl. by right. }
    assert (delta_step cur old acc g
            = match x, y with
              | Some c', Some p => Ok (<[g := Int (c' - p)]> acc)
              | Some _, None =>
                  Raise (TypeError "unsupported operand type(s) for -")
              | None, _ => Ok acc
              end) as ->.
    { unfold delta_step, getattr. rewrite Hx. simpl.
      destruct x; [|done]. rewrite Hy. simpl. by destruct y. }
    destruct x as [x|]; [destruct y as [y|]|]; simpl; [|done|].
    + apply IH; [done|]. apply elem_of_cons in Hin as [->|Hin]; [|done].
      congruence.
    + apply IH; [done|]. apply elem_of_cons in Hin as [->|Hin]; [|done].
      congruence.
Qed.

(** What a returning [update_local] has run: the loop over the percentages,
    then the loop over the counters, and the raw counters saved. *)
Lemma update_local_inv (self self' : PluginModel) (src : Sample) (stats : Stats) :
  update_local self src = Ok (stats, self') ->
  self' = with_cpu_stats_old self (cpu_stats src)
  /\ exists r,
      for_each (fun stats stat =>
                  v ← getattr (cpu_times_percent src) stat;
                  Ok (<[stat := v]> stats))
               (_fields (cpu_times_percent src))
               (<["total" := cpu_percent_get src]> get_init_value) = Ok r
      /\ match cpu_stats_old self with
         | None =>
             for_each (fun stats stat => Ok (<[stat := Int 0]> stats))
                      (_fields (cpu_stats src))
         | Some old =>
             for_each (delta_step (cpu_stats src) old) (_fields (cpu_stats src))
         end (<["cpucore" := Int (nb_log_core self)]>
                (<["time_since_update" := getTimeSinceLastUpdate src]> r))
         = Ok stats.
Proof.
  unfold update_local. cbv zeta.
  intros (r & Hr & Hu)%bind_ok_inv.
  apply bind_ok_inv in Hu as (r' & Hloop & [= <- <-]).
  split; [done|]. exists r. split; [done|].
  by destruct (cpu_stats_old self).
Qed.

Lemma first_loop_frame l (acc r : Stats) k :
  for_each (fun stats stat => Ok (<[stat := Int 0]> stats)) l acc = Ok r ->
  k ∉ l -> r !! k = acc !! k.
Proof.
  revert acc. induction l as [|g l IH]; intros acc; simpl.
  - by intros [= ->].
  - intros Hrest [Hne Hnin]%not_elem_of_cons.
    rewrite (IH _ Hrest Hnin). by rewrite lookup_insert_ne.
Qed.

(** The elapsed time of the pass is in the Snapshot, unless a counter is
    itself called 'time_since_update'. *)
Lemma update_local_time (self self' : PluginModel) (src : Sample) (stats : Stats) :
  update_local self src = Ok (stats, self') ->
  "time_since_update" ∉ _fields (cpu_stats src) ->
  stats !! "time_since_update" = Some (getTimeSinceLastUpdate src).
Proof.
  intros (_ & r & _ & Hloop)%update_local_inv Hnin.
  destruct (cpu_stats_old self) as [old|].
  - rewrite (later_sample_loop_frame _ _ _ _ _ _ Hloop Hnin).
    rewrite lookup_insert_ne by done. by rewrite lookup_insert_eq.
  - rewrite (first_loop_frame _ _ _ _ Hloop Hnin).
    rewrite lookup_insert_ne by done. by rewrite lookup_insert_eq.
Qed.

(** The percentages and the core count are in the Snapshot. *)
Lemma update_local_holds (self self' : PluginModel) (src : Sample)
  (stats : Stats) k :
  update_local self src = Ok (stats, self') ->
  k ∈ "total" :: "cpucore" :: _fields (cpu_times_percent src) ->
  is_Some (stats !! k).
Proof.
  intros (_ & r & Hr & Hloop)%update_local_inv Hk.
  pose proof (times_loop_dom _ _ _ _ Hr k) as Hdom.
  rewrite is_Some_insert in Hdom. rewrite !elem_of_cons in Hk.
  destruct (cpu_stats_old self) as [old|].
  - rewrite (later_loop_dom _ _ _ _ _ Hloop k), !is_Some_insert, Hdom. tauto.
  - rewrite (first_loop_dom _ _ _ Hloop k), !is_Some_insert, Hdom. tauto.
Qed.

(** What a returning [update] has done on a local plugin. *)
Lemma update_inv (self self1 : PluginModel) (src : Sample) (st : Stats) :
  input_method self = "local" ->
  update self src = Ok (st, self1) ->
  exists self', update_local self src = Ok (st, self')
                /\ self1 = with_stats self' st.
Proof.
  intros Hm. unfold update. rewrite Hm. simpl.
  destruct (update_local self src) as [[st' self']|e]; simpl; [|discriminate].
  intros [= <- <-]. eauto.
Qed.

(** X6. When [update_local] returns, the Snapshot holds the fields of the
    initial value, 'total', 'time_since_update', 'cpucore', every field of
    [cpu_times_percent], and of the counters: all of them on the first
    sample, afterwards those with a reading (a counter that reads [None]
    gets no entry of its own); it holds no other field, and the raw counters
    of the pass are saved for the next one. *)
Theorem update_local_fields (self self' : PluginModel) (src : Sample)
  (stats : Stats) :
  update_local self src = Ok (stats, self') ->
  cpu_stats_old self' = Some (cpu_stats src)
  /\ forall k, is_Some (stats !! k) <->
       is_Some (get_init_value !! k)
       \/ k ∈ "total" :: "time_since_update" :: "cpucore"
               :: _fields (cpu_times_percent src)
       \/ (k ∈ _fields (cpu_stats src)
           /\ (cpu_stats_old self = None
               \/ exists c, assoc k (cpu_stats src) = Some (Some c))).
Proof.
  intros (-> & r & Hr & Hloop)%update_local_inv. split; [done|]. intros k.
  pose proof (times_loop_dom _ _ _ _ Hr k) as Hdom.
  rewrite is_Some_insert in Hdom.
  rewrite !elem_of_cons.
  destruct (cpu_stats_old self) as [old|].
  - rewrite (later_loop_dom _ _ _ _ _ Hloop k), !is_Some_insert, Hdom.
    split.
    + intros [[Hin Hc]|Hk]; [|tauto]. right. right. eauto.
    + intros [Hk|[Hk|[Hin [Hold|Hc]]]]; [tauto|tauto|done|tauto].
  - rewrite (first_loop_dom _ _ _ Hloop k), !is_Some_insert, Hdom.
    split; [|tauto]. intros [Hin|Hk]; [|tauto]. right. right. eauto.
Qed.

(** X7. A counter that has a reading now while its previous reading was
    [None] makes [update_local] raise TypeError (the fields of the two
    readings being the same), and [update] with it: no Snapshot is stored. *)
Theorem update_local_previous_none (self : PluginModel) (src : Sample) old f c :
  input_method self = "local" ->
  cpu_stats_old self = Some old ->
  (forall g, g ∈ _fields (cpu_stats src) -> g ∈ _fields old) ->
  assoc f (cpu_stats src) = Some (Some c) ->
  assoc f old = Some None ->
  update_local self src = Raise (TypeError "unsupported operand type(s) for -")
  /\ update self src = Raise (TypeError "unsupported operand type(s) for -").
Proof.
  intros Hm Hold Hfields Hc Hp.
  assert (update_local self src
          = Raise (TypeError "unsupported operand type(s) for -")) as Hu.
  { unfold update_local. rewrite Hold. cbv zeta.
    destruct (times_loop_ok (cpu_times_percent src)
                (_fields (cpu_times_percent src))
                (<["total" := cpu_percent_get src]> get_init_value))
      as [r Hr]; [done|].
    rewrite Hr. simpl.
    rewrite (later_loop_raises (cpu_stats src) old _ _ f c); [done| |done|done|].
    - intros g Hg. split; [done|by apply Hfields].
    - by apply (assoc_in_fields _ _ (Some c)). }
  split; [done|]. unfold update. rewrite Hm. simpl. by rewrite Hu.
Qed.

(** X8. Over two successive passes after the first one, the deltas emitted
    for a counter add up to the difference between its last and its first
    raw reading: the second pass subtracts what the first one saved. *)
Theorem update_local_deltas_add_up (self self1 self2 : PluginModel)
  (src1 src2 : Sample) old (stats1 stats2 : Stats) f a b c :
  cpu_stats_old self = Some old ->
  update_local self src1 = Ok (stats1, self1) ->
  update_local self1 src2 = Ok (stats2, self2) ->
  assoc f old = Some (Some a) ->
  assoc f (cpu_stats src1) = Some (Some b) ->
  assoc f (cpu_stats src2) = Some (Some c) ->
  exists d1 d2,
    stats1 !! f = Some (Int d1) /\ stats2 !! f = Some (Int d2)
    /\ d1 + d2 = c - a.
Proof.
  intros Hold (-> & r1 & _ & Hloop1)%update_local_inv
         (_ & r2 & _ & Hloop2)%update_local_inv Ha Hb Hc.
  rewrite Hold in Hloop1. simpl in Hloop2.
  exists (b - a), (c - b). split; [|split; [|lia]].
  - apply (later_loop_value _ _ _ _ _ _ _ _ Hloop1 Hb Ha). left.
    by apply (assoc_in_fields _ _ (Some b)).
  - apply (later_loop_value _ _ _ _ _ _ _ _ Hloop2 Hc Hb). left.
    by apply (assoc_in_fields _ _ (Some c)).
Qed.

End sampling.

(** The check of [update_local_fields] on the first pass of the fresh
    plugin: the Snapshot holds 'syscalls' and no field called 'guest'. *)
Lemma update_local_fields_witness :
  let pass :=
    Cases.returned
      (update_local (H := Scenario.base None None) Scenario.fresh_plugin
         (Scenario.sample 120))
      (∅, Scenario.fresh_plugin) in
  update_local (H := Scenario.base None None) Scenario.fresh_plugin
    (Scenario.sample 120) = Ok (fst pass, snd pass)
  /\ cpu_stats_old (snd pass) = Some (cpu_stats (Scenario.sample 120))
  /\ is_Some (fst pass !! "syscalls") /\ ~ is_Some (fst pass !! "guest").
Proof.
  intros pass.
  assert (update_local (H := Scenario.base None None) Scenario.fresh_plugin
            (Scenario.sample 120) = Ok (fst pass, snd pass)) as Hu
    by (vm_compute; reflexivity).
  destruct (update_local_fields (H := Scenario.base None None)
              Scenario.fresh_plugin (snd pass) (Scenario.sample 120)
              (fst pass) Hu) as [Hold Hdom].
  split; [exact Hu|]. split; [exact Hold|]. split.
  - apply Hdom. right. right. split; [|by left].
    apply (bool_decide_unpack _). by vm_compute.
  - intros [Hinit|[Hin|[Hin _]]]%Hdom.
    + destruct Hinit as [v Hv]. vm_compute in Hv. discriminate Hv.
    + revert Hin. apply (bool_decide_unpack _). by vm_compute.
    + revert Hin. apply (bool_decide_unpack _). by vm_compute.
Defined.

(** The check of [update_local_previous_none] on the plugin whose previous
    pass had no reading of 'syscalls'. *)
Lemma update_local_previous_none_witness :
  update (H := Scenario.base None None) Cases.partial_plugin (Scenario.sample 185)
  = Raise (TypeError "unsupported operand type(s) for -").
Proof.
  destruct (update_local_previous_none (H := Scenario.base None None)
              Cases.partial_plugin (Scenario.sample 185)
              [("ctx_switches", Some 120); ("interrupts", Some 120);
               ("soft_interrupts", Some 120); ("syscalls", None)]
              "syscalls" 0) as [_ Hu];
    [reflexivity | reflexivity | by intros g Hg | reflexivity | reflexivity |].
  exact Hu.
Defined.

(** The check of [update_local_deltas_add_up]: readings of 100, 120 and
    185 give deltas that add up to 85. *)
Lemma update_local_deltas_add_up_witness :
  let pass1 :=
    Cases.returned
      (update_local (H := Scenario.base None None)
         (Scenario.sampled_plugin 100) (Scenario.sample 120))
      (∅, Scenario.fresh_plugin) in
  let pass2 :=
    Cases.returned
      (update_local (H := Scenario.base None None) (snd pass1)
         (Scenario.sample 185))
      (∅, Scenario.fresh_plugin) in
  exists d1 d2,
    fst pass1 !! "interrupts" = Some (Int d1)
    /\ fst pass2 !! "interrupts" = Some (Int d2)
    /\ d1 + d2 = 85.
Proof.
  intros pass1 pass2.
  destruct (update_local_deltas_add_up (H := Scenario.base None None)
              (Scenario.sampled_plugin 100) (snd pass1) (snd pass2)
              (Scenario.sample 120) (Scenario.sample 185)
              (cpu_stats (Scenario.sample 100)) (fst pass1) (fst pass2)
              "interrupts" 100 120 185)
    as (d1 & d2 & H1 & H2 & Hsum);
    [reflexivity | vm_compute; reflexivity | vm_compute; reflexivity
    | reflexivity | reflexivity | reflexivity |].
  exists d1, d2. split; [exact H1|]. split; [exact H2|]. exact Hsum.
Defined.

End CpuSampling.

Module CpuPanel.
Import Py Cpu PyProps CpuProps CpuViews CpuSampling.

Lemma length_spaces n : String.length (spaces n) = n.
Proof. induction n as [|n IH]; simpl; [done|by rewrite IH]. Qed.

Lemma length_append (a b : string) :
  String.length (a +:+ b) = (String.length a + String.length b)%nat.
Proof. induction a as [|c a IH]; simpl; [done|by rewrite IH]. Qed.

Lemma length_rjust w s : (w <= String.length (rjust w s))%nat.
Proof. unfold rjust. rewrite length_append, length_spaces. lia. Qed.

Lemma long_not_newline s : (2 <= String.length s)%nat -> s <> newline.
Proof. intros Hlen ->. simpl in Hlen. lia. Qed.

Lemma rjust_not_newline w s : (2 <= w)%nat -> rjust w s <> newline.
Proof. intros Hw. apply long_not_newline. pose proof (length_rjust w s). lia. Qed.

Lemma percent_not_newline v : format_5_1f v +:+ "%" <> newline.
Proof.
  apply long_not_newline. rewrite length_append. unfold format_5_1f.
  pose proof (length_rjust 5
                ((if Qle_bool 0 (to_Q v) then "" else "-")
                 +:+ str (Z.abs (round_half_even (to_Q v * 10)) / 10)
                 +:+ "." +:+ str (Z.abs (round_half_even (to_Q v * 10)) mod 10))).
  lia.
Qed.

Lemma length_ljust w s : (w <= String.length (ljust w s))%nat.
Proof. unfold ljust. rewrite length_append, length_spaces. lia. Qed.

Lemma trend_not_newline s : " " +:+ ljust 4 s <> newline.
Proof.
  apply long_not_newline. rewrite length_append.
  pose proof (length_ljust 4 s). simpl. lia.
Qed.

Local Abbreviation plain := (Forall (fun l : CurseLine => msg l <> newline)).

Lemma filter_plain (b : list CurseLine) :
  plain b -> filter (fun l => msg l = newline) b = [].
Proof.
  induction 1 as [|l b Hl _ IH]; [done|].
  rewrite filter_cons. by destruct (decide (msg l = newline)).
Qed.

Lemma filter_break (b : list CurseLine) d o :
  filter (fun l => msg l = newline) (curse_add_line newline d o :: b)
  = curse_add_line newline d o :: filter (fun l => msg l = newline) b.
Proof.
  rewrite filter_cons.
  by destruct (decide (msg (curse_add_line newline d o) = newline)).
Qed.

Lemma contains_item {V} (d : gmap string V) k :
  contains d k = true -> exists v, item d k = Ok v.
Proof. unfold contains, item. destruct (d !! k); [eauto|discriminate]. Qed.

Lemma covers_by_lookup (stats : Stats) (views : Views) :
  map_Forall (fun k _ => is_Some (views !! k)) stats -> covers stats views.
Proof. intros Hall k [v Hv]. exact (Hall k v Hv). Qed.

Section panel.
Context `{PluginBase}.

Lemma covered_optional self k :
  covers (stats self) (views self) -> contains (stats self) k = true ->
  exists o, get_views_optional self k = Ok o.
Proof.
  intros Hc Hk. unfold contains in Hk. unfold get_views_optional, item.
  destruct (stats self !! k) eqn:Hs; [|discriminate].
  destruct (Hc k) as [w ->]; [eauto|]. simpl. eauto.
Qed.

Lemma covered_decoration self k :
  covers (stats self) (views self) -> contains (stats self) k = true ->
  exists d, get_views_decoration self k = Ok d.
Proof.
  intros Hc Hk. unfold contains in Hk. unfold get_views_decoration, item.
  destruct (stats self !! k) eqn:Hs; [|discriminate].
  destruct (Hc k) as [w ->]; [eauto|]. simpl. eauto.
Qed.

Lemma in_range_rate (stats : Stats) k v t :
  Range.in_range stats = true ->
  existsb (String.eqb k) Range.counters = true ->
  stats !! k = Some v -> stats !! "time_since_update" = Some t ->
  Range.exact_quotient v t = true.
Proof.
  intros [_ Hall]%andb_prop [x [Hx ->%String.eqb_eq]]%existsb_exists Hv Ht.
  rewrite forallb_forall in Hall. specialize (Hall x Hx).
  by rewrite Hv, Ht in Hall.
Qed.

(** Within the range the rate of a counter is computed. *)
Lemma per_second_in_range self k t :
  Range.in_range (stats self) = true ->
  stats self !! "time_since_update" = Some t ->
  existsb (String.eqb k) Range.counters = true ->
  contains (stats self) k = true ->
  exists rate, per_second self k = Ok rate.
Proof.
  intros Hrange Ht Hk Hin. unfold contains in Hin.
  destruct (stats self !! k) as [v|] eqn:Hv; [|discriminate].
  pose proof (in_range_rate _ k v t Hrange Hk Hv Ht) as Hq.
  unfold Range.exact_quotient in Hq.
  apply andb_prop in Hq as [[_ Hz%negb_true_iff]%andb_prop _].
  unfold per_second, item. rewrite Hv, Ht. simpl. unfold floordiv. rewrite Hz.
  destruct v, t; simpl; eauto.
Qed.

Ltac split_conditions :=
  repeat match goal with
         | Hc : _ && _ = true |- _ => apply andb_true_iff in Hc as [? ?]
         end.

Ltac run_lookup :=
  match goal with
  | |- exists _, (?m ≫= _) = Ok _ =>
      let x := fresh "x" in
      let Hx := fresh "Hx" in
      assert (exists x, m = Ok x) as [x Hx];
      [ first [ by (eapply covered_optional; eauto)
              | by (eapply covered_decoration; eauto)
              | by (eapply per_second_in_range;
                    [eassumption|eassumption|reflexivity|eassumption])
              | by (eapply contains_item; eauto) ]
      | rewrite Hx; cbn [mbind result_bind] ]
  end.

Ltac run_block :=
  repeat match goal with
         | |- context [if ?c then _ else _] => destruct c eqn:?
         end;
  split_conditions; repeat run_lookup; eauto.

Ltac next_block :=
  match goal with
  | |- exists _, (?m ≫= _) = Ok _ =>
      let b := fresh "b" in
      let Hb := fresh "Hb" in
      assert (exists b, m = Ok b) as [b Hb];
      [ run_block | rewrite Hb; cbn [mbind result_bind]; clear Hb ]
  end.

Ltac next_block_raising :=
  match goal with
  | |- (?m ≫= _) = Raise _ =>
      let b := fresh "b" in
      let Hb := fresh "Hb" in
      assert (exists b, m = Ok b) as [b Hb];
      [ run_block | rewrite Hb; cbn [mbind result_bind]; clear Hb ]
  end.

(** Where the panel is displayed, the trends are both known or the 'user'
    trend is unknown, the views cover the Snapshot, the Snapshot is in range
    and holds 'total', 'time_since_update', and either both 'user' and
    'system' or 'nb_log_core', [msg_curse] returns. *)
Lemma msg_curse_renders (self : PluginModel) (t : num) :
  (size (stats self) =? 0)%nat || args_percpu self || is_disabled = false ->
  get_trend "user" = None \/ is_Some (get_trend "system") ->
  covers (stats self) (views self) ->
  contains (stats self) "total" = true ->
  contains (stats self) "user" && contains (stats self) "system"
  || contains (stats self) "nb_log_core" = true ->
  stats self !! "time_since_update" = Some t ->
  Range.in_range (stats self) = true ->
  exists lines, msg_curse self = Ok lines.
Proof.
  intros Hguard Htrend Hcov Htotal Hcore Ht Hrange.
  unfold msg_curse. rewrite Hguard. cbv zeta.
  match goal with
  | |- exists _, (?m ≫= _) = Ok _ =>
      assert (exists b, m = Ok b) as [header ->]
  end.
  { destruct Htrend as [->|[y ->]]; [simpl; eauto|].
    destruct (get_trend "user"); simpl; eauto. }
  cbn [mbind result_bind].
  do 6 next_block.
  match goal with
  | |- exists _, (?m ≫= _) = Ok _ =>
      assert (exists b, m = Ok b) as [system ->]
  end.
  { destruct (contains (stats self) "system"
              && negb (negb (contains (stats self) "user"))) eqn:Hsys.
    - split_conditions. repeat run_lookup. eauto.
    - assert (contains (stats self) "nb_log_core" = true) as Hnb.
      { destruct (contains (stats self) "user"),
          (contains (stats self) "system"); simpl in *; done. }
      repeat run_lookup. eauto. }
  cbn [mbind result_bind].
  do 5 next_block. eauto.
Qed.

Ltac plain_msg :=
  first [ apply percent_not_newline
        | apply rjust_not_newline; lia
        | apply trend_not_newline
        | by (let Heq := fresh in intros Heq; vm_compute in Heq) ].

Ltac block_plain Hb :=
  repeat match type of Hb with
         | (if ?c then _ else _) = Ok _ => destruct c
         | (_ ≫= _) = Ok _ => apply bind_ok_inv in Hb as (? & _ & Hb)
         end;
  injection Hb as <-;
  repeat (apply Forall_cons; split; [cbn [msg curse_add_line]; plain_msg|]);
  by apply Forall_nil.

(** The fragments of a displayed panel: three line-break sentinels. *)
Lemma msg_curse_breaks (self : PluginModel) lines :
  (size (stats self) =? 0)%nat || args_percpu self || is_disabled = false ->
  msg_curse self = Ok lines ->
  length (filter (fun l => msg l = newline) lines) = 3%nat.
Proof.
  intros Hguard Hm. unfold msg_curse in Hm. rewrite Hguard in Hm.
  cbv zeta in Hm.
  apply bind_ok_inv in Hm as (header & Hheader & Hm).
  apply bind_ok_inv in Hm as (total & Htotal & Hm).
  apply bind_ok_inv in Hm as (idle & Hidle & Hm).
  apply bind_ok_inv in Hm as (ctx & Hctx & Hm).
  apply bind_ok_inv in Hm as (user & Huser & Hm).
  apply bind_ok_inv in Hm as (irq & Hirq & Hm).
  apply bind_ok_inv in Hm as (inter & Hinter & Hm).
  apply bind_ok_inv in Hm as (system & Hsystem & Hm).
  apply bind_ok_inv in Hm as (nice & Hnice & Hm).
  apply bind_ok_inv in Hm as (soft & Hsoft & Hm).
  apply bind_ok_inv in Hm as (iowait & Hiowait & Hm).
  apply bind_ok_inv in Hm as (steal & Hsteal & Hm).
  apply bind_ok_inv in Hm as (syscalls & Hsyscalls & Hm).
  injection Hm as <-.
  assert (plain header) as H1 by block_plain Hheader.
  assert (plain total) as H2 by block_plain Htotal.
  assert (plain idle) as H3 by block_plain Hidle.
  assert (plain ctx) as H4 by block_plain Hctx.
  assert (plain user) as H5 by block_plain Huser.
  assert (plain irq) as H6 by block_plain Hirq.
  assert (plain inter) as H7 by block_plain Hinter.
  assert (plain system) as H8 by block_plain Hsystem.
  assert (plain nice) as H9 by block_plain Hnice.
  assert (plain soft) as H10 by block_plain Hsoft.
  assert (plain iowait) as H11 by block_plain Hiowait.
  assert (plain steal) as H12 by block_plain Hsteal.
  assert (plain syscalls) as H13 by block_plain Hsyscalls.
  unfold curse_new_line.
  repeat (rewrite filter_app || rewrite filter_break).
  rewrite (filter_plain _ H1), (filter_plain _ H2), (filter_plain _ H3),
    (filter_plain _ H4), (filter_plain _ H5), (filter_plain _ H6),
    (filter_plain _ H7), (filter_plain _ H8), (filter_plain _ H9),
    (filter_plain _ H10), (filter_plain _ H11), (filter_plain _ H12),
    (filter_plain _ H13).
  reflexivity.
Qed.

(** X2. With [time_since_update] equal to zero the rate is a
    [ZeroDivisionError], and a displayed panel that gets as far as the
    'ctx_switches' line raises it: on covered views, with 'total' and
    'ctx_switches' in a Snapshot of exact values, and the 'user' trend
    unknown or the 'system' trend known, [msg_curse] raises
    [ZeroDivisionError] and no other exception. Nothing in [msg_curse]
    guards the division. *)
Theorem msg_curse_zero_elapsed (self : PluginModel) (t : num) :
  (size (stats self) =? 0)%nat || args_percpu self || is_disabled = false ->
  get_trend "user" = None \/ is_Some (get_trend "system") ->
  covers (stats self) (views self) ->
  contains (stats self) "total" = true ->
  contains (stats self) "ctx_switches" = true ->
  stats self !! "time_since_update" = Some t ->
  num_is_zero t = true ->
  Range.all_exact (stats self) = true ->
  per_second self "ctx_switches" = Raise ZeroDivisionError
  /\ msg_curse self = Raise ZeroDivisionError.
Proof.
  intros Hguard Htrend Hcov Htotal Hctx Ht Hz _.
  assert (Hrate : per_second self "ctx_switches" = Raise ZeroDivisionError).
  { unfold per_second, item.
    destruct (contains_item _ _ Hctx) as [v Hv]. unfold item in Hv.
    destruct (stats self !! "ctx_switches"); [|discriminate].
    rewrite Ht. simpl. unfold floordiv. by rewrite Hz. }
  split; [exact Hrate|].
  unfold msg_curse. rewrite Hguard. cbv zeta.
  match goal with
  | |- (?m ≫= _) = Raise _ => assert (exists b, m = Ok b) as [header ->]
  end.
  { destruct Htrend as [->|[y ->]]; [simpl; eauto|].
    destruct (get_trend "user"); simpl; eauto. }
  cbn [mbind result_bind].
  do 2 next_block_raising.
  rewrite Hctx.
  destruct (covered_optional self "ctx_switches" Hcov Hctx) as [o ->].
  cbn [mbind result_bind]. by rewrite Hrate.
Qed.

(** X3. The 'core:' line, written when the Snapshot lacks 'user' or
    'system', reads [self.stats['nb_log_core']], while [update_local] stores
    the core count under 'cpucore'. A displayed panel that gets as far as
    that line without the key raises [KeyError('nb_log_core')] and no other
    exception: on covered views, with 'total' and 'time_since_update' in a
    Snapshot within range that lacks 'user' or 'system' and has no
    'nb_log_core', and the 'user' trend unknown or the 'system' trend
    known. *)
Theorem msg_curse_core_line (self : PluginModel) (t : num) :
  (size (stats self) =? 0)%nat || args_percpu self || is_disabled = false ->
  get_trend "user" = None \/ is_Some (get_trend "system") ->
  covers (stats self) (views self) ->
  contains (stats self) "total" = true ->
  contains (stats self) "user" = false \/ contains (stats self) "system" = false ->
  contains (stats self) "nb_log_core" = false ->
  stats self !! "time_since_update" = Some t ->
  Range.in_range (stats self) = true ->
  msg_curse self = Raise (KeyError "nb_log_core").
Proof.
  intros Hguard Htrend Hcov Htotal Hus Hcore Ht Hrange.
  unfold msg_curse. rewrite Hguard. cbv zeta.
  match goal with
  | |- (?m ≫= _) = Raise _ => assert (exists b, m = Ok b) as [header ->]
  end.
  { destruct Htrend as [->|[y ->]]; [simpl; eauto|].
    destruct (get_trend "user"); simpl; eauto. }
  cbn [mbind result_bind].
  do 6 next_block_raising.
  assert (Hcond : contains (stats self) "system"
                  && negb (negb (contains (stats self) "user")) = false).
  { destruct Hus as [-> | ->]; [by rewrite andb_false_r|done]. }
  rewrite Hcond. unfold contains in Hcore. unfold item.
  by destruct (stats self !! "nb_log_core").
Qed.

(** X9. A displayed panel renders whenever the 'user' trend is unknown or
    the 'system' trend known, its views cover the Snapshot, and the Snapshot
    holds 'total', 'time_since_update' and either both 'user' and 'system'
    or 'nb_log_core', within the range in which Python computes exactly:
    every value a finite double or an [int] of at most [2**53], and every
    counter's rate a quotient by a non-zero time, below [2**50]. There no
    conversion, division or format of [msg_curse] can fail. *)
Theorem msg_curse_returns (self : PluginModel) (t : num) :
  (size (stats self) =? 0)%nat || args_percpu self || is_disabled = false ->
  get_trend "user" = None \/ is_Some (get_trend "system") ->
  covers (stats self) (views self) ->
  contains (stats self) "total" = true ->
  contains (stats self) "user" && contains (stats self) "system"
  || contains (stats self) "nb_log_core" = true ->
  stats self !! "time_since_update" = Some t ->
  Range.in_range (stats self) = true ->
  exists lines, msg_curse self = Ok lines.
Proof. apply msg_curse_renders. Qed.

(** X10. Whatever the Snapshot and the views hold, the fragments of a
    displayed panel contain exactly three line-break sentinels: the three
    [curse_new_line] calls are the only fragments whose text is a line break,
    every other text being padded to two characters or more. The panel is
    four rows high. *)
Theorem msg_curse_four_rows (self : PluginModel) lines :
  (size (stats self) =? 0)%nat || args_percpu self || is_disabled = false ->
  msg_curse self = Ok lines ->
  length (filter (fun l => msg l = newline) lines) = 3%nat.
Proof. apply msg_curse_breaks. Qed.

(** X11. One full cycle of a local plugin: once [update] has returned, on
    a pass whose percentages report 'user' and 'system', a Snapshot within
    the range in which Python computes exactly (in particular the elapsed
    time is not zero wherever a counter is rendered), [update_views] returns
    and [msg_curse] renders the four-row panel (the plugin being displayed,
    and the 'user' trend unknown or the 'system' trend known). *)
Theorem sampled_panel_renders (self self1 : PluginModel) (src : Sample)
  (st : Stats) :
  input_method self = "local" ->
  args_percpu self = false ->
  is_disabled = false ->
  get_trend "user" = None \/ is_Some (get_trend "system") ->
  "user" ∈ _fields (cpu_times_percent src) ->
  "system" ∈ _fields (cpu_times_percent src) ->
  "time_since_update" ∉ _fields (cpu_stats src) ->
  update self src = Ok (st, self1) ->
  Range.in_range st = true ->
  exists self2 lines,
    update_views self1 = Ok self2
    /\ msg_curse self2 = Ok lines
    /\ length (filter (fun l => msg l = newline) lines) = 3%nat.
Proof.
  intros Hm Hpercpu Hdis Htrend Huser Hsystem Hnin Hu Hrange.
  destruct (update_inv _ _ _ _ Hm Hu) as (self' & Hl & ->).
  pose proof (update_local_inv _ _ _ _ Hl) as [-> _].
  pose proof (update_local_time _ _ _ _ Hl Hnin) as Ht.
  assert (forall k, k ∈ "total" :: "cpucore" :: _fields (cpu_times_percent src)
                    -> contains st k = true) as Hin.
  { intros k Hk. destruct (update_local_holds _ _ _ _ k Hl Hk) as [v Hv].
    unfold contains. by rewrite Hv. }
  destruct (update_views_covered
              (with_stats (with_cpu_stats_old self (cpu_stats src)) st))
    as (self2 & Hv & Hs & Hp & Hc).
  { destruct (update_local_holds _ _ _ _ "cpucore" Hl) as [v Hv];
      [right; left|]. simpl. eauto. }
  simpl in Hs, Hp.
  assert ((size (stats self2) =? 0)%nat || args_percpu self2 || is_disabled
          = false) as Hguard.
  { rewrite Hs, Hp, Hpercpu, Hdis.
    destruct (size st =? 0)%nat eqn:Hsize; [|done].
    apply Nat.eqb_eq, map_size_empty_iff in Hsize.
    rewrite Hsize in Ht. by rewrite lookup_empty in Ht. }
  destruct (msg_curse_renders self2 (getTimeSinceLastUpdate src))
    as [lines Hlines]; try done.
  - rewrite Hs. apply Hin. left.
  - rewrite Hs, (Hin "user"), (Hin "system"); [done| |]; by do 2 right.
  - by rewrite Hs.
  - by rewrite Hs.
  - exists self2, lines. split; [done|]. split; [done|].
    by apply (msg_curse_breaks self2).
Qed.

End panel.

(** The check of [msg_curse_returns] on the plugin displayed after two
    passes. *)
Lemma msg_curse_returns_witness :
  exists lines,
    msg_curse (H := Scenario.base None None) Scenario.displayed_plugin
    = Ok lines.
Proof.
  apply (msg_curse_returns (H := Scenario.base None None)
           Scenario.displayed_plugin (Float (2 # 1)));
    try (by vm_compute).
  - by left.
  - apply covers_by_lookup. apply (bool_decide_unpack _). by vm_compute.
Defined.

(** The check of [msg_curse_zero_elapsed] on the busy Snapshot taken with no
    time elapsed, once decorated. *)
Lemma msg_curse_zero_elapsed_witness :
  per_second Cases.stalled_display "ctx_switches" = Raise ZeroDivisionError
  /\ msg_curse (H := Scenario.base None None) Cases.stalled_display
     = Raise ZeroDivisionError.
Proof.
  apply (msg_curse_zero_elapsed (H := Scenario.base None None)
           Cases.stalled_display (Float (0 # 1)));
    try (by vm_compute).
  - by left.
  - apply covers_by_lookup. apply (bool_decide_unpack _). by vm_compute.
Defined.

(** The check of [msg_curse_core_line] on the busy Snapshot, decorated: it
    holds neither 'user' nor 'nb_log_core'. *)
Lemma msg_curse_core_line_witness :
  msg_curse (H := Scenario.base None None) Cases.busy_display
  = Raise (KeyError "nb_log_core").
Proof.
  apply (msg_curse_core_line (H := Scenario.base None None)
           Cases.busy_display (Float (2 # 1)));
    try (by vm_compute).
  - by left.
  - apply covers_by_lookup. apply (bool_decide_unpack _). by vm_compute.
  - left. by vm_compute.
Defined.

(** The check of [msg_curse_four_rows] on the same plugin. *)
Lemma msg_curse_four_rows_witness :
  let lines :=
    Cases.returned
      (msg_curse (H := Scenario.base None None) Scenario.displayed_plugin) [] in
  msg_curse (H := Scenario.base None None) Scenario.displayed_plugin = Ok lines
  /\ length (filter (fun l => msg l = newline) lines) = 3%nat.
Proof.
  intros lines.
  assert (msg_curse (H := Scenario.base None None) Scenario.displayed_plugin
          = Ok lines) as Hm by (vm_compute; reflexivity).
  split; [exact Hm|].
  apply (msg_curse_four_rows (H := Scenario.base None None)
           Scenario.displayed_plugin lines); [by vm_compute|exact Hm].
Defined.

(** The check of [sampled_panel_renders] on the first pass of the fresh
    plugin. *)
Lemma sampled_panel_renders_witness :
  let pass :=
    Cases.returned
      (update (H := Scenario.base None None) Scenario.fresh_plugin
         (Scenario.sample 120))
      (∅, Scenario.fresh_plugin) in
  exists self2 lines,
    update_views (H := Scenario.base None None) (snd pass) = Ok self2
    /\ msg_curse (H := Scenario.base None None) self2 = Ok lines
    /\ length (filter (fun l => msg l = newline) lines) = 3%nat.
Proof.
  intros pass.
  apply (sampled_panel_renders (H := Scenario.base None None)
           Scenario.fresh_plugin (snd pass) (Scenario.sample 120) (fst pass));
    [reflexivity | reflexivity | reflexivity | by left
    | apply (bool_decide_unpack _); by vm_compute
    | apply (bool_decide_unpack _); by vm_compute
    | apply (bool_decide_unpack _); by vm_compute
    | vm_compute; reflexivity
    | by vm_compute].
Defined.

End CpuPanel.

(** ** Further properties of the Rich display *)

Module RichExtra.
Import Py Rich PyProps RichProps.

Lemma split_lines_nonempty s : split_lines s <> [].
Proof.
  induction s as [|c s IH]; simpl; [done|].
  destruct (Ascii.eqb c "010"%char); [done|].
  by destruct (split_lines s).
Qed.

(** [max(l, key=len)] on a non-empty list: an element of the list that no
    other exceeds in length. *)
Lemma max_by_len_spec l :
  l <> [] ->
  exists best, max_by_len l = Ok best /\ best ∈ l
    /\ forall s, s ∈ l -> (String.length s <= String.length best)%nat.
Proof.
  induction l as [|s rest IH]; [done|]. intros _.
  destruct rest as [|s' rest'].
  - exists s. split; [done|]. split; [left|].
    intros x ->%list_elem_of_singleton. lia.
  - destruct IH as (best & Hbest & Hin & Hmax); [done|].
    change (max_by_len (s :: s' :: rest'))
      with (best ← max_by_len (s' :: rest');
            Ok (if (String.length s <? String.length best)%nat
                then best else s)).
    rewrite Hbest. simpl.
    destruct (String.length s <? String.length best)%nat eqn:Hlt.
    + apply Nat.ltb_lt in Hlt. exists best. split; [done|].
      split; [by right|].
      intros x [->|Hx]%elem_of_cons; [lia|by apply Hmax].
    + apply Nat.ltb_ge in Hlt. exists s. split; [done|]. split; [left|].
      intros x [->|Hx]%elem_of_cons; [lia|].
      specialize (Hmax x Hx). lia.
Qed.

Section measuring.
Context `{Compat}.

(** X12. On content whose fragments all have their text, [_get_width]
    returns the length of a longest line of the joined text, without logging
    anything: no line is longer, and some line is that long. Without the
    options, the fragments flagged optional count as empty text. *)
Theorem get_width_longest (stats_display : pyval) (without_option : bool)
  (items : list pyval) (parts : list string) (w : World) :
  fragments stats_display = Ok items ->
  comprehension
    (fun i =>
       if without_option then
         optional ← getitem i "optional";
         if negb (truthy optional) then m ← getitem i "msg"; ascii_replace m
         else Ok ""
       else m ← getitem i "msg"; ascii_replace m) items = Ok parts ->
  exists c,
    _get_width stats_display without_option w = (Ok c, w)
    /\ (forall line, line ∈ split_lines (join parts) -> len line <= c)
    /\ exists line, line ∈ split_lines (join parts) /\ len line = c.
Proof.
  unfold fragments. intros Hitems Hparts.
  apply bind_ok_inv in Hitems as (msgdict & Hdict & Hitems).
  destruct (max_by_len_spec (split_lines (join parts)))
    as (best & Hbest & Hin & Hmax); [apply split_lines_nonempty|].
  exists (len best).
  assert (_get_width_try stats_display without_option = Ok (len best)) as Htry.
  { unfold _get_width_try.
    destruct without_option; rewrite Hdict; simpl; rewrite Hitems; simpl;
      rewrite Hparts; simpl; by rewrite Hbest. }
  unfold _get_width. rewrite Htry. split; [done|]. split.
  - intros line Hline. unfold len. specialize (Hmax line Hline). lia.
  - by exists best.
Qed.

(** X13. The descriptor of a loaded plugin. When [_plugin_to_rich] returns
    on a plugin that [get_plugin] finds, the content was fetched with the
    34-column limit for the middle-left plugins and no limit for the others,
    and every fragment of it has a 'msg': the comprehension over the
    fragments runs outside any handler, so the measurement fallbacks never
    decide the height. The title is the capitalised plugin name, the height
    is the number of line-break sentinels plus three, the width is four or
    more, and [display] is the content's. *)
Theorem plugin_to_rich_descriptor (stats : GlancesStats) (p : string)
  (pl : Plugin) (d : Descriptor) (w w' : World) :
  get_plugin stats p = Some pl ->
  _plugin_to_rich stats p w = (Ok d, w') ->
  exists content,
    get_stats_display pl (if member p _middle_left
                          then Some _middle_left_width else None) = Ok content
    /\ well_formed content = true
    /\ title d = capitalize p /\ subtitle d = ""
    /\ height d = sentinels content + 3
    /\ 4 <= width d
    /\ getitem content "display" = Ok (display d).
Proof.
  intros Hp. unfold _plugin_to_rich. rewrite Hp. cbv zeta. intros Hrun.
  apply bind_run_ok_inv in Hrun as ([] & w1 & _ & Hrun).
  apply bind_run_ok_inv in Hrun as (content & w2 & [Hfetch _]%lift_ok_inv & Hrun).
  apply bind_run_ok_inv in Hrun as (repr & w3 & [Hmsgs _]%lift_ok_inv & Hrun).
  apply bind_run_ok_inv in Hrun as (text & w4 & _ & Hrun).
  apply bind_run_ok_inv in Hrun as (wd & w5 & Hwidth & Hrun).
  apply bind_run_ok_inv in Hrun as (ht & w6 & Hheight & Hrun).
  apply bind_run_ok_inv in Hrun as (disp & w7 & [Hdisp _]%lift_ok_inv & Hrun).
  injection Hrun as <- _. simpl.
  exists content. split; [exact Hfetch|].
  destruct (_get_height_try_spec content) as [Hwf Hmal].
  assert (well_formed content = true) as Hgood.
  { destruct (well_formed content); [done|].
    destruct (Hmal eq_refl) as [e He]. unfold _get_height_try in He.
    rewrite Hmsgs in He. discriminate He. }
  split; [exact Hgood|]. do 2 (split; [done|]). split; [|split; [|done]].
  - unfold _get_height in Hheight. rewrite (Hwf Hgood) in Hheight.
    injection Hheight as <- _. lia.
  - unfold _get_width in Hwidth.
    destruct (_get_width_try content false) as [c|e] eqn:Htry.
    + injection Hwidth as <- _.
      pose proof (_get_width_try_nonneg content false c Htry). lia.
    + rewrite bind_run in Hwidth. simpl in Hwidth. injection Hwidth as <- _.
      lia.
Qed.

Lemma plugins_loop_keys stats l (acc sd : gmap string Descriptor) w w' :
  for_eachM (fun ret p => d ← _plugin_to_rich stats p; mret (<[p := d]> ret))
            l acc w = (Ok sd, w') ->
  (forall p, is_Some (sd !! p) <-> p ∈ l \/ is_Some (acc !! p))
  /\ (forall p, get_plugin stats p = None ->
        sd !! p = if bool_decide (p ∈ l)
                  then Some {| title := ""; subtitle := ""; data := "";
                               width := 0; height := 0;
                               display := PBool false |}
                  else acc !! p).
Proof.
  revert acc w. induction l as [|x l IH]; intros acc w; cbn [for_eachM].
  - intros [= <- _]. split.
    + intros p. rewrite elem_of_nil. tauto.
    + intros p _. case_bool_decide as Hin; [by apply elem_of_nil in Hin|done].
  - intros (acc' & w1 & Hstep & Hrest)%bind_run_ok_inv.
    apply bind_run_ok_inv in Hstep as (d & w2 & Hd & [= <- <-]).
    destruct (IH _ _ Hrest) as [Hdom Hdef]. split.
    + intros p. rewrite (Hdom p), elem_of_cons.
      destruct (decide (x = p)) as [->|Hne].
      * rewrite lookup_insert_eq. split; eauto.
      * rewrite lookup_insert_ne by done. split; [|intros [[->|?]|?]]; tauto.
    + intros p Hp. rewrite (Hdef p Hp).
      case_bool_decide as Hin; case_bool_decide as Hin'.
      * done.
      * exfalso. apply Hin'. by right.
      * apply elem_of_cons in Hin' as [->|Hin']; [|done].
        rewrite lookup_insert_eq.
        unfold _plugin_to_rich in Hd. rewrite Hp in Hd.
        by injection Hd as <- _.
      * apply not_elem_of_cons in Hin' as [Hne _].
        by rewrite lookup_insert_ne.
Qed.

(** X14. When [plugins_to_rich] returns, its dictionary has one descriptor
    per listed plugin and no other; a listed plugin that [get_plugin] does
    not find has the empty descriptor, whose [display] is false: it is
    never shown. *)
Theorem plugins_to_rich_keys (stats : GlancesStats)
  (sd : gmap string Descriptor) (w w' : World) :
  plugins_to_rich stats w = (Ok sd, w') ->
  (forall p, is_Some (sd !! p) <-> p ∈ getPluginsList stats)
  /\ (forall p, p ∈ getPluginsList stats -> get_plugin stats p = None ->
        sd !! p = Some {| title := ""; subtitle := ""; data := "";
                          width := 0; height := 0; display := PBool false |}
        /\ shown sd p = Ok false).
Proof.
  intros [Hdom Hdef]%plugins_loop_keys. split.
  - intros p. rewrite (Hdom p), lookup_empty. split; [|tauto].
    intros [?|[? [=]]]; done.
  - intros p Hin Hp. specialize (Hdef p Hp).
    rewrite bool_decide_eq_true_2 in Hdef by done. split; [done|].
    unfold shown, descriptor. by rewrite Hdef.
Qed.

Lemma shown_key sd p v : shown sd p = Ok v -> is_Some (sd !! p).
Proof.
  unfold shown, descriptor. destruct (sd !! p); [eauto|discriminate].
Qed.

Lemma zone_loop_keys sd (mk : string -> result Layout) names acc res :
  for_each (fun (renderable : list Layout) (p : string) =>
              visible ← shown sd p;
              if (visible : bool) then r ← mk p; Ok (renderable ++ [r])
              else Ok renderable) names acc = Ok res ->
  forall p, p ∈ names -> is_Some (sd !! p).
Proof.
  revert acc. induction names as [|x names IH]; intros acc; simpl.
  - intros _ p Hp. by apply elem_of_nil in Hp.
  - intros (acc' & Hstep & Hrest)%bind_ok_inv p [->|Hp]%elem_of_cons.
    + apply bind_ok_inv in Hstep as (v & Hv & _). by apply shown_key in Hv.
    + by apply (IH _ Hrest).
Qed.

Lemma zone_comprehension_keys sd (mk : string -> result Layout) names res :
  comprehension_if (shown sd) mk names = Ok res ->
  forall p, p ∈ names -> is_Some (sd !! p).
Proof.
  revert res. induction names as [|x names IH]; intros res; simpl.
  - intros _ p Hp. by apply elem_of_nil in Hp.
  - intros (v & Hv & Hstep)%bind_ok_inv p [->|Hp]%elem_of_cons.
    + by apply shown_key in Hv.
    + destruct v; [|by apply (IH _ Hstep)].
      apply bind_ok_inv in Hstep as (r & _ & Hstep).
      apply bind_ok_inv in Hstep as (rest & Hrest & _).
      by apply (IH _ Hrest).
Qed.

(** X15. [update_layout] reads the descriptor of every plugin of the four
    zone tables, shown or not: it returns only if [getPluginsList] names
    them all. *)
Theorem update_layout_needs_plugins (stats : GlancesStats) (w w' : World) :
  update_layout stats w = (Ok (), w') ->
  forall p, p ∈ _top ++ _middle_left ++ _middle_right ++ _bottom ->
            p ∈ getPluginsList stats.
Proof.
  unfold update_layout. intros (sd & w0 & Hfetch & Hu)%bind_run_ok_inv p Hp.
  apply plugins_loop_keys in Hfetch as [Hdom _].
  assert (is_Some (sd !! p)) as Hsome; [|].
  2:{ apply Hdom in Hsome as [?|[? Hempty]]; [done|].
      by rewrite lookup_empty in Hempty. }
  unfold update_layout_with in Hu.
  apply bind_run_ok_inv in Hu as (cpu & w1 & [Hcpu _]%lift_ok_inv & Hu).
  apply bind_run_ok_inv in Hu as (now & w2 & [Hnow _]%lift_ok_inv & Hu).
  apply bind_run_ok_inv in Hu as ([] & w3 & _ & Hu).
  apply bind_run_ok_inv in Hu as (T & w4 & [HT _]%lift_ok_inv & Hu).
  apply bind_run_ok_inv in Hu as ([] & w5 & _ & Hu).
  apply bind_run_ok_inv in Hu as ([] & w6 & _ & Hu).
  apply bind_run_ok_inv in Hu as (ml & w7 & _ & Hu).
  apply bind_run_ok_inv in Hu as (ML & w8 & [HML _]%lift_ok_inv & Hu).
  apply bind_run_ok_inv in Hu as ([] & w9 & _ & Hu).
  apply bind_run_ok_inv in Hu as (MR & w10 & [HMR _]%lift_ok_inv & Hu).
  rewrite !elem_of_app in Hp. destruct Hp as [Hp|[Hp|[Hp|Hp]]].
  - by apply (zone_loop_keys _ _ _ _ _ HT).
  - by apply (zone_comprehension_keys _ _ _ _ HML).
  - by apply (zone_loop_keys _ _ _ _ _ HMR).
  - apply list_elem_of_singleton in Hp as ->.
    unfold descriptor in Hnow. destruct (sd !! "now"); [eauto|discriminate].
Qed.

End measuring.

(** The check of [get_width_longest] on the three fragments of the CPU
    panel. *)
Lemma get_width_longest_witness :
  exists c,
    _get_width (H := Scenario.compat)
      (Scenario.stats_display
         [Scenario.fragment "CPU" false; Scenario.fragment newline false;
          Scenario.fragment "user:    12.0%" true] true)
      false (Scenario.world [])
    = (Ok c, Scenario.world [])
    /\ (forall line,
          line ∈ split_lines (join ["CPU"; newline; "user:    12.0%"]) ->
          len line <= c)
    /\ exists line,
         line ∈ split_lines (join ["CPU"; newline; "user:    12.0%"])
         /\ len line = c.
Proof.
  apply (get_width_longest (H := Scenario.compat)
           (Scenario.stats_display
              [Scenario.fragment "CPU" false; Scenario.fragment newline false;
               Scenario.fragment "user:    12.0%" true] true)
           false
           [Scenario.fragment "CPU" false; Scenario.fragment newline false;
            Scenario.fragment "user:    12.0%" true]
           ["CPU"; newline; "user:    12.0%"] (Scenario.world []));
    reflexivity.
Defined.

(** The check of [plugin_to_rich_descriptor] on the CPU panel, whose content
    has one line-break sentinel. *)
Lemma plugin_to_rich_descriptor_witness :
  let run :=
    _plugin_to_rich (H := Scenario.compat)
      (Scenario.registry Scenario.cpu_panel) "cpu" (Scenario.world []) in
  let d :=
    Cases.returned (fst run)
      {| title := ""; subtitle := ""; data := ""; width := 0; height := 0;
         display := PBool false |} in
  exists content,
    get_stats_display Scenario.cpu_panel None = Ok content
    /\ well_formed content = true
    /\ title d = "Cpu" /\ subtitle d = ""
    /\ height d = sentinels content + 3
    /\ 4 <= width d
    /\ getitem content "display" = Ok (display d).
Proof.
  intros run d.
  apply (plugin_to_rich_descriptor (H := Scenario.compat)
           (Scenario.registry Scenario.cpu_panel) "cpu" Scenario.cpu_panel d
           (Scenario.world []) (snd run));
    [reflexivity | vm_compute; reflexivity].
Defined.

(** The check of [plugins_to_rich_keys] on the registry of the scenario, in
    which 'gpu' is listed and not loaded. *)
Lemma plugins_to_rich_keys_witness :
  let run :=
    plugins_to_rich (H := Scenario.compat)
      (Scenario.registry Scenario.cpu_panel) (Scenario.world []) in
  let sd := Cases.returned (fst run) ∅ in
  is_Some (sd !! "gpu") /\ shown sd "gpu" = Ok false.
Proof.
  intros run sd.
  destruct (plugins_to_rich_keys (H := Scenario.compat)
              (Scenario.registry Scenario.cpu_panel) sd (Scenario.world [])
              (snd run)) as [Hdom Hdef]; [vm_compute; reflexivity|].
  split.
  - apply Hdom. apply (bool_decide_unpack _). by vm_compute.
  - apply Hdef; [|reflexivity]. apply (bool_decide_unpack _). by vm_compute.
Defined.

(** The check of [update_layout_needs_plugins] on the registry of the
    scenario: the layout is composed, and 'wifi', which is not loaded, is
    listed. *)
Lemma update_layout_needs_plugins_witness :
  fst (update_layout (H := Scenario.compat)
         (Scenario.registry Scenario.cpu_panel) (Scenario.world [])) = Ok ()
  /\ "wifi" ∈ getPluginsList (Scenario.registry Scenario.cpu_panel).
Proof.
  split; [vm_compute; reflexivity|].
  apply (update_layout_needs_plugins (H := Scenario.compat)
           (Scenario.registry Scenario.cpu_panel) (Scenario.world [])
           (snd (update_layout (H := Scenario.compat)
                   (Scenario.registry Scenario.cpu_panel)
                   (Scenario.world [])))).
  - vm_compute. reflexivity.
  - apply (bool_decide_unpack _). by vm_compute.
Defined.

End RichExtra.

Module RichBands.
Import Py Rich PyProps RichProps.

Local Abbreviation steady m := (forall w w0 : World, fst (m w) = fst (m w0)).

Lemma steady_bind {A B} (m : M A) (k : A -> M B) :
  steady m -> (forall a, steady (k a)) -> steady (m ≫= k).
Proof.
  intros Hm Hk w w0. rewrite !bind_run. specialize (Hm w w0).
  destruct (m w) as [[a|e] w1], (m w0) as [[a0|e0] w2]; simpl in *;
    try congruence.
  injection Hm as ->. apply Hk.
Qed.

Lemma steady_for_eachM {A S} (f : S -> A -> M S) l acc :
  (forall s x, steady (f s x)) -> steady (for_eachM f l acc).
Proof.
  intros Hf. revert acc. induction l as [|x l IH]; intros acc; simpl; [done|].
  apply steady_bind; [apply Hf|apply IH].
Qed.

Lemma bind_run_ok {A B} (m : M A) (k : A -> M B) w a w1 :
  m w = (Ok a, w1) -> (m ≫= k) w = k a w1.
Proof. intros Hm. by rewrite bind_run, Hm. Qed.

Section bands.
Context `{Compat}.

Local Abbreviation top_row sd :=
  (for_each (fun (renderable : list Layout) (p : string) =>
      visible ← shown sd p;
      if (visible : bool) then
        r ← (if String.eqb p "quicklook" then
               Ok (new_layout Placeholder (Some p) None)
             else
               pn ← panel sd p;
               d ← descriptor sd p;
               Ok (new_layout pn (Some p) (Some (width d))));
        Ok (renderable ++ [r])
      else Ok renderable) _top []).

Local Abbreviation middle_left_column sd :=
  (comprehension_if (shown sd)
     (fun p =>
        pn ← panel sd p;
        d ← descriptor sd p;
        Ok (new_layout pn (Some p) (Some (height d))))
     _middle_left).

Local Abbreviation middle_right_column sd :=
  (for_each (fun (renderable : list Layout) (p : string) =>
      visible ← shown sd p;
      if (visible : bool) then
        r ← (if String.eqb p "processlist" then
               Ok (new_layout Placeholder (Some p) None)
             else
               pn ← panel sd p;
               d ← descriptor sd p;
               Ok (new_layout pn (Some p) (Some (height d))));
        Ok (renderable ++ [r])
      else Ok renderable) _middle_right []).

Local Abbreviation composed r s cpu now T ML MR :=
  (Node r None s ColumnSplitter
     [Node Placeholder (Some "top") (Some (height cpu)) RowSplitter T;
      Node Placeholder (Some "middle") None RowSplitter
        [Node Placeholder (Some "middle_left") (Some 42) ColumnSplitter
           (ML ++ [new_layout Placeholder (Some "middle_left_padding") None]);
         Node Placeholder (Some "middle_right") None ColumnSplitter MR];
      Node Placeholder (Some "bottom") (Some (height now)) RowSplitter
        [new_layout Placeholder (Some "bottom") None]]).

Lemma steady_get_width sd wo : steady (_get_width sd wo).
Proof. intros w w0. unfold _get_width. by destruct (_get_width_try sd wo). Qed.

Lemma steady_get_height sd : steady (_get_height sd).
Proof. intros w w0. unfold _get_height. by destruct (_get_height_try sd). Qed.

(** The descriptors depend on the plugins alone, not on the display. *)
Lemma steady_plugins_to_rich stats : steady (plugins_to_rich stats).
Proof.
  unfold plugins_to_rich. apply steady_for_eachM. intros ret p.
  apply steady_bind; [|done].
  unfold _plugin_to_rich. destruct (get_plugin stats p) as [pl|]; [|done].
  cbv zeta.
  repeat first
    [ apply steady_get_width
    | apply steady_get_height
    | apply steady_bind; [|intros ?]
    | by destruct (String.eqb p "processlist")
    | done ].
Qed.

(** What a returning [update_layout_with] has read and built. *)
Lemma update_layout_with_parts sd w w' :
  update_layout_with sd w = (Ok (), w') ->
  exists cpu now T ML MR,
    sd !! "cpu" = Some cpu /\ sd !! "now" = Some now
    /\ top_row sd = Ok T /\ middle_left_column sd = Ok ML
    /\ middle_right_column sd = Ok MR.
Proof.
  intros Hu. unfold update_layout_with in Hu.
  apply bind_run_ok_inv in Hu as (cpu & w1 & [Hcpu _]%lift_ok_inv & Hu).
  apply bind_run_ok_inv in Hu as (now & w2 & [Hnow _]%lift_ok_inv & Hu).
  apply bind_run_ok_inv in Hu as ([] & w3 & _ & Hu).
  apply bind_run_ok_inv in Hu as (T & w4 & [HT _]%lift_ok_inv & Hu).
  apply bind_run_ok_inv in Hu as ([] & w5 & _ & Hu).
  apply bind_run_ok_inv in Hu as ([] & w6 & _ & Hu).
  apply bind_run_ok_inv in Hu as (ml & w7 & _ & Hu).
  apply bind_run_ok_inv in Hu as (ML & w8 & [HML _]%lift_ok_inv & Hu).
  apply bind_run_ok_inv in Hu as ([] & w9 & _ & Hu).
  apply bind_run_ok_inv in Hu as (MR & w10 & [HMR _]%lift_ok_inv & Hu).
  exists cpu, now, T, ML, MR.
  unfold descriptor in Hcpu, Hnow.
  destruct (sd !! "cpu"); [|discriminate]. injection Hcpu as ->.
  destruct (sd !! "now"); [|discriminate]. injection Hnow as ->.
  done.
Qed.

(** The composition, run forwards from a root layout that bears no name. *)
Lemma update_layout_with_run sd w r s sp cs cpu now T ML MR :
  layout w = Node r None s sp cs ->
  sd !! "cpu" = Some cpu -> sd !! "now" = Some now ->
  top_row sd = Ok T -> middle_left_column sd = Ok ML ->
  middle_right_column sd = Ok MR ->
  update_layout_with sd w
  = (Ok (), with_layout w (composed r s cpu now T ML MR)).
Proof.
  intros Hl Hcpu Hnow HT HML HMR.
  assert (Forall (placed sd _top) T) as HpT.
  { apply zone_loop with (all := _top) in HT as (T' & -> & HT); [done|done|].
    intros p n Hp Hs Hn.
    by apply (placed_flexible sd _top p "quicklook" width). }
  assert (Forall (placed sd _middle_left) ML) as HpML.
  { apply zone_comprehension with (all := _middle_left) in HML; [done|done|].
    intros p n Hp Hs Hn. by apply (placed_stacked sd _middle_left p). }
  assert (Forall (placed sd _middle_right) MR) as HpMR.
  { apply zone_loop with (all := _middle_right) in HMR as (MR' & -> & HMR);
      [done|done|].
    intros p n Hp Hs Hn.
    by apply (placed_flexible sd _middle_right p "processlist" height). }
  unfold update_layout_with.
  erewrite bind_run_ok; [|unfold lift, descriptor; by rewrite Hcpu].
  erewrite bind_run_ok; [|unfold lift, descriptor; by rewrite Hnow].
  erewrite bind_run_ok; [|by rewrite layout_split_column_run, Hl].
  erewrite bind_run_ok; [|unfold lift; by rewrite HT].
  erewrite bind_run_ok.
  2:{ rewrite layout_split_named_run. simpl. reflexivity. }
  erewrite bind_run_ok.
  2:{ rewrite layout_split_named_run. simpl.
      rewrite (zone_split_miss sd _top "middle" _ _ T eq_refl HpT). simpl.
      reflexivity. }
  erewrite bind_run_ok.
  2:{ erewrite bind_run_ok; [|reflexivity].
      unfold lift, layout_getitem. simpl.
      rewrite (zone_get_miss sd _top "middle_left" T eq_refl HpT). simpl.
      reflexivity. }
  erewrite bind_run_ok; [|unfold lift; by rewrite HML].
  erewrite bind_run_ok.
  2:{ rewrite layout_split_named_run. simpl.
      rewrite (zone_split_miss sd _top "middle_left" _ _ T eq_refl HpT). simpl.
      reflexivity. }
  erewrite bind_run_ok; [|unfold lift; by rewrite HMR].
  erewrite bind_run_ok.
  2:{ rewrite layout_split_named_run. simpl.
      rewrite (zone_split_miss sd _top "middle_right" _ _ T eq_refl HpT). simpl.
      rewrite (padded_split_miss sd "middle_right" _ _ ML eq_refl HpML). simpl.
      reflexivity. }
  rewrite layout_split_named_run. simpl.
  rewrite (zone_split_miss sd _top "bottom" _ _ T eq_refl HpT). simpl.
  rewrite (padded_split_miss sd "bottom" _ _ ML eq_refl HpML). simpl.
  rewrite (zone_split_miss sd _middle_right "bottom" _ _ MR eq_refl HpMR). simpl.
  reflexivity.
Qed.

(** X16. The skeleton of the composed layout. From a root layout that bears
    no name, a returning [update_layout] leaves the root with three bands in
    a column: 'top', as high as the 'cpu' panel; 'middle', flexible, a row of
    'middle_left', 42 columns wide and ending with its padding region, and
    'middle_right'; and 'bottom', as high as the 'now' panel, holding one
    empty region. What the root held before is replaced. *)
Theorem update_layout_bands (stats : GlancesStats) (w w' : World) r s sp cs :
  layout w = Node r None s sp cs ->
  update_layout stats w = (Ok (), w') ->
  exists sd cpu now T ML MR,
    fst (plugins_to_rich stats w) = Ok sd
    /\ sd !! "cpu" = Some cpu /\ sd !! "now" = Some now
    /\ layout w'
       = Node r None s ColumnSplitter
           [Node Placeholder (Some "top") (Some (height cpu)) RowSplitter T;
            Node Placeholder (Some "middle") None RowSplitter
              [Node Placeholder (Some "middle_left") (Some 42) ColumnSplitter
                 (ML ++ [new_layout Placeholder (Some "middle_left_padding")
                           None]);
               Node Placeholder (Some "middle_right") None ColumnSplitter MR];
            Node Placeholder (Some "bottom") (Some (height now)) RowSplitter
              [new_layout Placeholder (Some "bottom") None]].
Proof.
  intros Hl Hu. unfold update_layout in Hu.
  apply bind_run_ok_inv in Hu as (sd & w1 & Hfetch & Hu).
  destruct (preserves_plugins_to_rich stats w) as (Hl1 & _).
  rewrite Hfetch in Hl1. simpl in Hl1. rewrite Hl in Hl1.
  destruct (update_layout_with_parts sd w1 w' Hu)
    as (cpu & now & T & ML & MR & Hcpu & Hnow & HT & HML & HMR).
  rewrite (update_layout_with_run sd w1 r s sp cs cpu now T ML MR) in Hu;
    try done.
  injection Hu as <-. exists sd, cpu, now, T, ML, MR.
  by rewrite Hfetch.
Qed.

(** X17. Composing twice composes once: after a returning [update_layout],
    a second call on the same plugins returns as well and leaves the same
    layout. The zones are rebuilt from the descriptors at every cycle and
    nothing accumulates in the tree. *)
Theorem update_layout_idempotent (stats : GlancesStats) (w w1 : World) :
  layout_name (layout w) = None ->
  update_layout stats w = (Ok (), w1) ->
  exists w2, update_layout stats w1 = (Ok (), w2) /\ layout w2 = layout w1.
Proof.
  intros Hroot Hu. unfold update_layout in Hu.
  apply bind_run_ok_inv in Hu as (sd & w0 & Hfetch & Hu).
  destruct (layout w) as [r n s sp cs] eqn:Hl. simpl in Hroot. subst n.
  destruct (preserves_plugins_to_rich stats w) as (Hl0 & _).
  rewrite Hfetch in Hl0. simpl in Hl0. rewrite Hl in Hl0.
  destruct (update_layout_with_parts sd w0 w1 Hu)
    as (cpu & now & T & ML & MR & Hcpu & Hnow & HT & HML & HMR).
  rewrite (update_layout_with_run sd w0 r s sp cs cpu now T ML MR) in Hu;
    try done.
  injection Hu as <-.
  unfold update_layout. rewrite bind_run.
  pose proof (steady_plugins_to_rich stats (with_layout w0
                (composed r s cpu now T ML MR)) w) as Hsame.
  rewrite Hfetch in Hsame. simpl in Hsame.
  destruct (preserves_plugins_to_rich stats
              (with_layout w0 (composed r s cpu now T ML MR))) as (Hl2 & _).
  destruct (plugins_to_rich stats
              (with_layout w0 (composed r s cpu now T ML MR)))
    as [[sd'|e] w0'] eqn:Hfetch'; simpl in Hsame, Hl2; [|discriminate].
  injection Hsame as ->.
  rewrite (update_layout_with_run sd w0' r s ColumnSplitter _ cpu now T ML MR
             Hl2); try done.
  eexists. split; [reflexivity|]. reflexivity.
Qed.

End bands.

(** The check of [update_layout_bands] on the display right after
    [__init__]. *)
Lemma update_layout_bands_witness :
  exists sd cpu now T ML MR,
    fst (plugins_to_rich (H := Scenario.compat)
           (Scenario.registry Scenario.cpu_panel) (Scenario.world []))
    = Ok sd
    /\ sd !! "cpu" = Some cpu /\ sd !! "now" = Some now
    /\ layout (snd (update_layout (H := Scenario.compat)
                      (Scenario.registry Scenario.cpu_panel)
                      (Scenario.world [])))
       = Node Placeholder None None ColumnSplitter
           [Node Placeholder (Some "top") (Some (height cpu)) RowSplitter T;
            Node Placeholder (Some "middle") None RowSplitter
              [Node Placeholder (Some "middle_left") (Some 42) ColumnSplitter
                 (ML ++ [new_layout Placeholder (Some "middle_left_padding")
                           None]);
               Node Placeholder (Some "middle_right") None ColumnSplitter MR];
            Node Placeholder (Some "bottom") (Some (height now)) RowSplitter
              [new_layout Placeholder (Some "bottom") None]].
Proof.
  apply (update_layout_bands (H := Scenario.compat)
           (Scenario.registry Scenario.cpu_panel) (Scenario.world [])
           (snd (update_layout (H := Scenario.compat)
                   (Scenario.registry Scenario.cpu_panel)
                   (Scenario.world [])))
           Placeholder None ColumnSplitter []);
    [reflexivity | vm_compute; reflexivity].
Defined.

(** The check of [update_layout_idempotent] on the same display. *)
Lemma update_layout_idempotent_witness :
  exists w2,
    update_layout (H := Scenario.compat) (Scenario.registry Scenario.cpu_panel)
      (snd (update_layout (H := Scenario.compat)
              (Scenario.registry Scenario.cpu_panel) (Scenario.world [])))
    = (Ok (), w2)
    /\ layout w2
       = layout (snd (update_layout (H := Scenario.compat)
                        (Scenario.registry Scenario.cpu_panel)
                        (Scenario.world []))).
Proof.
  apply (update_layout_idempotent (H := Scenario.compat)
           (Scenario.registry Scenario.cpu_panel) (Scenario.world [])
           (snd (update_layout (H := Scenario.compat)
                   (Scenario.registry Scenario.cpu_panel)
                   (Scenario.world []))));
    [reflexivity | vm_compute; reflexivity].
Defined.

End RichBands.

Module RichLoop.
Import Py Rich PyProps RichProps.

Local Abbreviation quiet :=
  (fun w w' : World =>
     exists extra, log w' = log w ++ extra
       /\ Forall (fun r => exists message cause, r = LogDebug message cause)
                 extra).

#[local] Instance quiet_refl : Reflexive quiet.
Proof. intros w. exists []. by rewrite app_nil_r. Qed.

#[local] Instance quiet_trans : Transitive quiet.
Proof.
  intros w1 w2 w3 (e1 & H1 & Hd1) (e2 & H2 & Hd2). exists (e1 ++ e2).
  rewrite H2, H1, app_assoc. split; [done|]. by apply Forall_app.
Qed.

Ltac quiet_step :=
  let w0 := fresh "w" in
  intros w0; exists []; split; [simpl; by rewrite app_nil_r|constructor].

Lemma quiet_debug message cause : preserves quiet (logger (LogDebug message cause)).
Proof.
  intros w. exists [LogDebug message cause]. split; [done|].
  constructor; [eauto|constructor].
Qed.

Lemma quiet_split_named name sp kids :
  preserves quiet (layout_split_named name sp kids).
Proof.
  intros w. rewrite layout_split_named_run.
  destruct (split_named name sp kids (layout w)); exists [];
    (split; [simpl; by rewrite app_nil_r|constructor]).
Qed.

Section looping.
Context `{Compat}.

Lemma quiet_get_width sd wo : preserves quiet (_get_width sd wo).
Proof.
  unfold _get_width. destruct (_get_width_try sd wo).
  - apply preserves_ret; apply _.
  - apply preserves_bind; [apply _|apply quiet_debug|].
    intros _. apply preserves_ret; apply _.
Qed.

Lemma quiet_get_height sd : preserves quiet (_get_height sd).
Proof.
  unfold _get_height. destruct (_get_height_try sd).
  - apply preserves_ret; apply _.
  - apply preserves_bind; [apply _|apply quiet_debug|].
    intros _. apply preserves_ret; apply _.
Qed.

Lemma quiet_update_layout stats : preserves quiet (update_layout stats).
Proof.
  unfold update_layout, plugins_to_rich. apply preserves_bind; [apply _| |].
  - apply preserves_for_eachM; try apply _. intros ret p.
    apply preserves_bind; [apply _| |intros d; apply preserves_ret; apply _].
    unfold _plugin_to_rich. destruct (get_plugin stats p) as [pl|];
      [|apply preserves_ret; apply _].
    cbv zeta.
    repeat first
      [ apply preserves_ret; apply _
      | apply preserves_lift; apply _
      | apply quiet_get_width
      | apply quiet_get_height
      | apply preserves_bind; [apply _ | | intros ?]
      | match goal with
        | |- context [String.eqb p "processlist"] =>
            destruct (String.eqb p "processlist")
        end
      | quiet_step ].
  - intros sd. unfold update_layout_with, layout_split_column.
    repeat first
      [ apply preserves_ret; apply _
      | apply preserves_lift; apply _
      | apply quiet_split_named
      | apply preserves_bind; [apply _ | | intros ?]
      | quiet_step ].
Qed.

(** X18. Only a late cycle is warned about: called with a duration above 0,
    [update] adds no warning to the log. Whatever it appends there are the
    debug records of the measurements that fell back to 0. *)
Theorem update_warns_only_late (stats : GlancesStats) (duration : num)
  (w : World) :
  gt duration (Int 0) = true ->
  exists extra,
    log (snd (update stats duration w)) = log w ++ extra
    /\ Forall (fun r => exists message cause, r = LogDebug message cause) extra.
Proof.
  unfold gt. intros Hgt. apply negb_true_iff in Hgt.
  change (le duration (Int 0) = false) in Hgt.
  rewrite update_run, Hgt.
  match goal with
  | |- context [update_layout stats ?w0] =>
      destruct (quiet_update_layout stats w0) as (extra & Hlog & Hdebug);
      destruct (update_layout stats w0) as [[[]|e] w3]
  end; simpl in Hlog.
  - destruct (wait_spec (ticks w3) w3) as (b & k & _ & _ & _ & Hg & _).
    rewrite Hg. eauto.
  - eauto.
Qed.

(** The loop, when it ends on the cancel key: the turn that had the key
    pending is the first such turn, the countdown had not expired up to it,
    and every turn up to and including it was drawn. *)
Lemma wait_cancel turns w :
  fst (wait turns false w) = Ok true ->
  exists n t,
    turns !! n = Some t /\ cancel_turn t /\ finished t = false
    /\ (forall m t', (m < n)%nat -> turns !! m = Some t' ->
          ~ cancel_turn t' /\ finished t' = false)
    /\ layout (snd (wait turns false w)) = layout w
    /\ frames (snd (wait turns false w))
       = frames w ++ replicate (S n) (layout w).
Proof.
  revert w. induction turns as [|t rest IH]; intros w; [discriminate|].
  simpl. rewrite bind_run. simpl. rewrite andb_true_r.
  destruct (finished t) eqn:Hfin; simpl; [discriminate|].
  assert (Hcontinue : forall w0 : World,
            layout w0 = layout w -> frames w0 = frames w ++ [layout w] ->
            ~ cancel_turn t ->
            fst (wait rest false w0) = Ok true ->
            exists n t0,
              (t :: rest) !! n = Some t0 /\ cancel_turn t0
              /\ finished t0 = false
              /\ (forall m t', (m < n)%nat -> (t :: rest) !! m = Some t' ->
                    ~ cancel_turn t' /\ finished t' = false)
              /\ layout (snd (wait rest false w0)) = layout w
              /\ frames (snd (wait rest false w0))
                 = frames w ++ replicate (S n) (layout w)).
  { intros w0 Hl0 Hf0 Hnot Hr.
    destruct (IH w0 Hr) as (n & t0 & Hn & Hc & Hfin0 & Hbefore & Hl & Hf).
    exists (S n), t0. rewrite Hl, Hf, Hl0, Hf0, <- app_assoc.
    do 3 (split; [done|]). split; [|done].
    intros [|m] t' Hm; simpl; [by intros [= <-]|].
    apply Hbefore. lia. }
  destruct (kbhit t) as [c|] eqn:Hkey;
    [destruct (is_exit_key (ord c)) eqn:Hexit|].
  - rewrite bind_run. simpl. intros _.
    match goal with
    | |- context [wait rest true ?w0] =>
        destruct (wait_exit rest w0) as (_ & Hl & Hf & _)
    end.
    exists 0%nat, t. rewrite Hl, Hf. simpl.
    split; [done|]. split; [apply cancel_turn_key; eauto|].
    split; [done|]. split; [intros m t' Hm; lia|done].
  - rewrite bind_run. simpl. apply Hcontinue; try done.
    intros (c' & Hc' & Hx)%cancel_turn_key. congruence.
  - rewrite bind_run. simpl. apply Hcontinue; try done.
    intros (c' & Hc' & Hx)%cancel_turn_key. congruence.
Qed.

(** X19. A cancelled cycle still draws the turn of the keystroke. When
    [update] returns true, the first turn with the escape character or 'q'
    pending came before the countdown expired, and the display was redrawn
    once for every turn up to and including that one. *)
Theorem update_cancel_redraws (stats : GlancesStats) (duration : num)
  (w w' : World) :
  update stats duration w = (Ok true, w') ->
  exists n t,
    ticks w !! n = Some t /\ cancel_turn t /\ finished t = false
    /\ (forall m t', (m < n)%nat -> ticks w !! m = Some t' ->
          ~ cancel_turn t' /\ finished t' = false)
    /\ frames w' = frames w ++ replicate (S n) (layout w').
Proof.
  rewrite update_run.
  match goal with
  | |- context [update_layout stats ?w0] =>
      pose proof (preserves_update_layout stats w0) as (Hf & _ & Ht & _);
      destruct (update_layout stats w0) as [[[]|e] w3]; [|discriminate]
  end.
  simpl in Hf, Ht. rewrite Ht. intros Hwait.
  destruct (wait_cancel (ticks w) w3)
    as (n & t & Hn & Hc & Hfin & Hbefore & Hl & Hfr); [by rewrite Hwait|].
  rewrite Hwait in Hl, Hfr. simpl in Hl, Hfr.
  exists n, t. rewrite Hfr, Hl, Hf. done.
Qed.

End looping.

(** The check of [update_warns_only_late] on a cycle of three seconds. *)
Lemma update_warns_only_late_witness :
  exists extra,
    log (snd (update (H := Scenario.compat)
                (Scenario.registry Scenario.cpu_panel) (Int 3)
                (Scenario.world [Scenario.idle_turn])))
    = log (Scenario.world [Scenario.idle_turn]) ++ extra
    /\ Forall (fun r => exists message cause, r = LogDebug message cause) extra.
Proof.
  apply (update_warns_only_late (H := Scenario.compat)
           (Scenario.registry Scenario.cpu_panel) (Int 3)
           (Scenario.world [Scenario.idle_turn])).
  reflexivity.
Defined.

(** The check of [update_cancel_redraws]: an idle turn, an 'a', then 'q'. *)
Lemma update_cancel_redraws_witness :
  let w := Scenario.world [Scenario.idle_turn; Scenario.key_turn "a";
                           Scenario.key_turn "q"; Scenario.idle_turn] in
  let w' := snd (update (H := Scenario.compat)
                   (Scenario.registry Scenario.cpu_panel) (Int 3) w) in
  exists n t,
    ticks w !! n = Some t /\ cancel_turn t /\ finished t = false
    /\ (forall m t', (m < n)%nat -> ticks w !! m = Some t' ->
          ~ cancel_turn t' /\ finished t' = false)
    /\ frames w' = frames w ++ replicate (S n) (layout w').
Proof.
  intros w w'.
  apply (update_cancel_redraws (H := Scenario.compat)
           (Scenario.registry Scenario.cpu_panel) (Int 3) w w').
  vm_compute. reflexivity.
Defined.

End RichLoop.

(** ** Properties of the SNMP input method *)

Module SnmpProps.
Import Py Cpu Snmp PyProps.

Lemma for_each_ext {A S} (f g : S -> A -> result S) l acc :
  (forall s x, f s x = g s x) -> for_each f l acc = for_each g l acc.
Proof.
  intros Hfg. revert acc. induction l as [|x l IH]; intros acc; simpl; [done|].
  rewrite Hfg. destruct (g acc x); simpl; [apply IH|done].
Qed.

Lemma bulk_oid name :
  String.eqb name "windows" || String.eqb name "esxi" = true ->
  lookup snmp_oid name = Ok [("percent", "1.3.6.1.2.1.25.3.3.1.2")].
Proof. by intros [->%String.eqb_eq| ->%String.eqb_eq]%orb_true_iff. Qed.

Section snmp.
Context `{PluginBase}.

(** The loop over the table of per-core loads: it counts the entries whose
    name starts with 'percent', and for each of them reads the entry
    'percent.3'. *)
Lemma bulk_loop `{Agent} (cpu_stats : list (string * string)) keys
  (acc r : Stats) i k :
  acc !! "idle" = Some i -> acc !! "nb_log_core" = Some (Int k) ->
  for_each (fun (stats : Stats) (c : string) =>
              if startswith c "percent" then
                idle ← item stats "idle";
                raw ← lookup cpu_stats "percent.3";
                load ← float raw;
                let stats := <["idle" := add idle load]> stats in
                n ← item stats "nb_log_core";
                Ok (<["nb_log_core" := add n (Int 1)]> stats)
              else Ok stats) keys acc = Ok r ->
  let cores :=
    length (filter (fun c => startswith c "percent" = true) keys) in
  r !! "nb_log_core" = Some (Int (k + Z.of_nat cores))
  /\ is_Some (r !! "idle")
  /\ (cores = 0%nat -> r !! "idle" = Some i)
  /\ ((0 < cores)%nat ->
      exists raw load, assoc "percent.3" cpu_stats = Some raw
                       /\ float raw = Ok load).
Proof.
  revert acc i k. induction keys as [|c keys IH]; intros acc i k Hi Hk; simpl.
  - intros [= <-]. rewrite Z.add_0_r. split; [done|]. split; [eauto|].
    split; [done|]. intros Hpos. simpl in Hpos. lia.
  - intros (acc' & Hstep & Hrest)%bind_ok_inv. rewrite filter_cons.
    destruct (startswith c "percent") eqn:Hc.
    + unfold item in Hstep. rewrite Hi in Hstep. simpl in Hstep.
      apply bind_ok_inv in Hstep as (raw & Hraw & Hstep).
      apply bind_ok_inv in Hstep as (load & Hload & Hstep).
      rewrite lookup_insert_ne, Hk in Hstep by done. simpl in Hstep.
      injection Hstep as <-.
      match type of Hrest with
      | for_each _ _ ?a = _ =>
          assert (a !! "idle" = Some (add i load)) as Hi'
            by (rewrite lookup_insert_ne by done; by rewrite lookup_insert_eq);
          assert (a !! "nb_log_core" = Some (Int (k + 1))) as Hk'
            by (by rewrite lookup_insert_eq)
      end.
      destruct (IH _ _ _ Hi' Hk' Hrest) as (Hn & Hsome & _ & _).
      destruct (decide (true = true)); [|done]. simpl.
      split; [rewrite Hn; do 2 f_equal; lia|]. split; [done|].
      split; [intros [=]|]. intros _. exists raw, load. split; [|done].
      unfold lookup in Hraw. by destruct (assoc "percent.3" cpu_stats) as [x|];
        [injection Hraw as ->|].
    + injection Hstep as <-.
      destruct (decide (false = true)); [done|].
      by apply (IH acc i k).
Qed.

(** X20. The Windows and ESXi branch. When [update_snmp] returns on the
    table the agent answered, the instance is untouched and 'nb_log_core'
    counts the entries whose name starts with 'percent'. With no such entry
    'idle' is 100 and 'total' is 0. With one or more, the table has an entry
    'percent.3' that [float] accepts: the load of every core is read from
    that entry, and a table without it makes the call raise. *)
Theorem update_snmp_cores `{Agent} (self self' : PluginModel)
  (cpu_stats : list (string * string)) (stats : Stats) :
  String.eqb short_system_name "windows"
  || String.eqb short_system_name "esxi" = true ->
  get_stats_snmp [("percent", "1.3.6.1.2.1.25.3.3.1.2")] true = Ok cpu_stats ->
  update_snmp self = (Ok stats, self') ->
  let cores :=
    length (filter (fun c => startswith c "percent" = true)
                   (map fst cpu_stats)) in
  self' = self
  /\ stats !! "nb_log_core" = Some (Int (Z.of_nat cores))
  /\ (cores = 0%nat ->
      stats !! "idle" = Some (Int 100) /\ stats !! "total" = Some (Int 0))
  /\ ((0 < cores)%nat ->
      exists raw load, assoc "percent.3" cpu_stats = Some raw
                       /\ float raw = Ok load).
Proof.
  intros Hname Hquery. unfold update_snmp.
  rewrite Hname, (bulk_oid _ Hname). simpl. rewrite Hquery.
  intros [= Hbulk <-]. split; [done|].
  unfold update_snmp_bulk in Hbulk. cbv zeta in Hbulk.
  apply bind_ok_inv in Hbulk as (r & Hloop & Hbulk).
  apply bulk_loop with (i := Int 0) (k := 0) in Hloop
    as (Hn & [i Hi] & Hzero & Hpos);
    [|by rewrite lookup_insert_eq
     |by rewrite lookup_insert_ne, lookup_insert_eq].
  simpl in Hn.
  apply bind_ok_inv in Hbulk as (n & Hitem & Hbulk).
  unfold item in Hitem. rewrite Hn in Hitem. injection Hitem as <-.
  apply bind_ok_inv in Hbulk as (r' & Hmean & Hbulk).
  assert (r' !! "nb_log_core" = r !! "nb_log_core"
          /\ (gt (Int (Z.of_nat (length (filter
                 (fun c => startswith c "percent" = true)
                 (map fst cpu_stats))))) (Int 0) = false -> r' = r)
          /\ is_Some (r' !! "idle")) as (Hn' & Hsame & [i' Hi']).
  { destruct (gt _ (Int 0)).
    - apply bind_ok_inv in Hmean as (a & _ & Hmean).
      apply bind_ok_inv in Hmean as (b & _ & Hmean).
      apply bind_ok_inv in Hmean as (m & _ & [= <-]).
      rewrite lookup_insert_ne by done. rewrite lookup_insert_eq.
      split; [done|]. split; [done|eauto].
    - injection Hmean as <-. split; [done|]. split; [done|eauto]. }
  apply bind_ok_inv in Hbulk as (i1 & Hi1 & Hbulk). cbv zeta in Hbulk.
  apply bind_ok_inv in Hbulk as (i2 & Hi2 & [= <-]).
  unfold item in Hi1, Hi2. rewrite Hi' in Hi1. injection Hi1 as <-.
  rewrite lookup_insert_eq in Hi2. injection Hi2 as <-.
  split; [|split; [|exact Hpos]].
  - rewrite !lookup_insert_ne by done. by rewrite Hn', Hn.
  - intros Hcores. rewrite lookup_insert_eq.
    rewrite lookup_insert_ne, lookup_insert_eq by done.
    rewrite Hcores in Hsame. rewrite (Hsame eq_refl) in Hi'.
    rewrite (Hzero Hcores) in Hi'. by injection Hi' as <-.
Qed.

(** X21. Only one entry of the table reaches the Snapshot. Two agents that
    answer tables with the same entry names and the same entry 'percent.3'
    make [update_snmp] return the same Snapshot, or raise alike, whatever
    loads the other cores report. *)
Theorem update_snmp_reads_one_entry (agent1 agent2 : Agent)
  (self : PluginModel) (table1 table2 : list (string * string)) :
  @short_system_name agent1 = @short_system_name agent2 ->
  String.eqb (@short_system_name agent1) "windows"
  || String.eqb (@short_system_name agent1) "esxi" = true ->
  (forall s, @float agent1 s = @float agent2 s) ->
  @get_stats_snmp agent1 [("percent", "1.3.6.1.2.1.25.3.3.1.2")] true
  = Ok table1 ->
  @get_stats_snmp agent2 [("percent", "1.3.6.1.2.1.25.3.3.1.2")] true
  = Ok table2 ->
  map fst table1 = map fst table2 ->
  assoc "percent.3" table1 = assoc "percent.3" table2 ->
  @update_snmp _ agent1 self = @update_snmp _ agent2 self.
Proof.
  intros Hname Hbulk Hfloat H1 H2 Hkeys Hentry. unfold update_snmp.
  rewrite <- Hname, Hbulk, (bulk_oid _ Hbulk). simpl. rewrite H1, H2.
  f_equal. unfold update_snmp_bulk. cbv zeta. rewrite Hkeys.
  f_equal. apply for_each_ext. intros s c.
  destruct (startswith c "percent"); [|done].
  unfold lookup. rewrite Hentry.
  destruct (item s "idle"); simpl; [|done].
  destruct (assoc "percent.3" table2); simpl; [|done].
  by rewrite Hfloat.
Qed.

Lemma scalar_loop `{Agent} (answer : list (string * string)) keys
  (acc r : Stats) :
  for_each (fun (stats : Stats) (key : string) =>
              raw ← lookup answer key;
              value ← float raw;
              Ok (<[key := value]> stats)) keys acc = Ok r ->
  (forall k, is_Some (r !! k) <-> k ∈ keys \/ is_Some (acc !! k))
  /\ (forall k, k ∈ keys ->
        exists raw value, assoc k answer = Some raw /\ float raw = Ok value
                          /\ r !! k = Some value).
Proof.
  revert acc. induction keys as [|key keys IH]; intros acc; simpl.
  - intros [= <-]. split.
    + intros k. rewrite elem_of_nil. tauto.
    + intros k Hk. by apply elem_of_nil in Hk.
  - intros (acc' & Hstep & Hrest)%bind_ok_inv.
    apply bind_ok_inv in Hstep as (raw & Hraw & Hstep).
    apply bind_ok_inv in Hstep as (value & Hvalue & [= <-]).
    destruct (IH _ Hrest) as [Hdom Hval]. split.
    + intros k. rewrite (Hdom k), elem_of_cons.
      destruct (decide (key = k)) as [->|Hne].
      * rewrite lookup_insert_eq. split; eauto.
      * rewrite lookup_insert_ne by done. split; [|intros [[->|?]|?]]; tauto.
    + intros k Hk. destruct (decide (k ∈ keys)) as [Hin|Hnin]; [by apply Hval|].
      apply elem_of_cons in Hk as [->|Hk]; [|done].
      exists raw, value. unfold lookup in Hraw.
      destruct (assoc key answer) as [x|]; [injection Hraw as ->|done].
      split; [done|]. split; [done|].
      assert (forall l (a b : Stats),
                for_each (fun (stats : Stats) (key : string) =>
                            raw ← lookup answer key;
                            value ← float raw;
                            Ok (<[key := value]> stats)) l a = Ok b ->
                key ∉ l -> b !! key = a !! key) as Hframe.
      { induction l as [|x l IHl]; intros a b; simpl; [by intros [= <-]|].
        intros (a' & Hs & Hr)%bind_ok_inv [Hne Hl]%not_elem_of_cons.
        rewrite (IHl _ _ Hr Hl).
        apply bind_ok_inv in Hs as (? & _ & Hs).
        apply bind_ok_inv in Hs as (? & _ & [= <-]).
        by rewrite lookup_insert_ne. }
      rewrite (Hframe _ _ _ Hrest Hnin). by rewrite lookup_insert_eq.
Qed.

(** X22. The default branch. When [update_snmp] returns on a system that is
    neither Windows nor ESXi, the agent has answered a query, with an entry
    'idle'. If that entry is empty the Snapshot is reset: the init value is
    returned and stored. Otherwise the instance is untouched and the Snapshot
    mirrors the answer: it has the entries of the answer and 'total', every
    entry other than 'total' holds [float] of what the agent answered, and
    'total' is 100 minus 'idle'. Nothing of the init value is kept. *)
Theorem update_snmp_mirrors_answer `{Agent} (self self' : PluginModel)
  (stats : Stats) :
  String.eqb short_system_name "windows"
  || String.eqb short_system_name "esxi" = false ->
  update_snmp self = (Ok stats, self') ->
  exists oid answer raw_idle,
    get_stats_snmp oid false = Ok answer
    /\ assoc "idle" answer = Some raw_idle
    /\ if String.eqb raw_idle "" then
         stats = get_init_value /\ self' = with_stats self get_init_value
       else
         self' = self
         /\ (forall k, is_Some (stats !! k)
                       <-> k ∈ map fst answer \/ k = "total")
         /\ (forall k raw, k <> "total" -> assoc k answer = Some raw ->
               exists value, float raw = Ok value /\ stats !! k = Some value)
         /\ exists idle, float raw_idle = Ok idle
                         /\ stats !! "total" = Some (sub (Int 100) idle).
Proof.
  intros Hname.
  assert (forall oid answer,
    get_stats_snmp oid false = Ok answer ->
    match lookup answer "idle" with
    | Ok idle =>
        if String.eqb idle "" then
          (Ok (Cpu.stats (reset self)), reset self)
        else (update_snmp_scalar answer, self)
    | Raise e => (Raise e, self)
    end = (Ok stats, self') ->
    exists oid answer raw_idle,
      get_stats_snmp oid false = Ok answer
      /\ assoc "idle" answer = Some raw_idle
      /\ if String.eqb raw_idle "" then
           stats = get_init_value /\ self' = with_stats self get_init_value
         else
           self' = self
           /\ (forall k, is_Some (stats !! k)
                         <-> k ∈ map fst answer \/ k = "total")
           /\ (forall k raw, k <> "total" -> assoc k answer = Some raw ->
                 exists value, float raw = Ok value /\ stats !! k = Some value)
           /\ exists idle, float raw_idle = Ok idle
                           /\ stats !! "total" = Some (sub (Int 100) idle))
    as Hrest.
  { intros oid answer Hoid. unfold lookup.
    destruct (assoc "idle" answer) as [raw_idle|] eqn:Hidle; [|discriminate].
    intros Hrun. exists oid, answer, raw_idle.
    split; [done|]. split; [done|].
    destruct (String.eqb raw_idle ""); [by injection Hrun as <- <-|].
    injection Hrun as Hscalar <-. split; [done|].
    unfold update_snmp_scalar in Hscalar.
    apply bind_ok_inv in Hscalar as (r & Hloop & Hscalar).
    apply bind_ok_inv in Hscalar as (idle & Hi & [= <-]).
    apply scalar_loop in Hloop as [Hdom Hval].
    assert ("idle" ∈ map fst answer) as Hin.
    { apply (CpuProps.assoc_in_fields answer "idle" raw_idle Hidle). }
    split; [|split].
    - intros k. destruct (decide (k = "total")) as [->|Hne].
      + rewrite lookup_insert_eq. split; eauto.
      + rewrite lookup_insert_ne by done. rewrite (Hdom k), lookup_empty.
        split; [intros [?|[? [=]]]; auto|intros [?|?]; [auto|done]].
    - intros k raw Hne Hraw. rewrite lookup_insert_ne by done.
      destruct (Hval k) as (raw' & value & Hraw' & Hvalue & Hk).
      { apply (CpuProps.assoc_in_fields answer k raw Hraw). }
      rewrite Hraw in Hraw'. injection Hraw' as <-. eauto.
    - destruct (Hval "idle" Hin) as (raw' & value & Hraw' & Hvalue & Hk).
      rewrite Hidle in Hraw'. injection Hraw' as <-.
      unfold item in Hi. rewrite Hk in Hi. injection Hi as <-.
      exists value. by rewrite lookup_insert_eq. }
  unfold update_snmp. rewrite Hname. cbv zeta.
  destruct (oid ← lookup snmp_oid short_system_name; get_stats_snmp oid false)
    as [answer|e] eqn:Hfirst.
  - apply bind_ok_inv in Hfirst as (oid & _ & Hoid). by apply (Hrest oid).
  - destruct e; try discriminate.
    destruct (oid ← lookup snmp_oid "default"; get_stats_snmp oid false)
      as [answer|e] eqn:Hsecond; [|discriminate].
    apply bind_ok_inv in Hsecond as (oid & _ & Hoid). by apply (Hrest oid).
Qed.

End snmp.

(** The check of [update_snmp_cores] on a Windows host with three cores. *)
Lemma update_snmp_cores_witness :
  let table := [("percent.1", "10"); ("percent.2", "90"); ("percent.3", "30")] in
  let run :=
    update_snmp (H := Scenario.base None None) (H0 := Cases.windows_agent table)
      Scenario.fresh_plugin in
  let stats := Cases.returned (fst run) ∅ in
  run = (Ok stats, Scenario.fresh_plugin)
  /\ stats !! "nb_log_core" = Some (Int 3)
  /\ exists raw load, assoc "percent.3" table = Some raw
                      /\ float (Agent := Cases.windows_agent table) raw = Ok load.
Proof.
  intros table run stats.
  assert (run = (Ok stats, snd run)) as Hrun by (vm_compute; reflexivity).
  destruct (update_snmp_cores (H := Scenario.base None None)
              (H0 := Cases.windows_agent table) Scenario.fresh_plugin (snd run)
              table stats) as (Hself & Hn & _ & Hpos);
    [reflexivity | reflexivity | exact Hrun |].
  split; [by rewrite Hrun at 1; rewrite Hself|].
  split; [exact Hn|]. apply Hpos. vm_compute. lia.
Defined.

(** The check of [update_snmp_reads_one_entry]: the loads of the first two
    cores differ between the two hosts, the Snapshots do not. *)
Lemma update_snmp_reads_one_entry_witness :
  update_snmp (H := Scenario.base None None)
    (H0 := Cases.windows_agent
             [("percent.1", "10"); ("percent.2", "90"); ("percent.3", "30")])
    Scenario.fresh_plugin
  = update_snmp (H := Scenario.base None None)
      (H0 := Cases.windows_agent
               [("percent.1", "90"); ("percent.2", "10"); ("percent.3", "30")])
      Scenario.fresh_plugin.
Proof.
  apply (update_snmp_reads_one_entry (H := Scenario.base None None)
           (Cases.windows_agent
              [("percent.1", "10"); ("percent.2", "90"); ("percent.3", "30")])
           (Cases.windows_agent
              [("percent.1", "90"); ("percent.2", "10"); ("percent.3", "30")])
           Scenario.fresh_plugin
           [("percent.1", "10"); ("percent.2", "90"); ("percent.3", "30")]
           [("percent.1", "90"); ("percent.2", "10"); ("percent.3", "30")]);
    reflexivity.
Defined.

(** The check of [update_snmp_mirrors_answer] on the NetApp filer. *)
Lemma update_snmp_mirrors_answer_witness :
  let run :=
    update_snmp (H := Scenario.base None None) (H0 := Cases.netapp_agent)
      Scenario.fresh_plugin in
  let stats := Cases.returned (fst run) ∅ in
  exists oid answer raw_idle,
    get_stats_snmp (Agent := Cases.netapp_agent) oid false = Ok answer
    /\ assoc "idle" answer = Some raw_idle
    /\ if String.eqb raw_idle "" then
         stats = get_init_value (PluginBase := Scenario.base None None)
         /\ snd run = with_stats Scenario.fresh_plugin
                        (get_init_value (PluginBase := Scenario.base None None))
       else
         snd run = Scenario.fresh_plugin
         /\ (forall k, is_Some (stats !! k)
                       <-> k ∈ map fst answer \/ k = "total")
         /\ (forall k raw, k <> "total" -> assoc k answer = Some raw ->
               exists value,
                 float (Agent := Cases.netapp_agent) raw = Ok value
                 /\ stats !! k = Some value)
         /\ exists idle,
              float (Agent := Cases.netapp_agent) raw_idle = Ok idle
              /\ stats !! "total" = Some (sub (Int 100) idle).
Proof.
  intros run stats.
  apply (update_snmp_mirrors_answer (H := Scenario.base None None)
           (H0 := Cases.netapp_agent) Scenario.fresh_plugin (snd run) stats);
    [reflexivity | vm_compute; reflexivity].
Defined.

End SnmpProps.
